(** * FraudGuard-AI: the risk-scoring and decision pipeline

    A shallow embedding of the Python back end (the [backend/app] pipeline
    with its two endpoints, [backend/tools/deepfake_tools.py], and the
    Nova-based agents and orchestrator of [backend/agents] and
    [backend/orchestrator.py] with the classifier adapter of
    [backend/tools]) together with the properties its specification states
    about it and further properties of the code.

    Conventions of the embedding.
    - Python [float] values (amounts, probabilities, confidences) are
      rationals [Q]; Python [int] values are [Z].  Comparisons are exact.
      Arithmetic is exact in the [backend/app] pipeline and in the typed
      view of the verification parser; the parser on the raw response and
      the classifier adapter of [backend/tools], whose results are rounded
      or truncated floating-point values, take the floating-point
      operations as collaborators ([PyFloat.Ops]).
    - A [dict] that the code only reads with [.get(key, default)] is a
      record whose fields are [option]s: [None] is an absent key.  A [dict]
      that the code extends with new keys is a [gmap string _].
    - Module globals and in-memory stores are fields of [State], threaded
      explicitly; external collaborators (classifier, encoders, Bedrock,
      SageMaker, clock, random generator) are fields of [World].
    - The functions of [services/aws_services.py] that stand in for AWS
      during local development (user profile store, transaction history,
      SageMaker endpoint, alerting) are collaborators as well; the fixed
      answers of the stand-ins are the values of module [Demo].
    - A raised exception is the left injection of the result of a
      computation in the monad [M].
    - Text printed by the code is not modelled, except for the line with
      which each of the five agents announces its start: these lines are the
      [started] log of the state. *)

From Stdlib Require Import ZArith QArith Qround Qabs String Ascii List Bool.
From Stdlib Require Import Lia Lqa.
From Stdlib Require Import DecimalString.
From stdpp Require Import base option gmap strings list fin_maps.

Local Open Scope string_scope.
Local Open Scope list_scope.
Local Open Scope Z_scope.

(* ===================================================================== *)
(** ** Python primitives used by the code *)
(* ===================================================================== *)

Module Py.

(** [x < y] and [x > y] on numbers. *)
Definition lt (x y : Q) : bool := negb (Qle_bool y x).
Definition gt (x y : Q) : bool := lt y x.
Definition ge (x y : Q) : bool := Qle_bool y x.

(** [int(x)]: truncation towards zero. *)
Definition int (x : Q) : Z := Z.quot (Qnum x) (Zpos (Qden x)).

(** [round(x, 2)]: nearest multiple of 1/100, ties to the even one. *)
Definition round_half_even (x : Q) : Z :=
  let f := Qfloor x in
  let r := (x - inject_Z f)%Q in
  if lt r (1 # 2) then f
  else if lt (1 # 2) r then f + 1
  else if Z.even f then f else f + 1.

Definition round2 (x : Q) : Q :=
  (inject_Z (round_half_even (x * 100)) / 100)%Q.

(** [str(n)] for an integer. *)
Definition str_of_int (n : Z) : string :=
  NilZero.string_of_int (Z.to_int n).

(** [needle in hay] on strings. *)
Fixpoint contains (needle hay : string) : bool :=
  if String.prefix needle hay then true
  else match hay with
       | EmptyString => false
       | String _ rest => contains needle rest
       end.

(** [x in xs] on a list of strings. *)
Definition mem (x : string) (xs : list string) : bool :=
  existsb (String.eqb x) xs.

(** [x in xs] where [x] may be [None] and [xs] holds strings only. *)
Definition mem_opt (x : option string) (xs : list string) : bool :=
  match x with
  | Some s => mem s xs
  | None => false
  end.

(** [any(needle in p for p in patterns)]. *)
Definition any_contains (needle : string) (patterns : list string) : bool :=
  existsb (contains needle) patterns.

(** [sum(...)] over integers. *)
Definition sum (l : list Z) : Z := fold_left Z.add l 0.

(** [s[:n]]. *)
Definition take_str (n : nat) (s : string) : string := String.substring 0 n s.

(** Truthiness of a string. *)
Definition truthy_str (s : string) : bool :=
  match s with EmptyString => false | _ => true end.

(** Exceptions that the modelled code can raise. *)
Inductive Exn :=
| RuntimeError (msg : string)
| TypeError (msg : string)
| KeyError (key : string)
| IndexError
| ValueError (msg : string)
| JSONDecodeError
| ServiceError (msg : string).

Definition str_of_exn (e : Exn) : string :=
  match e with
  | RuntimeError m | TypeError m | ValueError m | ServiceError m => m
  | KeyError k => "'" +:+ k +:+ "'"
  | IndexError => "list index out of range"
  | JSONDecodeError => "Expecting value"
  end.

End Py.

Module PyFloat.

(** Arithmetic on Python [float] values where the numerical result is the
    point.  Every float is a rational, but an operation rounds its result
    to a float, so what it returns is the implementation's: the
    operations are collaborators of the code that uses them. *)
Record Ops := {
  add : Q -> Q -> Q;
  sub : Q -> Q -> Q;
  mul : Q -> Q -> Q;
  div : Q -> Q -> Q;
  round : Q -> Z -> Q   (* round(x, ndigits) *)
}.

(** Arithmetic without rounding error, [round] going to the nearest
    multiple of [10 ^ -ndigits] with ties to the even one (for
    [0 <= ndigits]): what the operations compute when every intermediate
    result is a float. *)
Definition exact : Ops := {|
  add := Qplus;
  sub := Qminus;
  mul := Qmult;
  div := Qdiv;
  round := fun x ndigits =>
    (inject_Z (Py.round_half_even (x * inject_Z (10 ^ ndigits)))
     / inject_Z (10 ^ ndigits))%Q
|}.

End PyFloat.

(* ===================================================================== *)
(** ** Data passed between the stages of [backend/app] *)
(* ===================================================================== *)

(** The transaction [dict]. *)
Record TransactionData := {
  transaction_id : option string;
  user_id : option string;
  transaction_amount : option Q;
  transaction_type : option string;
  merchant_category : option string;
  card_type : option string;
  device_type : option string;
  location : option string;
  authentication_method : option string;
  transaction_distance : option Q;
  account_balance : option Q;
  ip_address_flag : option Q;
  daily_transaction_count : option Q;
  failed_transaction_count_7d : option Q;
  card_age : option Q
}.

(** The user profile [dict] (the baseline). *)
Record UserProfile := {
  profile_user_id : option string;
  avg_transaction_amount : option Q;
  known_devices : option (list string);
  highest_transaction : option Q;
  fraud_history_count : option Q;
  account_age_days : option Z;
  total_transactions : option Z
}.

(** A [timestamp] value of a history entry: a string still to be parsed, or
    a [datetime] object (seconds since the epoch). *)
Inductive Timestamp :=
| TsStr (text : string)
| TsDatetime (seconds : Z).

Record HistoryTxn := {
  h_transaction_id : option string;
  h_timestamp : option Timestamp;
  h_transaction_amount : option Q;
  h_merchant_category : option string
}.

(** Output of the Transaction Monitor. *)
Record MonitorResult := {
  fraud_probability : Q;
  risk_score : Z;
  llm_explanation : string;
  recommendation : string
}.

(** Raw answer of the SageMaker endpoint, read with [.get]. *)
Record DetectionResult := {
  raw_is_deepfake : option bool;
  raw_deepfake_confidence : option Q;
  raw_face_match_score : option Q;
  raw_code_validated : option bool
}.

(** Output of the Deepfake Detector. *)
Record DeepfakeResult := {
  is_deepfake : bool;
  deepfake_confidence : Q;
  face_match_score : Q;
  code_validated : bool;
  verification_passed : bool;
  deepfake_explanation : string
}.

(** One entry of the evidence timeline: the time and what the rendered
    [event] text is built from. *)
Record TimelineEvent := {
  ev_time : option Timestamp;
  ev_current : bool;
  ev_amount : Q;
  ev_merchant : string
}.

(** Output of the Evidence Collector.  [detected_patterns] is read with
    [.get('detected_patterns', [])], [llm_summary] with [.get]. *)
Record Evidence := {
  ev_user_profile : UserProfile;
  transaction_history_count : Z;
  recent_24h_count : Z;
  timeline : list TimelineEvent;
  detected_patterns : option (list string);
  llm_summary : option string
}.

(** Values stored in the risk-assessment [dict]. *)
Inductive PyVal :=
| VNone
| VInt (z : Z)
| VStr (s : string)
| VAdjustments (l : list (string * Z))
| VIds (l : list (option string)).

(** The fraud case record written by the Escalation Handler. *)
Record FraudCase := {
  fc_case_id : string;
  fc_transaction_id : option string;
  fc_user_id : option string;
  fc_risk_score : PyVal;
  fc_status : PyVal;
  fc_amount : Q;
  fc_fraud_report : string;
  fc_evidence_s3_path : string;
  fc_created_at : string
}.

(** The photo [dict] handed to the orchestrator. *)
Record PhotoData := {
  s3_path : string;
  filename : string
}.

(** Input of the SageMaker endpoint. *)
Record SageMakerInput := {
  uploaded_photo_s3 : string;
  reference_photo_s3 : string;
  expected_code : string
}.

(** The five agents; the log of a run records the agents that started. *)
Inductive Agent :=
| TransactionMonitor
| DeepfakeDetector
| EvidenceCollector
| RiskAssessor
| EscalationHandler.

(** What a prompt sent to Bedrock Claude is built from, per call site. *)
Inductive Prompt :=
| MonitorPrompt (tx : TransactionData) (probability : Q) (score : Z)
| DeepfakePrompt (deepfake : bool) (confidence face : Q)
    (code passed : bool)
| EvidencePrompt (user : option string) (avg : Q) (history recent : Z)
    (amount : Q) (patterns : list string)
| RiskPrompt (base : Z) (monitor : MonitorResult)
    (deepfake : option DeepfakeResult) (patterns : list string)
    (summary : option string) (adjustments : list (string * Z))
    (composite : Z) (status : string)
| ReportPrompt (case : string) (tx : TransactionData) (score : PyVal)
    (status : PyVal) (reasoning : option PyVal) (summary : option string)
    (patterns : option (list string)).

(* ===================================================================== *)
(** ** Collaborators, module globals and the monad of the pipeline *)
(* ===================================================================== *)

(** A value of the feature [dict]: a number, or a categorical value that is
    still a string. *)
Inductive FeatureVal :=
| FNum (q : Q)
| FStr (s : string).

(** A fitted label encoder (scikit-learn): its [classes_] and [transform]
    on one value. *)
Record Encoder := {
  classes_ : list string;
  transform : string -> Py.Exn + Z
}.

(** The trained classifier: [predict_proba(features_df)[0][1]] on the row
    of feature values in column order. *)
Record Classifier := {
  predict_proba : list FeatureVal -> Py.Exn + Q
}.

(** External collaborators of one pipeline run.  The clock is read several
    times during a run; the run is taken to be short enough for all reads to
    agree. *)
Record World := {
  bedrock_invoke : Prompt -> Py.Exn + string;
  sagemaker_endpoint : SageMakerInput -> DetectionResult;
  transaction_history : option string -> Z -> list HistoryTxn;
  fromisoformat : string -> option Z;
  now : Z;
  now_hour : Z;
  now_weekday : Z;
  now_yyyymmdd : string;
  now_isoformat : string;
  randint_1000_9999 : Z;
  sns_message_id : option string
}.

(** Module globals: the model globals of [services/fraud_model.py], the
    in-memory stores of [services/aws_services.py], and the list of agents
    that have announced their start on standard output. *)
Record State := {
  MODEL : option Classifier;
  ENCODERS : option (gmap string Encoder);
  FEATURE_COLUMNS : option (list string);
  MOCK_USER_PROFILES : gmap string UserProfile;
  MOCK_FRAUD_CASES : gmap string FraudCase;
  started : list Agent
}.

(** Computations that read and write [State] and may raise. *)
Definition M (A : Type) : Type := State -> (Py.Exn + A) * State.

Definition ret {A} (a : A) : M A := fun s => (inr a, s).

Definition bind {A B} (m : M A) (k : A -> M B) : M B :=
  fun s => match m s with
           | (inr a, s') => k a s'
           | (inl e, s') => (inl e, s')
           end.

Definition raise {A} (e : Py.Exn) : M A := fun s => (inl e, s).

(** [try: m except Exception as e: h e]. *)
Definition try_except {A} (m : M A) (h : Py.Exn -> M A) : M A :=
  fun s => match m s with
           | (inr a, s') => (inr a, s')
           | (inl e, s') => h e s'
           end.

Definition get_state : M State := fun s => (inr s, s).

Definition lift {A} (r : Py.Exn + A) : M A := fun s => (r, s).

(** The state once agent [a] has announced its start. *)
Definition started_with (a : Agent) (s : State) : State :=
  {| MODEL := MODEL s; ENCODERS := ENCODERS s;
     FEATURE_COLUMNS := FEATURE_COLUMNS s;
     MOCK_USER_PROFILES := MOCK_USER_PROFILES s;
     MOCK_FRAUD_CASES := MOCK_FRAUD_CASES s;
     started := started s ++ [a] |}.

Definition announce (a : Agent) : M unit :=
  fun s => (inr tt, started_with a s).

Declare Scope py_scope.
Delimit Scope py_scope with py.
Notation "'let*' x ':=' m 'in' k" := (bind m (fun x => k))
  (at level 10, x name, m at level 100, k at level 200) : py_scope.
Notation "m ';;' k" := (bind m (fun _ => k))
  (at level 100, k at level 200, right associativity) : py_scope.
Local Open Scope py_scope.

(* ===================================================================== *)
(** ** [backend/app/services/aws_services.py] *)
(* ===================================================================== *)

Module Services.

(** [call_bedrock_claude]: every failure of the client becomes text. *)
Definition call_bedrock_claude (w : World) (prompt : Prompt) : string :=
  match bedrock_invoke w prompt with
  | inr text => text
  | inl e => "Error generating explanation: " +:+ Py.str_of_exn e
  end.

Definition default_profile (uid : option string) : UserProfile :=
  {| profile_user_id := uid;
     avg_transaction_amount := Some 1000%Q;
     known_devices := Some ["Desktop"; "Mobile"];
     highest_transaction := None;
     fraud_history_count := None;
     account_age_days := Some 365;
     total_transactions := Some 150 |}.

(** [MOCK_USER_PROFILES.get(user_id, {...})] on a given store. *)
Definition lookup_profile (profiles : gmap string UserProfile)
    (uid : option string) : UserProfile :=
  match uid with
  | Some u => default (default_profile uid) (profiles !! u)
  | None => default_profile uid
  end.

Definition get_user_profile (uid : option string) : M UserProfile :=
  let* s := get_state in
  ret (lookup_profile (MOCK_USER_PROFILES s) uid).

Definition get_user_transaction_history (w : World)
    (uid : option string) (days : Z) : list HistoryTxn :=
  transaction_history w uid days.

Definition get_reference_photo (uid : option string) : string :=
  "s3://mock-bucket/reference/" +:+ default "None" uid +:+ ".jpg".

Definition invoke_sagemaker_endpoint (w : World) (input : SageMakerInput)
    : DetectionResult :=
  sagemaker_endpoint w input.

(** The state once [fraud_case] is stored under its case identifier. *)
Definition with_fraud_case (fraud_case : FraudCase) (s : State) : State :=
  {| MODEL := MODEL s; ENCODERS := ENCODERS s;
     FEATURE_COLUMNS := FEATURE_COLUMNS s;
     MOCK_USER_PROFILES := MOCK_USER_PROFILES s;
     MOCK_FRAUD_CASES :=
       <[fc_case_id fraud_case := fraud_case]> (MOCK_FRAUD_CASES s);
     started := started s |}.

(** [MOCK_FRAUD_CASES[fraud_case['case_id']] = fraud_case]. *)
Definition create_fraud_case (fraud_case : FraudCase) : M unit :=
  fun s => (inr tt, with_fraud_case fraud_case s).

Definition save_evidence_package (case_id : string) : string :=
  "s3://mock-bucket/evidence/" +:+ case_id +:+ "/evidence.json".

(** [send_sns_alert] returns a [dict] whose ['MessageId'] is read with
    [.get]. *)
Definition send_sns_alert (w : World) (subject message : string)
    : option string :=
  sns_message_id w.

End Services.

(* ===================================================================== *)
(** ** [backend/app/utils.py] *)
(* ===================================================================== *)

Module Utils.

Definition get_user_baseline (uid : option string) : M UserProfile :=
  Services.get_user_profile uid.

Definition calculate_suspicious_flag (w : World)
    (transaction_data : TransactionData) (fraud_probability : Q)
    : M (bool * list string) :=
  let reasons : list string := [] in
  let uid := user_id transaction_data in
  let amount := default 0%Q (transaction_amount transaction_data) in
  let* user_baseline := get_user_baseline uid in
  let avg_amount := default 1000%Q (avg_transaction_amount user_baseline) in
  (* Rule 1: high-value deviation *)
  let reasons :=
    if Py.gt amount (avg_amount * 5)%Q && Py.gt amount 5000%Q
    then reasons ++ ["high_value_deviation"] else reasons in
  (* Rule 2: ML model high confidence *)
  let reasons :=
    if Py.gt fraud_probability (60 # 100)%Q
    then reasons ++ ["ml_high_risk"] else reasons in
  (* Rule 3: new device + significant amount *)
  let device := default "Desktop" (device_type transaction_data) in
  let known := default [] (known_devices user_baseline) in
  let reasons :=
    if negb (Py.mem device known) && Py.gt amount 3000%Q
    then reasons ++ ["new_device_high_amount"] else reasons in
  (* Rule 4: unusual hour + significant amount *)
  let hour := now_hour w in
  let reasons :=
    if ((2 <=? hour) && (hour <=? 6)) && Py.gt amount 2000%Q
    then reasons ++ ["unusual_hour"] else reasons in
  (* Rule 5: high transaction distance *)
  let distance := default 0%Q (transaction_distance transaction_data) in
  let reasons :=
    if Py.gt distance 500%Q && Py.gt amount 3000%Q
    then reasons ++ ["geographic_anomaly"] else reasons in
  let is_suspicious := (0 <? Z.of_nat (length reasons)) in
  ret (is_suspicious, reasons).

End Utils.

(* ===================================================================== *)
(** ** [backend/app/services/fraud_model.py] *)
(* ===================================================================== *)

Module FraudModel.

Definition categorical_features : list string :=
  ["Transaction_Type"; "Device_Type"; "Location"; "Merchant_Category";
   "Card_Type"; "Authentication_Method"].

(** The body of the inner [try] of the encoding loop, for one column:
    an unknown category is replaced by the first class, then
    [encoder.transform([value])[0]]. *)
Definition encode_value (encoder : Encoder) (value : FeatureVal)
    : Py.Exn + Z :=
  match value with
  | FStr v =>
      if Py.mem v (classes_ encoder) then transform encoder v
      else match classes_ encoder with
           | c :: _ => transform encoder c
           | [] => inl Py.IndexError
           end
  | FNum _ =>
      (* not reached: the categorical keys hold strings *)
      inl (Py.TypeError "unhashable")
  end.

(** One iteration of the encoding loop, given [ENCODERS]:
    [if col in ENCODERS and col in features: try ... except: features[col] = 0]. *)
Definition encode_column (encoders : gmap string Encoder)
    (features : gmap string FeatureVal) (col : string)
    : gmap string FeatureVal :=
  match encoders !! col, features !! col with
  | Some encoder, Some value =>
      match encode_value encoder value with
      | inr code => <[col := FNum (inject_Z code)]> features
      | inl _ => <[col := FNum 0%Q]> features
      end
  | _, _ => features
  end.

Definition prepare_features (w : World) (transaction_data : TransactionData)
    : M (gmap string FeatureVal) :=
  let* user_baseline := Utils.get_user_baseline (user_id transaction_data) in
  let hour_of_day := now_hour w in
  let day_of_week := now_weekday w in
  let is_weekend := if 5 <=? day_of_week then 1 else 0 in
  let is_unusual_hour :=
    if (2 <=? hour_of_day) && (hour_of_day <=? 6) then 1 else 0 in
  let amount := default 0%Q (transaction_amount transaction_data) in
  let avg_amount_7d :=
    default 1000%Q (avg_transaction_amount user_baseline) in
  let amount_deviation_ratio :=
    (amount / (if Py.gt 1%Q avg_amount_7d then 1%Q else avg_amount_7d))%Q in
  let device := default "Desktop" (device_type transaction_data) in
  let known := default [] (known_devices user_baseline) in
  let is_new_device := if negb (Py.mem device known) then 1 else 0 in
  let highest := default 5000%Q (highest_transaction user_baseline) in
  let is_high_value :=
    if Py.gt amount (highest * (8 # 10))%Q then 1 else 0 in
  let features : gmap string FeatureVal :=
    list_to_map
      [("Transaction_Amount", FNum amount);
       ("Account_Balance",
          FNum (default 50000%Q (account_balance transaction_data)));
       ("IP_Address_Flag",
          FNum (default 0%Q (ip_address_flag transaction_data)));
       ("Previous_Fraudulent_Activity",
          FNum (default 0%Q (fraud_history_count user_baseline)));
       ("Daily_Transaction_Count",
          FNum (default 1%Q (daily_transaction_count transaction_data)));
       ("Avg_Transaction_Amount_7d", FNum avg_amount_7d);
       ("Failed_Transaction_Count_7d",
          FNum (default 0%Q (failed_transaction_count_7d transaction_data)));
       ("Card_Age", FNum (default 24%Q (card_age transaction_data)));
       ("Transaction_Distance",
          FNum (default 0%Q (transaction_distance transaction_data)));
       ("Is_Weekend", FNum (inject_Z is_weekend));
       ("hour_of_day", FNum (inject_Z hour_of_day));
       ("day_of_week", FNum (inject_Z day_of_week));
       ("is_unusual_hour", FNum (inject_Z is_unusual_hour));
       ("amount_deviation_ratio", FNum amount_deviation_ratio);
       ("is_new_device", FNum (inject_Z is_new_device));
       ("is_high_value", FNum (inject_Z is_high_value));
       ("Transaction_Type",
          FStr (default "Online" (transaction_type transaction_data)));
       ("Device_Type", FStr device);
       ("Location", FStr (default "Unknown" (location transaction_data)));
       ("Merchant_Category",
          FStr (default "Retail" (merchant_category transaction_data)));
       ("Card_Type", FStr (default "Credit" (card_type transaction_data)));
       ("Authentication_Method",
          FStr (default "Password"
                  (authentication_method transaction_data)))] in
  let* s := get_state in
  match ENCODERS s with
  | None =>
      (* [col in ENCODERS] on [None], outside the inner [try] *)
      raise (Py.TypeError "argument of type 'NoneType' is not iterable")
  | Some encoders =>
      ret (fold_left (encode_column encoders) categorical_features features)
  end.

(** [features_df[FEATURE_COLUMNS]]: the row in column order. *)
Fixpoint select_columns (features : gmap string FeatureVal)
    (columns : list string) : Py.Exn + list FeatureVal :=
  match columns with
  | [] => inr []
  | col :: rest =>
      match features !! col with
      | None => inl (Py.KeyError col)
      | Some v =>
          match select_columns features rest with
          | inr row => inr (v :: row)
          | inl e => inl e
          end
      end
  end.

Definition predict_fraud_probability (w : World)
    (transaction_data : TransactionData) : M Q :=
  let* s := get_state in
  match MODEL s with
  | None =>
      raise (Py.RuntimeError
               "Model not loaded. Call load_fraud_model() first.")
  | Some model =>
      try_except
        (let* features := prepare_features w transaction_data in
         let* s' := get_state in
         let* row :=
           match FEATURE_COLUMNS s' with
           | Some columns => lift (select_columns features columns)
           | None => raise (Py.KeyError "None")
           end in
         lift (predict_proba model row))
        (fun _ =>
           (* Return moderate risk as fallback *)
           ret (1 # 2)%Q)
  end.

End FraudModel.

(* ===================================================================== *)
(** ** [backend/app/agents/transaction_monitor.py] *)
(* ===================================================================== *)

Module TransactionMonitorAgent.

Definition analyze_transaction (w : World)
    (transaction_data : TransactionData) : M MonitorResult :=
  announce TransactionMonitor;;
  let* probability :=
    FraudModel.predict_fraud_probability w transaction_data in
  let score := Py.int (probability * 100)%Q in
  let explanation :=
    Services.call_bedrock_claude w
      (MonitorPrompt transaction_data probability score) in
  let verdict :=
    if 85 <=? score then "BLOCK"
    else if 60 <=? score then "REVIEW"
    else "APPROVE" in
  ret {| fraud_probability := probability;
         risk_score := score;
         llm_explanation := explanation;
         recommendation := verdict |}.

End TransactionMonitorAgent.

(* ===================================================================== *)
(** ** [backend/app/agents/deepfake_detector.py] *)
(* ===================================================================== *)

Module DeepfakeDetectorAgent.

Definition analyze_deepfake (w : World) (transaction_data : TransactionData)
    (photo_s3_path : string) (code : string) : M DeepfakeResult :=
  announce DeepfakeDetector;;
  let uid := user_id transaction_data in
  let reference_photo_path := Services.get_reference_photo uid in
  let sagemaker_input :=
    {| uploaded_photo_s3 := photo_s3_path;
       reference_photo_s3 := reference_photo_path;
       expected_code := code |} in
  let detection_result :=
    Services.invoke_sagemaker_endpoint w sagemaker_input in
  let deepfake := default false (raw_is_deepfake detection_result) in
  let confidence :=
    default 0%Q (raw_deepfake_confidence detection_result) in
  let face := default 0%Q (raw_face_match_score detection_result) in
  let validated := default false (raw_code_validated detection_result) in
  let passed := negb deepfake && Py.ge face (80 # 100)%Q && validated in
  let explanation :=
    Services.call_bedrock_claude w
      (DeepfakePrompt deepfake confidence face validated passed) in
  ret {| is_deepfake := deepfake;
         deepfake_confidence := confidence;
         face_match_score := face;
         code_validated := validated;
         verification_passed := passed;
         deepfake_explanation := explanation |}.

End DeepfakeDetectorAgent.

(* ===================================================================== *)
(** ** [backend/app/agents/evidence_collector.py] *)
(* ===================================================================== *)

Module EvidenceCollectorAgent.

(** [timestamp.replace('Z', '+00:00')]. *)
Fixpoint replace_Z (s : string) : string :=
  match s with
  | EmptyString => EmptyString
  | String c rest =>
      if Ascii.eqb c "Z"%char then "+00:00" +:+ replace_Z rest
      else String c (replace_Z rest)
  end.

(** A missing, empty or unparsable timestamp is not within the window. *)
Definition is_within_24h (w : World) (timestamp : option Timestamp) : bool :=
  match timestamp with
  | None => false
  | Some (TsStr text) =>
      if Py.truthy_str text then
        match fromisoformat w (replace_Z text) with
        | Some t => now w - t <=? 24 * 3600
        | None => false
        end
      else false
  | Some (TsDatetime t) => now w - t <=? 24 * 3600
  end.

(** [xs[-5:]]. *)
Definition last5 {A} (xs : list A) : list A :=
  skipn (length xs - 5)%nat xs.

Definition collect_evidence (w : World) (transaction_data : TransactionData)
    : M Evidence :=
  announce EvidenceCollector;;
  let uid := user_id transaction_data in
  let* user_profile := Services.get_user_profile uid in
  let history := Services.get_user_transaction_history w uid 90 in
  let history_count := Z.of_nat (length history) in
  let recent_24h :=
    List.filter (fun t => is_within_24h w (h_timestamp t)) history in
  let recent := Z.of_nat (length recent_24h) in
  (* Step 3: timeline *)
  let events :=
    List.map (fun txn =>
                {| ev_time := h_timestamp txn;
                   ev_current := false;
                   ev_amount := default 0%Q (h_transaction_amount txn);
                   ev_merchant :=
                     default "Unknown" (h_merchant_category txn) |})
             (last5 history) in
  let events :=
    events ++
    [{| ev_time := Some (TsStr (now_isoformat w));
        ev_current := true;
        ev_amount := default 0%Q (transaction_amount transaction_data);
        ev_merchant :=
          default "Unknown" (merchant_category transaction_data) |}] in
  (* Step 4: patterns *)
  let patterns : list string := [] in
  let current_amount :=
    default 0%Q (transaction_amount transaction_data) in
  let avg_amount := default 0%Q (avg_transaction_amount user_profile) in
  let patterns :=
    if Py.gt avg_amount 0%Q && Py.gt current_amount (avg_amount * 5)%Q
    then patterns ++
         ["Amount " +:+ Py.str_of_int (Py.int (current_amount / avg_amount)%Q)
            +:+ "x higher than normal"]
    else patterns in
  let patterns :=
    if 10 <? recent
    then patterns ++
         ["High velocity: " +:+ Py.str_of_int recent
            +:+ " transactions in 24h"]
    else patterns in
  let patterns :=
    if negb (Py.mem_opt (device_type transaction_data)
               (default [] (known_devices user_profile)))
    then patterns ++ ["New device detected"]
    else patterns in
  (* Step 5: summary *)
  let summary :=
    Services.call_bedrock_claude w
      (EvidencePrompt uid avg_amount history_count recent current_amount
         patterns) in
  ret {| ev_user_profile := user_profile;
         transaction_history_count := history_count;
         recent_24h_count := recent;
         timeline := events;
         detected_patterns := Some patterns;
         llm_summary := Some summary |}.

End EvidenceCollectorAgent.

(* ===================================================================== *)
(** ** [backend/app/agents/risk_assessor.py] *)
(* ===================================================================== *)

Module RiskAssessorAgent.

(** Step 1, first half: the adjustments that are appended, in order. *)
Definition risk_adjustments (deepfake_result : option DeepfakeResult)
    (patterns : list string) : list (string * Z) :=
  let adjustments : list (string * Z) := [] in
  (* Deepfake detection (if checked) *)
  let adjustments :=
    match deepfake_result with
    | Some d =>
        if is_deepfake d
        then adjustments ++ [("Deepfake detected", 40)]
        else if Py.lt (face_match_score d) (80 # 100)%Q
        then adjustments ++ [("Low face match", 20)]
        else if negb (code_validated d)
        then adjustments ++ [("Code validation failed", 15)]
        else adjustments
    | None => adjustments
    end in
  (* Evidence patterns *)
  let adjustments :=
    if Py.any_contains "higher than normal" patterns
    then adjustments ++ [("Amount anomaly", 15)] else adjustments in
  let adjustments :=
    if Py.any_contains "High velocity" patterns
    then adjustments ++ [("Velocity spike", 10)] else adjustments in
  let adjustments :=
    if Py.any_contains "New device" patterns
    then adjustments ++ [("New device", 10)] else adjustments in
  adjustments.

(** Step 1, second half: [min(base_risk + adjustment_total, 100)]. *)
Definition composite_risk_score (base_risk : Z)
    (adjustments : list (string * Z)) : Z :=
  let adjustment_total := Py.sum (List.map snd adjustments) in
  Z.min (base_risk + adjustment_total) 100.

(** Step 2: status and confidence. *)
Definition determine_status (composite : Z) : string * string :=
  if 85 <=? composite then ("BLOCKED", "very_high")
  else if 70 <=? composite then ("REVIEW", "high")
  else if 50 <=? composite then ("REVIEW", "medium")
  else ("APPROVED", "low_risk").

Definition assess_risk (w : World) (monitor_result : MonitorResult)
    (deepfake_result : option DeepfakeResult) (evidence : Evidence)
    : M (gmap string PyVal) :=
  announce RiskAssessor;;
  let base_risk := risk_score monitor_result in
  let patterns := default [] (detected_patterns evidence) in
  let adjustments := risk_adjustments deepfake_result patterns in
  let composite := composite_risk_score base_risk adjustments in
  let '(status, confidence) := determine_status composite in
  let llm_reasoning :=
    Services.call_bedrock_claude w
      (RiskPrompt base_risk monitor_result deepfake_result patterns
         (llm_summary evidence) adjustments composite status) in
  ret (list_to_map
         [("risk_score", VInt composite);
          ("base_risk", VInt base_risk);
          ("adjustments", VAdjustments adjustments);
          ("status", VStr status);
          ("confidence", VStr confidence);
          ("llm_reasoning", VStr llm_reasoning);
          ("agent", VStr "risk_assessor")]).

End RiskAssessorAgent.

(* ===================================================================== *)
(** ** [backend/agents/escalation_handler.py] *)
(* ===================================================================== *)

(** The [dict] returned by the Escalation Handler. *)
Record EscalationResult := {
  case_id : string;
  fraud_report : string;
  evidence_s3_path : string;
  alerts_sent : list (option string)
}.

Module EscalationHandlerAgent.

(** [d[key]]. *)
Definition item (d : gmap string PyVal) (key : string) : M PyVal :=
  match d !! key with
  | Some v => ret v
  | None => raise (Py.KeyError key)
  end.

Definition handle_escalation (w : World) (transaction_data : TransactionData)
    (risk_assessment : gmap string PyVal) (evidence : Evidence)
    : M EscalationResult :=
  announce EscalationHandler;;
  let tid := transaction_id transaction_data in
  let* score := item risk_assessment "risk_score" in
  (* Step 1: case identifier *)
  let case :=
    "FA-" +:+ now_yyyymmdd w +:+ "-"
      +:+ Py.str_of_int (randint_1000_9999 w) in
  (* Step 2: report; [risk_assessment['status']] is read here and again
     in steps 4 and 5, from the same unchanged [dict] *)
  let* status := item risk_assessment "status" in
  let report :=
    Services.call_bedrock_claude w
      (ReportPrompt case transaction_data score status
         (risk_assessment !! "llm_reasoning") (llm_summary evidence)
         (detected_patterns evidence)) in
  (* Step 3: evidence package *)
  let path := Services.save_evidence_package case in
  (* Step 4: fraud case *)
  let fraud_case :=
    {| fc_case_id := case;
       fc_transaction_id := tid;
       fc_user_id := user_id transaction_data;
       fc_risk_score := score;
       fc_status := status;
       fc_amount := default 0%Q (transaction_amount transaction_data);
       fc_fraud_report := report;
       fc_evidence_s3_path := path;
       fc_created_at := now_isoformat w |} in
  Services.create_fraud_case fraud_case;;
  (* Step 5: alert *)
  let message_id :=
    Services.send_sns_alert w ("Fraud Alert: " +:+ case)
      (Py.take_str 500 report) in
  ret {| case_id := case;
         fraud_report := report;
         evidence_s3_path := path;
         alerts_sent := [message_id] |}.

End EscalationHandlerAgent.

(* ===================================================================== *)
(** ** [backend/app/orchestrator.py] *)
(* ===================================================================== *)

(** The two [dict]s that [orchestrate_transaction] can return. *)
Inductive OrchestratorResult :=
| ImmediateBlock (status : PyVal) (score : PyVal) (reason : string)
    (deepfake_result : DeepfakeResult)
| FullAnalysis (status : PyVal) (score : PyVal)
    (monitor_result : MonitorResult)
    (deepfake_result : option DeepfakeResult) (evidence : Evidence)
    (risk_assessment : gmap string PyVal).

Definition result_status (r : OrchestratorResult) : PyVal :=
  match r with
  | ImmediateBlock st _ _ _ | FullAnalysis st _ _ _ _ _ => st
  end.

Definition result_risk_score (r : OrchestratorResult) : PyVal :=
  match r with
  | ImmediateBlock _ sc _ _ | FullAnalysis _ sc _ _ _ _ => sc
  end.

Module Orchestrator.

(** [x >= 70] for a value of the risk-assessment [dict]. *)
Definition ge_int (v : PyVal) (n : Z) : M bool :=
  match v with
  | VInt z => ret (n <=? z)
  | _ => raise (Py.TypeError "'>=' not supported")
  end.

(** The escalation step: agent 5 and the two item assignments. *)
Definition escalation_step (w : World) (transaction_data : TransactionData)
    (risk_assessment : gmap string PyVal) (evidence : Evidence)
    : M (gmap string PyVal) :=
  let* score := EscalationHandlerAgent.item risk_assessment "risk_score" in
  let* high := ge_int score 70 in
  if high then
    let* escalation_result :=
      EscalationHandlerAgent.handle_escalation w transaction_data
        risk_assessment evidence in
    let risk_assessment :=
      <["case_id" := VStr (case_id escalation_result)]> risk_assessment in
    let risk_assessment :=
      <["alerts_sent" := VIds (alerts_sent escalation_result)]>
        risk_assessment in
    ret risk_assessment
  else ret risk_assessment.

(** Agents 3 to 5 and the final result. *)
Definition synthesize (w : World) (transaction_data : TransactionData)
    (monitor_result : MonitorResult)
    (deepfake_result : option DeepfakeResult) : M OrchestratorResult :=
  let* evidence :=
    EvidenceCollectorAgent.collect_evidence w transaction_data in
  let* risk_assessment :=
    RiskAssessorAgent.assess_risk w monitor_result deepfake_result
      evidence in
  let* risk_assessment :=
    escalation_step w transaction_data risk_assessment evidence in
  let* status := EscalationHandlerAgent.item risk_assessment "status" in
  let* score := EscalationHandlerAgent.item risk_assessment "risk_score" in
  ret (FullAnalysis status score monitor_result deepfake_result evidence
         risk_assessment).

Definition orchestrate_transaction (w : World)
    (transaction_data : TransactionData) (photo_data : option PhotoData)
    (verification_code : option string) : M OrchestratorResult :=
  (* Agent 1 *)
  let* monitor_result :=
    TransactionMonitorAgent.analyze_transaction w transaction_data in
  (* Agent 2, only if [photo_data and verification_code] *)
  match photo_data, verification_code with
  | Some photo, Some code =>
      if Py.truthy_str code then
        let* deepfake_result :=
          DeepfakeDetectorAgent.analyze_deepfake w transaction_data
            (s3_path photo) code in
        if is_deepfake deepfake_result
           || negb (verification_passed deepfake_result)
        then
          ret (ImmediateBlock (VStr "BLOCKED") (VInt 100)
                 "Deepfake authentication detected" deepfake_result)
        else
          synthesize w transaction_data monitor_result (Some deepfake_result)
      else synthesize w transaction_data monitor_result None
  | _, _ => synthesize w transaction_data monitor_result None
  end.

End Orchestrator.

(* ===================================================================== *)
(** ** [backend/tools/deepfake_tools.py] *)
(* ===================================================================== *)

Module DeepfakeTools.

(** The verification payload of the deepfake API and its sub-objects,
    all read with [.get]. *)
Record FaceComparison := {
  fc_match : option bool;
  fc_similarity : option Q;
  fc_confidence : option Q
}.

Record QualityMetrics := {
  brightness : option Q;
  sharpness : option Q
}.

Record Emotion := {
  emotion_type : option string;
  emotion_confidence : option Q
}.

Record Pose := {
  roll : option Q;
  yaw : option Q;
  pitch : option Q
}.

Record QualityCheck := {
  qc_is_real : option bool;
  qc_confidence : option Q;
  qc_quality_score : option Q;
  qc_quality_metrics : option QualityMetrics;
  qc_emotions : option (list Emotion);
  qc_pose : option Pose
}.

Record Checks := {
  eyes_open : option bool;
  no_sunglasses : option bool
}.

Record LivenessCheck := {
  lc_is_live : option bool;
  lc_liveness_score : option Q;
  lc_confidence : option Q;
  lc_checks : option Checks
}.

Record ApiResponse := {
  verification_result : option string;
  face_comparison : option FaceComparison;
  quality_check : option QualityCheck;
  liveness_check : option LivenessCheck;
  reason : option string
}.

(** The empty [dict] [{}] at each of these types. *)
Definition no_face : FaceComparison :=
  {| fc_match := None; fc_similarity := None; fc_confidence := None |}.
Definition no_metrics : QualityMetrics :=
  {| brightness := None; sharpness := None |}.
Definition no_emotion : Emotion :=
  {| emotion_type := None; emotion_confidence := None |}.
Definition no_pose : Pose :=
  {| roll := None; yaw := None; pitch := None |}.
Definition no_quality : QualityCheck :=
  {| qc_is_real := None; qc_confidence := None; qc_quality_score := None;
     qc_quality_metrics := None; qc_emotions := None; qc_pose := None |}.
Definition no_checks : Checks :=
  {| eyes_open := None; no_sunglasses := None |}.
Definition no_liveness : LivenessCheck :=
  {| lc_is_live := None; lc_liveness_score := None; lc_confidence := None;
     lc_checks := None |}.

(** The risk factors, with the values their texts are rendered from. *)
Inductive RiskFactor :=
| FaceMismatch (similarity : Q)
| PotentialDeepfake
| LivenessFailed
| LowImageQuality (score : option Q)
| EyesNotVisible
| SunglassesDetected.

(** The structured verification analysis that is returned. *)
Record Analysis := {
  is_authentic : bool;
  out_verification_result : string;
  overall_confidence : Q;
  face_matched : bool;
  face_similarity : Q;
  face_confidence : Q;
  detection_is_real : bool;
  detection_confidence : Q;
  detection_quality_score : Q;
  liveness_is_live : bool;
  liveness_score : Q;
  liveness_confidence : Q;
  liveness_checks_passed : Checks;
  image_brightness : Q;
  image_sharpness : Q;
  biometrics_pose : Pose;
  top_emotion : string;
  top_emotion_confidence : Q;
  risk_factors : list RiskFactor;
  raw_reason : string
}.

(** [sum(confidences)] on numbers, from [0]. *)
Definition qsum (l : list Q) : Q := fold_left Qplus l 0%Q.

Definition parse_deepfake_result (api_response : ApiResponse) : Analysis :=
  let result := default "UNKNOWN" (verification_result api_response) in
  (* Extract key metrics *)
  let face := default no_face (face_comparison api_response) in
  let quality := default no_quality (quality_check api_response) in
  let liveness := default no_liveness (liveness_check api_response) in
  (* Determine overall authenticity *)
  let authentic :=
    String.eqb result "VERIFIED"
    && default false (fc_match face)
    && default false (qc_is_real quality)
    && default false (lc_is_live liveness) in
  (* Calculate confidence score (average of all checks) *)
  let confidences :=
    [default 0%Q (fc_confidence face);
     default 0%Q (qc_confidence quality);
     default 0%Q (lc_confidence liveness)] in
  let confidence :=
    match confidences with
    | [] => 0%Q
    | _ => (qsum confidences / inject_Z (Z.of_nat (length confidences)))%Q
    end in
  (* Identify risk factors *)
  let factors : list RiskFactor := [] in
  let factors :=
    if negb (default false (fc_match face))
    then factors ++ [FaceMismatch (default 0%Q (fc_similarity face))]
    else factors in
  let factors :=
    if negb (default false (qc_is_real quality))
    then factors ++ [PotentialDeepfake] else factors in
  let factors :=
    if negb (default false (lc_is_live liveness))
    then factors ++ [LivenessFailed] else factors in
  let factors :=
    if Py.lt (default 100%Q (qc_quality_score quality)) 70%Q
    then factors ++ [LowImageQuality (qc_quality_score quality)]
    else factors in
  (* Check for suspicious patterns *)
  let checks := default no_checks (lc_checks liveness) in
  let factors :=
    if negb (default false (eyes_open checks))
    then factors ++ [EyesNotVisible] else factors in
  let factors :=
    match no_sunglasses checks with
    | Some false => factors ++ [SunglassesDetected]
    | _ => factors
    end in
  (* Get emotions *)
  let emotions := default [] (qc_emotions quality) in
  let top := match emotions with e :: _ => e | [] => no_emotion end in
  let metrics := default no_metrics (qc_quality_metrics quality) in
  {| is_authentic := authentic;
     out_verification_result := result;
     overall_confidence := Py.round2 confidence;
     face_matched := default false (fc_match face);
     face_similarity := default 0%Q (fc_similarity face);
     face_confidence := default 0%Q (fc_confidence face);
     detection_is_real := default false (qc_is_real quality);
     detection_confidence := default 0%Q (qc_confidence quality);
     detection_quality_score := default 0%Q (qc_quality_score quality);
     liveness_is_live := default false (lc_is_live liveness);
     liveness_score := default 0%Q (lc_liveness_score liveness);
     liveness_confidence := default 0%Q (lc_confidence liveness);
     liveness_checks_passed := checks;
     image_brightness := default 0%Q (brightness metrics);
     image_sharpness := default 0%Q (sharpness metrics);
     biometrics_pose := default no_pose (qc_pose quality);
     top_emotion := default "UNKNOWN" (emotion_type top);
     top_emotion_confidence := default 0%Q (emotion_confidence top);
     risk_factors := factors;
     raw_reason := default "" (reason api_response) |}.

End DeepfakeTools.

(* ===================================================================== *)
(** ** [backend/agents/risk_assessor.py] (the Nova-based synthesizer) *)
(* ===================================================================== *)

(** JSON values: what [json.loads] returns and what the agents of this
    pipeline pass around. *)
#[warnings="-register-all"]
Inductive Json :=
| JNull
| JBool (b : bool)
| JNum (q : Q)
| JStr (s : string)
| JArr (items : list Json)
| JObj (fields : gmap string Json).

Module NovaRiskAssessor.

(** Collaborators of the synthesizer: the prompt renderer (one large
    format string over the four arguments, which raises when an argument
    has an unexpected shape), the Nova client, the JSON parser of the
    Python library, and the clock. *)
Record Collaborators := {
  build_risk_assessment_prompt :
    Json -> Json -> Json -> Json -> Py.Exn + string;
  call_nova : string -> Z -> Q -> Py.Exn + string;
  json_loads : string -> Py.Exn + Json;
  isoformat_now : string
}.

(** Truthiness of a JSON value. *)
Definition truthy (v : Json) : bool :=
  match v with
  | JNull => false
  | JBool b => b
  | JNum q => negb (Qeq_bool q 0)
  | JStr s => Py.truthy_str s
  | JArr items => match items with [] => false | _ => true end
  | JObj fields => negb (bool_decide (fields = ∅))
  end.

(** [deepfake_result is not None and not deepfake_result.get('error')]. *)
Definition biometric_verified (deepfake_result : Json) : Py.Exn + bool :=
  match deepfake_result with
  | JNull => inr false
  | JObj fields =>
      inr (negb (match fields !! "error" with
                 | Some v => truthy v
                 | None => false
                 end))
  | _ => inl (Py.TypeError "object has no attribute 'get'")
  end.

(** The assessment used when the response is not JSON. *)
Definition parse_fallback (nova_response : string) : gmap string Json :=
  list_to_map
    [("final_verdict", JStr "REVIEW");
     ("confidence_score", JNum 50);
     ("risk_level", JStr "MEDIUM");
     ("risk_summary", JStr "Unable to parse comprehensive assessment");
     ("key_findings", JArr [JStr "System error in risk assessment"]);
     ("decision_reasoning", JStr (Py.take_str 500 nova_response));
     ("recommended_action", JStr "Manual review required")].

(** The assessment returned by the outer [except Exception]. *)
Definition error_assessment (c : Collaborators) (e : Py.Exn)
    : gmap string Json :=
  list_to_map
    [("final_verdict", JStr "REVIEW");
     ("confidence_score", JNum 0);
     ("risk_level", JStr "UNKNOWN");
     ("risk_summary",
        JStr ("Error during assessment: " +:+ Py.str_of_exn e));
     ("key_findings", JArr [JStr "System error"]);
     ("decision_reasoning",
        JStr "Unable to complete risk assessment due to system error");
     ("recommended_action", JStr "Manual review required");
     ("agent", JStr "risk_assessor");
     ("timestamp", JStr (isoformat_now c));
     ("error", JStr (Py.str_of_exn e))].

(** The body of the outer [try]. *)
Definition assess_risk_body (c : Collaborators)
    (transaction_data fraud_result evidence_result deepfake_result : Json)
    : Py.Exn + gmap string Json :=
  match build_risk_assessment_prompt c transaction_data fraud_result
          evidence_result deepfake_result with
  | inl e => inl e
  | inr prompt =>
      match call_nova c prompt 1500 (3 # 10)%Q with
      | inl e => inl e
      | inr nova_response =>
          (* Parse response *)
          let parsed :=
            match json_loads c nova_response with
            | inr v => inr v
            | inl Py.JSONDecodeError =>
                inr (JObj (parse_fallback nova_response))
            | inl e => inl e
            end in
          match parsed with
          | inl e => inl e
          | inr (JObj assessment) =>
              (* Add metadata *)
              let assessment :=
                <["agent" := JStr "risk_assessor"]> assessment in
              let assessment :=
                <["timestamp" := JStr (isoformat_now c)]> assessment in
              match biometric_verified deepfake_result with
              | inl e => inl e
              | inr verified =>
                  inr (<["agents_analyzed" :=
                          JObj (list_to_map
                                  [("fraud_detection", JBool true);
                                   ("evidence_collection", JBool true);
                                   ("biometric_verification",
                                      JBool verified)])]> assessment)
              end
          | inr _ =>
              inl (Py.TypeError "object does not support item assignment")
          end
      end
  end.

(** [assess_risk]: the body, with every exception turned into the error
    assessment. *)
Definition assess_risk (c : Collaborators)
    (transaction_data fraud_result evidence_result deepfake_result : Json)
    : Py.Exn + gmap string Json :=
  match assess_risk_body c transaction_data fraud_result evidence_result
          deepfake_result with
  | inr assessment => inr assessment
  | inl e => inr (error_assessment c e)
  end.

End NovaRiskAssessor.

(* ===================================================================== *)
(** ** [backend/tools/deepfake_tools.py] on the raw response *)
(* ===================================================================== *)

Declare Scope exn_scope.
Delimit Scope exn_scope with exn.

Module DeepfakeToolsRaw.

(** Sequencing of computations that may raise. *)
Definition bind {A B : Type} (m : Py.Exn + A) (k : A -> Py.Exn + B)
  : Py.Exn + B :=
  match m with
  | inl e => inl e
  | inr a => k a
  end.

Notation "'let?' x ':=' m 'in' k" := (bind m (fun x => k))
  (at level 10, x name, m at level 100, k at level 200) : exn_scope.

Local Open Scope exn_scope.

(** The [AttributeError] of [x.get] on a value that is not a [dict]. *)
Definition attribute_error : Py.Exn :=
  Py.TypeError "object has no attribute 'get'".

(** [d.get(key, fallback)]: the fallback stands for an absent key only; a
    key present with the value [None] gives [None]. *)
Definition get (d : Json) (key : string) (fallback : Json) : Py.Exn + Json :=
  match d with
  | JObj fields => inr (default fallback (fields !! key))
  | _ => inl attribute_error
  end.

(** A value as an operand of [+] or [<] against a number: a [bool] counts
    as 0 or 1, anything else than a number raises [TypeError]. *)
Definition number (v : Json) : Py.Exn + Q :=
  match v with
  | JNum q => inr q
  | JBool b => inr (if b then 1%Q else 0%Q)
  | _ => inl (Py.TypeError "unsupported operand type(s)")
  end.

(** [x and rest]: the value of [x] when it is falsy, else that of [rest],
    which is evaluated only then. *)
Definition and_also (x : Json) (rest : Py.Exn + Json) : Py.Exn + Json :=
  if NovaRiskAssessor.truthy x then rest else inr x.

(** [v == 'VERIFIED']. *)
Definition equals_str (v : Json) (s : string) : bool :=
  match v with
  | JStr t => String.eqb t s
  | _ => false
  end.

(** [v == False]. *)
Definition equals_False (v : Json) : bool :=
  match v with
  | JBool b => negb b
  | JNum q => Qeq_bool q 0
  | _ => false
  end.

(** [v[0]]. *)
Definition first_item (v : Json) : Py.Exn + Json :=
  match v with
  | JArr (x :: _) => inr x
  | JArr [] => inl Py.IndexError
  | JStr (String a _) => inr (JStr (String a ""))
  | JStr "" => inl Py.IndexError
  | JObj _ => inl (Py.KeyError "0")
  | _ => inl (Py.TypeError "object is not subscriptable")
  end.

(** The risk factors, with the values that their texts render. *)
Inductive RiskFactor :=
| FaceMismatch (similarity : Json)
| PotentialDeepfake
| LivenessFailed
| LowImageQuality (score : Json)
| EyesNotVisible
| SunglassesDetected.

(** The structured analysis; its entries hold the values found in the
    response, whatever their types. *)
Record Analysis := {
  is_authentic : Json;
  verification_result : Json;
  overall_confidence : Q;
  face_matched : Json;
  face_similarity : Json;
  face_confidence : Json;
  detection_is_real : Json;
  detection_confidence : Json;
  detection_quality_score : Json;
  liveness_is_live : Json;
  liveness_score : Json;
  liveness_confidence : Json;
  checks_passed : Json;
  image_brightness : Json;
  image_sharpness : Json;
  pose : Json;
  top_emotion : Json;
  emotion_confidence : Json;
  risk_factors : list RiskFactor;
  raw_reason : Json
}.

(** [parse_deepfake_result(api_response)], on whatever the service
    answered. *)
Definition parse_deepfake_result (ops : PyFloat.Ops) (api_response : Json)
  : Py.Exn + Analysis :=
  let? verification_result :=
    get api_response "verification_result" (JStr "UNKNOWN") in
  let? face_comparison := get api_response "face_comparison" (JObj ∅) in
  let? quality_check := get api_response "quality_check" (JObj ∅) in
  let? liveness_check := get api_response "liveness_check" (JObj ∅) in
  let? is_authentic :=
    if equals_str verification_result "VERIFIED" then
      let? matched := get face_comparison "match" (JBool false) in
      and_also matched
        (let? is_real := get quality_check "is_real" (JBool false) in
         and_also is_real (get liveness_check "is_live" (JBool false)))
    else inr (JBool false) in
  (* confidences = [...]; sum(confidences) / len(confidences) *)
  let? c1 := get face_comparison "confidence" (JNum 0) in
  let? c2 := get quality_check "confidence" (JNum 0) in
  let? c3 := get liveness_check "confidence" (JNum 0) in
  let? n1 := number c1 in
  let? n2 := number c2 in
  let? n3 := number c3 in
  let overall_confidence :=
    PyFloat.div ops
      (PyFloat.add ops (PyFloat.add ops (PyFloat.add ops 0 n1) n2) n3) 3 in
  let risk_factors := [] in
  let? matched := get face_comparison "match" JNull in
  let? risk_factors :=
    if negb (NovaRiskAssessor.truthy matched) then
      let? similarity := get face_comparison "similarity" (JNum 0) in
      inr (risk_factors ++ [FaceMismatch similarity])
    else inr risk_factors in
  let? is_real := get quality_check "is_real" JNull in
  let risk_factors :=
    if negb (NovaRiskAssessor.truthy is_real)
    then risk_factors ++ [PotentialDeepfake] else risk_factors in
  let? is_live := get liveness_check "is_live" JNull in
  let risk_factors :=
    if negb (NovaRiskAssessor.truthy is_live)
    then risk_factors ++ [LivenessFailed] else risk_factors in
  let? quality_score := get quality_check "quality_score" (JNum 100) in
  let? score := number quality_score in
  let? risk_factors :=
    if Py.lt score 70 then
      let? shown := get quality_check "quality_score" JNull in
      inr (risk_factors ++ [LowImageQuality shown])
    else inr risk_factors in
  let? checks := get liveness_check "checks" (JObj ∅) in
  let? eyes_open := get checks "eyes_open" JNull in
  let risk_factors :=
    if negb (NovaRiskAssessor.truthy eyes_open)
    then risk_factors ++ [EyesNotVisible] else risk_factors in
  let? no_sunglasses := get checks "no_sunglasses" JNull in
  let risk_factors :=
    if equals_False no_sunglasses
    then risk_factors ++ [SunglassesDetected] else risk_factors in
  let? emotions := get quality_check "emotions" (JArr []) in
  let? top_emotion :=
    if NovaRiskAssessor.truthy emotions then first_item emotions
    else inr (JObj ∅) in
  (* the returned dict, its entries in their order *)
  let rounded := PyFloat.round ops overall_confidence 2 in
  let? face_matched := get face_comparison "match" (JBool false) in
  let? face_similarity := get face_comparison "similarity" (JNum 0) in
  let? face_confidence := get face_comparison "confidence" (JNum 0) in
  let? detection_is_real := get quality_check "is_real" (JBool false) in
  let? detection_confidence := get quality_check "confidence" (JNum 0) in
  let? detection_quality_score :=
    get quality_check "quality_score" (JNum 0) in
  let? liveness_is_live := get liveness_check "is_live" (JBool false) in
  let? liveness_score := get liveness_check "liveness_score" (JNum 0) in
  let? liveness_confidence := get liveness_check "confidence" (JNum 0) in
  let? metrics := get quality_check "quality_metrics" (JObj ∅) in
  let? image_brightness := get metrics "brightness" (JNum 0) in
  let? metrics := get quality_check "quality_metrics" (JObj ∅) in
  let? image_sharpness := get metrics "sharpness" (JNum 0) in
  let? pose := get quality_check "pose" (JObj ∅) in
  let? emotion_type := get top_emotion "type" (JStr "UNKNOWN") in
  let? emotion_confidence := get top_emotion "confidence" (JNum 0) in
  let? raw_reason := get api_response "reason" (JStr "") in
  inr {| is_authentic := is_authentic;
         verification_result := verification_result;
         overall_confidence := rounded;
         face_matched := face_matched;
         face_similarity := face_similarity;
         face_confidence := face_confidence;
         detection_is_real := detection_is_real;
         detection_confidence := detection_confidence;
         detection_quality_score := detection_quality_score;
         liveness_is_live := liveness_is_live;
         liveness_score := liveness_score;
         liveness_confidence := liveness_confidence;
         checks_passed := checks;
         image_brightness := image_brightness;
         image_sharpness := image_sharpness;
         pose := pose;
         top_emotion := emotion_type;
         emotion_confidence := emotion_confidence;
         risk_factors := risk_factors;
         raw_reason := raw_reason |}.

End DeepfakeToolsRaw.

(** The conditions of the specification, read on the raw response. *)
Module RawVerifierRules.

(** The entry of an object under a key; [None] when the value is not an
    object or has no such key. *)
Definition entry (d : Json) (key : string) : Json :=
  match d with
  | JObj fields => default JNull (fields !! key)
  | _ => JNull
  end.

(** Absent, as opposed to present with any value, [None] included. *)
Definition absent (d : Json) (key : string) : bool :=
  match d with
  | JObj fields => bool_decide (fields !! key = None)
  | _ => true
  end.


Definition is_number (v : Json) : bool :=
  match v with JNum _ | JBool _ => true | _ => false end.




(** The four conditions of authenticity; an absent object or flag is not
    a pass. *)
Definition status_verified (r : Json) : Prop :=
  entry r "verification_result" = JStr "VERIFIED".

Definition face_match_passed (r : Json) : Prop :=
  NovaRiskAssessor.truthy (entry (entry r "face_comparison") "match") = true.

Definition is_real_passed (r : Json) : Prop :=
  NovaRiskAssessor.truthy (entry (entry r "quality_check") "is_real") = true.

Definition liveness_passed (r : Json) : Prop :=
  NovaRiskAssessor.truthy (entry (entry r "liveness_check") "is_live") = true.

(** A sub-check confidence as a number, a missing one counting as 0. *)
Definition confidence_of (r : Json) (check : string) : Q :=
  match entry (entry r check) "confidence" with
  | JNum q => q
  | JBool true => 1
  | _ => 0
  end.

(** What the parser reads of a response: the fields of the response, of
    its three sub-check objects, of the liveness checks, of the quality
    metrics and of the first emotion, and the four numbers. *)
Record Parts := {
  fields : gmap string Json;
  face : gmap string Json;
  quality : gmap string Json;
  liveness : gmap string Json;
  face_number : Q;
  quality_number : Q;
  liveness_number : Q;
  score_number : Q;
  checks : gmap string Json;
  metrics : gmap string Json;
  emotion : gmap string Json
}.

Definition has_parts (r : Json) (p : Parts) : Prop :=
  r = JObj (fields p)
  /\ default (JObj ∅) (fields p !! "face_comparison") = JObj (face p)
  /\ default (JObj ∅) (fields p !! "quality_check") = JObj (quality p)
  /\ default (JObj ∅) (fields p !! "liveness_check") = JObj (liveness p)
  /\ DeepfakeToolsRaw.number (default (JNum 0) (face p !! "confidence"))
     = inr (face_number p)
  /\ DeepfakeToolsRaw.number (default (JNum 0) (quality p !! "confidence"))
     = inr (quality_number p)
  /\ DeepfakeToolsRaw.number (default (JNum 0) (liveness p !! "confidence"))
     = inr (liveness_number p)
  /\ DeepfakeToolsRaw.number
       (default (JNum 100) (quality p !! "quality_score"))
     = inr (score_number p)
  /\ default (JObj ∅) (liveness p !! "checks") = JObj (checks p)
  /\ default (JObj ∅) (quality p !! "quality_metrics") = JObj (metrics p)
  /\ (if NovaRiskAssessor.truthy
           (default (JArr []) (quality p !! "emotions"))
      then DeepfakeToolsRaw.first_item
             (default (JArr []) (quality p !! "emotions"))
      else inr (JObj ∅))
     = inr (JObj (emotion p)).

End RawVerifierRules.

(* ===================================================================== *)
(** ** The rules of the specification, stated on their own *)
(* ===================================================================== *)

Module GateRules.

(** The five rules of the Suspicion Gate as propositions over the inputs
    of a call: the amount, the baseline average, the probability, the
    device, the known devices, the current hour and the distance. *)
Record Inputs := {
  amount : Q;
  baseline_average : Q;
  probability : Q;
  device : string;
  devices_known : list string;
  hour : Z;
  distance : Q
}.

Definition all_reason_codes : list string :=
  ["high_value_deviation"; "ml_high_risk"; "new_device_high_amount";
   "unusual_hour"; "geographic_anomaly"].

Definition high_value_deviation (i : Inputs) : Prop :=
  (baseline_average i * 5 < amount i)%Q /\ (5000 < amount i)%Q.

Definition ml_high_risk (i : Inputs) : Prop :=
  (60 # 100 < probability i)%Q.

Definition new_device_high_amount (i : Inputs) : Prop :=
  ~ In (device i) (devices_known i) /\ (3000 < amount i)%Q.

Definition unusual_hour (i : Inputs) : Prop :=
  (2 <= hour i <= 6) /\ (2000 < amount i)%Q.

Definition geographic_anomaly (i : Inputs) : Prop :=
  (500 < distance i)%Q /\ (3000 < amount i)%Q.

(** The rule named by a reason code. *)
Definition fires (i : Inputs) (code : string) : Prop :=
  (code = "high_value_deviation" /\ high_value_deviation i)
  \/ (code = "ml_high_risk" /\ ml_high_risk i)
  \/ (code = "new_device_high_amount" /\ new_device_high_amount i)
  \/ (code = "unusual_hour" /\ unusual_hour i)
  \/ (code = "geographic_anomaly" /\ geographic_anomaly i).

(** The five tests as the code computes them, and the list a test
    contributes. *)
Definition test_high_value_deviation (i : Inputs) : bool :=
  Py.gt (amount i) (baseline_average i * 5)%Q && Py.gt (amount i) 5000%Q.

Definition test_ml_high_risk (i : Inputs) : bool :=
  Py.gt (probability i) (60 # 100)%Q.

Definition test_new_device_high_amount (i : Inputs) : bool :=
  negb (Py.mem (device i) (devices_known i)) && Py.gt (amount i) 3000%Q.

Definition test_unusual_hour (i : Inputs) : bool :=
  ((2 <=? hour i) && (hour i <=? 6)) && Py.gt (amount i) 2000%Q.

Definition test_geographic_anomaly (i : Inputs) : bool :=
  Py.gt (distance i) 500%Q && Py.gt (amount i) 3000%Q.

Definition pick (b : bool) (code : string) : list string :=
  if b then [code] else [].

(** The inputs that a call of the gate reads. *)
Definition inputs_of (w : World) (s : State)
    (transaction_data : TransactionData) (p : Q) : Inputs :=
  let baseline :=
    Services.lookup_profile (MOCK_USER_PROFILES s)
      (user_id transaction_data) in
  {| amount := default 0%Q (transaction_amount transaction_data);
     baseline_average := default 1000%Q (avg_transaction_amount baseline);
     probability := p;
     device := default "Desktop" (device_type transaction_data);
     devices_known := default [] (known_devices baseline);
     hour := now_hour w;
     distance := default 0%Q (transaction_distance transaction_data) |}.

End GateRules.

Module VerifierRules.

(** The four conditions of authenticity on the raw response of the
    verification service; an absent object or an absent field is not a
    pass. *)
Definition status_verified (r : DeepfakeTools.ApiResponse) : Prop :=
  DeepfakeTools.verification_result r = Some "VERIFIED".

Definition face_match_passed (r : DeepfakeTools.ApiResponse) : Prop :=
  DeepfakeTools.face_comparison r ≫= DeepfakeTools.fc_match = Some true.

Definition is_real_passed (r : DeepfakeTools.ApiResponse) : Prop :=
  DeepfakeTools.quality_check r ≫= DeepfakeTools.qc_is_real = Some true.

Definition liveness_passed (r : DeepfakeTools.ApiResponse) : Prop :=
  DeepfakeTools.liveness_check r ≫= DeepfakeTools.lc_is_live = Some true.

(** The three sub-check confidences, a missing one counting as 0. *)
Definition face_confidence (r : DeepfakeTools.ApiResponse) : Q :=
  default 0%Q (DeepfakeTools.face_comparison r ≫= DeepfakeTools.fc_confidence).

Definition quality_confidence (r : DeepfakeTools.ApiResponse) : Q :=
  default 0%Q (DeepfakeTools.quality_check r ≫= DeepfakeTools.qc_confidence).

Definition liveness_confidence (r : DeepfakeTools.ApiResponse) : Q :=
  default 0%Q (DeepfakeTools.liveness_check r ≫= DeepfakeTools.lc_confidence).

(** Their arithmetic mean. *)
Definition mean_confidence (r : DeepfakeTools.ApiResponse) : Q :=
  ((face_confidence r + quality_confidence r + liveness_confidence r) / 3)%Q.

End VerifierRules.

Module AdjustmentTable.

(** The conditions of the adjustment table. *)
Definition inauthentic (d : option DeepfakeResult) : bool :=
  match d with Some r => is_deepfake r | None => false end.

Definition face_below_threshold (d : option DeepfakeResult) : bool :=
  match d with
  | Some r => Py.lt (face_match_score r) (80 # 100)%Q
  | None => false
  end.

Definition code_check_failed (d : option DeepfakeResult) : bool :=
  match d with Some r => negb (code_validated r) | None => false end.

Definition amount_anomaly (patterns : list string) : bool :=
  Py.any_contains "higher than normal" patterns.

Definition velocity_anomaly (patterns : list string) : bool :=
  Py.any_contains "High velocity" patterns.

Definition new_device (patterns : list string) : bool :=
  Py.any_contains "New device" patterns.

Definition delta (condition : bool) (d : Z) : Z :=
  if condition then d else 0.

(** The sum of the deltas of a list of adjustments. *)
Fixpoint total (adjustments : list (string * Z)) : Z :=
  match adjustments with
  | [] => 0
  | (_, d) :: rest => d + total rest
  end.

(** The adjustment sum when every row of the table is evaluated on its
    own, as the specification words it. *)
Definition independent_total (d : option DeepfakeResult)
    (patterns : list string) : Z :=
  delta (inauthentic d) 40
  + delta (face_below_threshold d) 20
  + delta (code_check_failed d) 15
  + delta (amount_anomaly patterns) 15
  + delta (velocity_anomaly patterns) 10
  + delta (new_device patterns) 10.

(** The adjustment sum with the three verification rows as a chain in
    which the first row that holds is the only one applied. *)
Definition chained_total (d : option DeepfakeResult)
    (patterns : list string) : Z :=
  (if inauthentic d then 40
   else if face_below_threshold d then 20
   else if code_check_failed d then 15
   else 0)
  + delta (amount_anomaly patterns) 15
  + delta (velocity_anomaly patterns) 10
  + delta (new_device patterns) 10.

End AdjustmentTable.

(* ===================================================================== *)
(** ** Concrete collaborators and inputs *)
(* ===================================================================== *)

Module Demo.

(** The column list that [load_fraud_model] installs. *)
Definition feature_columns : list string :=
  ["Transaction_Amount"; "Transaction_Type"; "Account_Balance";
   "Device_Type"; "Location"; "Merchant_Category"; "IP_Address_Flag";
   "Previous_Fraudulent_Activity"; "Daily_Transaction_Count";
   "Avg_Transaction_Amount_7d"; "Failed_Transaction_Count_7d";
   "Card_Type"; "Card_Age"; "Transaction_Distance";
   "Authentication_Method"; "Is_Weekend";
   "hour_of_day"; "day_of_week"; "is_unusual_hour";
   "amount_deviation_ratio"; "is_high_value"; "is_new_device"].

(** A classifier that answers the same probability for every row. *)
Definition constant_classifier (p : Q) : Classifier :=
  {| predict_proba := fun _ => inr p |}.

(** A classifier whose inference fails. *)
Definition failing_classifier : Classifier :=
  {| predict_proba := fun _ => inl (Py.ValueError "feature shape mismatch") |}.

(** An encoder whose [transform] fails. *)
Definition failing_encoder : Encoder :=
  {| classes_ := ["Online"; "POS"];
     transform := fun _ => inl (Py.ValueError "unseen label") |}.

Definition state_with (model : option Classifier)
    (encoders : option (gmap string Encoder)) : State :=
  {| MODEL := model;
     ENCODERS := encoders;
     FEATURE_COLUMNS := Some feature_columns;
     MOCK_USER_PROFILES := ∅;
     MOCK_FRAUD_CASES := ∅;
     started := [] |}.

(** The state after start-up with a classifier that answers [p]. *)
Definition loaded (p : Q) : State :=
  state_with (Some (constant_classifier p)) (Some ∅).

(** The answer of the local [invoke_sagemaker_endpoint]. *)
Definition mock_detection : DetectionResult :=
  {| raw_is_deepfake := Some false;
     raw_deepfake_confidence := Some (12 # 100)%Q;
     raw_face_match_score := Some (95 # 100)%Q;
     raw_code_validated := Some true |}.

(** An answer that reports a deepfake. *)
Definition deepfake_detection : DetectionResult :=
  {| raw_is_deepfake := Some true;
     raw_deepfake_confidence := Some (97 # 100)%Q;
     raw_face_match_score := Some (95 # 100)%Q;
     raw_code_validated := Some true |}.

(** The two history entries of the local
    [get_user_transaction_history]. *)
Definition mock_history : list HistoryTxn :=
  [{| h_transaction_id := Some "TXN_001";
      h_timestamp := Some (TsStr "2023-11-13T22:00:00");
      h_transaction_amount := Some 850%Q;
      h_merchant_category := Some "Retail" |};
   {| h_transaction_id := Some "TXN_002";
      h_timestamp := Some (TsStr "2023-11-14T01:00:00");
      h_transaction_amount := Some 1200%Q;
      h_merchant_category := Some "Food" |}].

Definition parse_time (text : string) : option Z :=
  if String.eqb text "2023-11-13T22:00:00" then Some 1699912800
  else if String.eqb text "2023-11-14T01:00:00" then Some 1699923600
  else None.

(** A world on 14 November 2023 at the given full hour. *)
Definition world_at (hour : Z) (detection : DetectionResult) : World :=
  {| bedrock_invoke := fun _ => inr "analysis";
     sagemaker_endpoint := fun _ => detection;
     transaction_history := fun _ _ => mock_history;
     fromisoformat := parse_time;
     now := 1699920000 + hour * 3600;
     now_hour := hour;
     now_weekday := 1;
     now_yyyymmdd := "20231114";
     now_isoformat :=
       "2023-11-14T" +:+ (if hour <? 10 then "0" else "")
         +:+ Py.str_of_int hour +:+ ":00:00";
     randint_1000_9999 := 4821;
     sns_message_id := Some "mock-message-id" |}.

Definition transaction (amount : Q) (device : option string)
    : TransactionData :=
  {| transaction_id := Some "TXN_12345";
     user_id := Some "U1001";
     transaction_amount := Some amount;
     transaction_type := Some "Online";
     merchant_category := Some "Retail";
     card_type := Some "Credit";
     device_type := device;
     location := Some "Unknown";
     authentication_method := Some "Password";
     transaction_distance := None;
     account_balance := None;
     ip_address_flag := None;
     daily_transaction_count := None;
     failed_transaction_count_7d := None;
     card_age := None |}.

(** A biometric result in which all three verification rows of the
    adjustment table hold. *)
Definition failed_verification : DeepfakeResult :=
  {| is_deepfake := true;
     deepfake_confidence := (97 # 100)%Q;
     face_match_score := (1 # 2)%Q;
     code_validated := false;
     verification_passed := false;
     deepfake_explanation := "analysis" |}.

Definition monitor_result (score : Z) : MonitorResult :=
  {| fraud_probability := (inject_Z score / 100)%Q;
     risk_score := score;
     llm_explanation := "analysis";
     recommendation := "REVIEW" |}.

Definition evidence_with (patterns : list string) : Evidence :=
  {| ev_user_profile := Services.default_profile (Some "U1001");
     transaction_history_count := 2;
     recent_24h_count := 2;
     timeline := [];
     detected_patterns := Some patterns;
     llm_summary := Some "analysis" |}.

(** A response of the verification service in which every check passes,
    with the three given confidences. *)
Definition verified_response (c1 c2 c3 : Q) : DeepfakeTools.ApiResponse :=
  {| DeepfakeTools.verification_result := Some "VERIFIED";
     DeepfakeTools.face_comparison :=
       Some {| DeepfakeTools.fc_match := Some true;
               DeepfakeTools.fc_similarity := Some 98%Q;
               DeepfakeTools.fc_confidence := Some c1 |};
     DeepfakeTools.quality_check :=
       Some {| DeepfakeTools.qc_is_real := Some true;
               DeepfakeTools.qc_confidence := Some c2;
               DeepfakeTools.qc_quality_score := Some 90%Q;
               DeepfakeTools.qc_quality_metrics := None;
               DeepfakeTools.qc_emotions := None;
               DeepfakeTools.qc_pose := None |};
     DeepfakeTools.liveness_check :=
       Some {| DeepfakeTools.lc_is_live := Some true;
               DeepfakeTools.lc_liveness_score := Some 95%Q;
               DeepfakeTools.lc_confidence := Some c3;
               DeepfakeTools.lc_checks :=
                 Some {| DeepfakeTools.eyes_open := Some true;
                         DeepfakeTools.no_sunglasses := Some true |} |};
     DeepfakeTools.reason := None |}.

(** A JSON parser that accepts two literal texts and rejects the rest. *)
Definition parse_json (text : string) : Py.Exn + Json :=
  if String.eqb text "{}" then inr (JObj ∅)
  else if String.eqb text "[]" then inr (JArr [])
  else inl Py.JSONDecodeError.

(** Collaborators of the Nova-based synthesizer whose text-generation
    service answers [response]. *)
Definition nova (response : string) : NovaRiskAssessor.Collaborators :=
  {| NovaRiskAssessor.build_risk_assessment_prompt :=
       fun _ _ _ _ => inr "You are a senior fraud risk analyst.";
     NovaRiskAssessor.call_nova := fun _ _ _ => inr response;
     NovaRiskAssessor.json_loads := parse_json;
     NovaRiskAssessor.isoformat_now := "2023-11-14T12:00:00" |}.

(** The state in which the encoder of [Transaction_Type] fails and the
    classifier answers 0.9. *)
Definition failing_encoder_state : State :=
  state_with (Some (constant_classifier (9 # 10)))
    (Some {["Transaction_Type" := failing_encoder]}).

Definition photo : PhotoData :=
  {| s3_path := "s3://mock-bucket/uploads/TXN_12345_selfie.jpg";
     filename := "selfie.jpg" |}.



End Demo.

(* ===================================================================== *)
(** ** Characters of rendered numbers *)
(* ===================================================================== *)

Module Text.

(** The characters that [str(n)] of an integer can hold. *)
Definition number_char (a : ascii) : bool :=
  existsb (Ascii.eqb a)
    ["0"; "1"; "2"; "3"; "4"; "5"; "6"; "7"; "8"; "9"; "-"]%char.

(** Every character of a string satisfies a test. *)
Fixpoint all_chars (test : ascii -> bool) (s : string) : bool :=
  match s with
  | EmptyString => true
  | String a rest => test a && all_chars test rest
  end.

End Text.

(* ===================================================================== *)
(** ** [backend/app/services/fraud_model.py]: start-up *)
(* ===================================================================== *)

Module FraudModelStartup.

(** What reading the two artifact files gives: the unpickled object, or the
    exception of [open] or of [pickle.load]. *)
Record Artifacts := {
  model_pkl : Py.Exn + Classifier;
  encoders_pkl : Py.Exn + gmap string Encoder
}.

(** Assignments to the three model globals. *)
Definition set_MODEL (model : Classifier) : M unit :=
  fun s =>
    (inr tt,
     {| MODEL := Some model; ENCODERS := ENCODERS s;
        FEATURE_COLUMNS := FEATURE_COLUMNS s;
        MOCK_USER_PROFILES := MOCK_USER_PROFILES s;
        MOCK_FRAUD_CASES := MOCK_FRAUD_CASES s;
        started := started s |}).

Definition set_ENCODERS (encoders : gmap string Encoder) : M unit :=
  fun s =>
    (inr tt,
     {| MODEL := MODEL s; ENCODERS := Some encoders;
        FEATURE_COLUMNS := FEATURE_COLUMNS s;
        MOCK_USER_PROFILES := MOCK_USER_PROFILES s;
        MOCK_FRAUD_CASES := MOCK_FRAUD_CASES s;
        started := started s |}).

Definition set_FEATURE_COLUMNS (columns : list string) : M unit :=
  fun s =>
    (inr tt,
     {| MODEL := MODEL s; ENCODERS := ENCODERS s;
        FEATURE_COLUMNS := Some columns;
        MOCK_USER_PROFILES := MOCK_USER_PROFILES s;
        MOCK_FRAUD_CASES := MOCK_FRAUD_CASES s;
        started := started s |}).

(** [load_fraud_model]: both [except] clauses print and re-raise. *)
Definition load_fraud_model (files : Artifacts) : M unit :=
  let* model := lift (model_pkl files) in
  set_MODEL model;;
  let* encoders := lift (encoders_pkl files) in
  set_ENCODERS encoders;;
  set_FEATURE_COLUMNS
    ["Transaction_Amount"; "Transaction_Type"; "Account_Balance";
     "Device_Type"; "Location"; "Merchant_Category"; "IP_Address_Flag";
     "Previous_Fraudulent_Activity"; "Daily_Transaction_Count";
     "Avg_Transaction_Amount_7d"; "Failed_Transaction_Count_7d";
     "Card_Type"; "Card_Age"; "Transaction_Distance";
     "Authentication_Method"; "Is_Weekend";
     "hour_of_day"; "day_of_week"; "is_unusual_hour";
     "amount_deviation_ratio"; "is_high_value"; "is_new_device"].

(** A value of the feature row is a number. *)
Definition is_number (v : FeatureVal) : bool :=
  match v with
  | FNum _ => true
  | FStr _ => false
  end.

End FraudModelStartup.

(* ===================================================================== *)
(** ** [backend/app/utils.py]: input validation *)
(* ===================================================================== *)

Module Validation.

(** [field in transaction_data and transaction_data[field] is not None]. *)
Definition present {A} (value : option A) : bool :=
  match value with
  | Some _ => true
  | None => false
  end.

(** The required fields in the order of the loop, each with whether it is
    present. *)
Definition required_fields (transaction_data : TransactionData)
    : list (string * bool) :=
  [("user_id", present (user_id transaction_data));
   ("transaction_amount", present (transaction_amount transaction_data));
   ("transaction_type", present (transaction_type transaction_data));
   ("merchant_category", present (merchant_category transaction_data))].

(** [validate_transaction_data].  The amount of a [TransactionData] is a
    number and its user identifier a string, so of the two [isinstance]
    tests only the case of [None] remains. *)
Definition validate_transaction_data (transaction_data : TransactionData)
    : bool * option string :=
  match List.find (fun field => negb (snd field))
          (required_fields transaction_data) with
  | Some (field, _) => (false, Some ("Missing required field: " +:+ field))
  | None =>
      match transaction_amount transaction_data with
      | None => (false, Some "Invalid transaction amount")
      | Some amount =>
          if Qle_bool amount 0 then (false, Some "Invalid transaction amount")
          else if Py.gt amount 1000000%Q
          then (false, Some "Transaction amount exceeds maximum limit")
          else
            match user_id transaction_data with
            | None => (false, Some "Invalid user_id")
            | Some uid =>
                if (String.length uid =? 0)%nat
                then (false, Some "Invalid user_id")
                else (true, None)
            end
      end
  end.

(** [extract_features_for_ml] hands over to [prepare_features]. *)
Definition extract_features_for_ml (w : World)
    (transaction_data : TransactionData) : M (gmap string FeatureVal) :=
  FraudModel.prepare_features w transaction_data.

End Validation.

(* ===================================================================== *)
(** ** [backend/app/main.py]: the two endpoints *)
(* ===================================================================== *)

Module Api.

(** The body of a submission as pydantic delivers it.  The three optional
    fields hold their defaults when the client leaves them out; a client
    that sends an explicit [null] for one of them is not covered. *)
Record TransactionRequest := {
  req_user_id : string;
  req_transaction_amount : Q;
  req_transaction_type : string;
  req_merchant_category : string;
  req_card_type : string;
  req_device_type : string;
  req_location : string;
  req_authentication_method : string
}.

(** The uploaded photo: its name and its bytes. *)
Record UploadFile := {
  upload_filename : string;
  upload_content : string
}.

(** An entry of [MOCK_TRANSACTIONS]: the transaction [dict] and the four
    keys that [save_pending_transaction] adds to it.  The added keys are
    read by [verify_biometric] only, never by the agents. *)
Record PendingTransaction := {
  pending_data : TransactionData;
  pending_status : string;
  pending_verification_code : string;
  pending_flag_reasons : list string;
  pending_created_at : string
}.

Record HTTPException := {
  status_code : Z;
  detail : option string
}.

Record TransactionResponse := {
  resp_status : string;
  resp_transaction_id : string;
  resp_risk_score : option Z;
  resp_verification_code : option string;
  resp_reasons : option (list string);
  resp_result : option OrchestratorResult
}.

(** What one request reads from outside: the collaborators of the pipeline
    and the two draws of [random.randint]. *)
Record Server := {
  world : World;
  randint_10000_99999 : Z;
  randint_100000_999999 : Z
}.

(** The module globals of the pipeline together with the store of pending
    transactions of [services/aws_services.py]. *)
Record ServerState := {
  globals : State;
  MOCK_TRANSACTIONS : gmap string PendingTransaction
}.

(** A handler answers with a value or raises an [HTTPException]. *)
Definition Handler (A : Type) : Type :=
  ServerState -> (HTTPException + A) * ServerState.

Definition raise_http {A} (code : Z) (message : option string) : Handler A :=
  fun ss => (inl {| status_code := code; detail := message |}, ss).

(** [except Exception as e: raise HTTPException(status_code=500, ...)]. *)
Definition internal_error (e : Py.Exn) : HTTPException :=
  {| status_code := 500;
     detail := Some ("Internal server error: " +:+ Py.str_of_exn e) |}.

Definition with_globals (g : State) (ss : ServerState) : ServerState :=
  {| globals := g; MOCK_TRANSACTIONS := MOCK_TRANSACTIONS ss |}.

(** A step of the pipeline inside the [try] of a handler: it runs on the
    globals, and an exception that it raises leaves the handler as the
    500 answer. *)
Definition pipeline {A B} (m : M A) (k : A -> Handler B) : Handler B :=
  fun ss =>
    match m (globals ss) with
    | (inr a, g) => k a (with_globals g ss)
    | (inl e, g) => (inl (internal_error e), with_globals g ss)
    end.

(** [transaction.dict()] with the transaction identifier added. *)
Definition dict_of (transaction : TransactionRequest) (tid : string)
    : TransactionData :=
  {| transaction_id := Some tid;
     user_id := Some (req_user_id transaction);
     transaction_amount := Some (req_transaction_amount transaction);
     transaction_type := Some (req_transaction_type transaction);
     merchant_category := Some (req_merchant_category transaction);
     card_type := Some (req_card_type transaction);
     device_type := Some (req_device_type transaction);
     location := Some (req_location transaction);
     authentication_method := Some (req_authentication_method transaction);
     transaction_distance := None;
     account_balance := None;
     ip_address_flag := None;
     daily_transaction_count := None;
     failed_transaction_count_7d := None;
     card_age := None |}.

(** [save_pending_transaction]. *)
Definition save_pending_transaction (w : World) (tid : string)
    (transaction_data : TransactionData) (code : string)
    (flag_reasons : list string) : Handler unit :=
  fun ss =>
    (inr tt,
     {| globals := globals ss;
        MOCK_TRANSACTIONS :=
          <[tid := {| pending_data := transaction_data;
                      pending_status := "PENDING";
                      pending_verification_code := code;
                      pending_flag_reasons := flag_reasons;
                      pending_created_at := now_isoformat w |}]>
            (MOCK_TRANSACTIONS ss) |}).

(** [get_pending_transaction]: [MOCK_TRANSACTIONS.get(transaction_id)]. *)
Definition get_pending_transaction (tid : string) (ss : ServerState)
    : option PendingTransaction :=
  MOCK_TRANSACTIONS ss !! tid.

(** [save_uploaded_photo]: the bytes are dropped, a path is made up. *)
Definition save_uploaded_photo (tid : string) (photo_data : string)
    (name : string) : string :=
  "s3://mock-bucket/uploads/" +:+ tid +:+ "_" +:+ name.

(** [TransactionResponse(status=result['status'], ...,
    risk_score=result['risk_score'], result=result)]: the status has to be
    a string and the score an integer or [None].  The pipeline puts nothing
    else there; for other values the validation of pydantic decides, which
    is taken to reject them. *)
Definition final_response (tid : string) (result : OrchestratorResult)
    : Py.Exn + TransactionResponse :=
  match result_status result, result_risk_score result with
  | VStr status, VInt score =>
      inr {| resp_status := status;
             resp_transaction_id := tid;
             resp_risk_score := Some score;
             resp_verification_code := None;
             resp_reasons := None;
             resp_result := Some result |}
  | VStr status, VNone =>
      inr {| resp_status := status;
             resp_transaction_id := tid;
             resp_risk_score := None;
             resp_verification_code := None;
             resp_reasons := None;
             resp_result := Some result |}
  | _, _ => inl (Py.ValueError "validation error for TransactionResponse")
  end.

(** [POST /api/transaction/submit]. *)
Definition submit_transaction (sv : Server) (transaction : TransactionRequest)
    : Handler TransactionResponse :=
  (* Generate transaction ID *)
  let tid := "TXN_" +:+ Py.str_of_int (randint_10000_99999 sv) in
  let transaction_data := dict_of transaction tid in
  (* Validate transaction data *)
  let '(is_valid, error_msg) :=
    Validation.validate_transaction_data transaction_data in
  if negb is_valid then raise_http 400 error_msg
  else
    (* Pre-screening: XGBoost + suspicious flag *)
    pipeline
      (FraudModel.predict_fraud_probability (world sv) transaction_data)
      (fun fraud_probability =>
    pipeline
      (Utils.calculate_suspicious_flag (world sv) transaction_data
         fraud_probability)
      (fun flag =>
         let '(is_suspicious, flag_reasons) := flag in
         if is_suspicious then
           (* Suspicious: request photo verification *)
           let verification_code :=
             Py.str_of_int (randint_100000_999999 sv) in
           fun ss =>
             match save_pending_transaction (world sv) tid transaction_data
                     verification_code flag_reasons ss with
             | (inl e, ss') => (inl e, ss')
             | (inr _, ss') =>
                 (inr {| resp_status := "VERIFICATION_REQUIRED";
                         resp_transaction_id := tid;
                         resp_risk_score := None;
                         resp_verification_code := Some verification_code;
                         resp_reasons := Some flag_reasons;
                         resp_result := None |}, ss')
             end
         else
           (* Not suspicious: process immediately, without photo *)
           pipeline
             (Orchestrator.orchestrate_transaction (world sv)
                transaction_data None None)
             (fun result =>
                pipeline (lift (final_response tid result))
                  (fun response ss => (inr response, ss))))).

(** [POST /api/transaction/verify]. *)
Definition verify_biometric (sv : Server) (tid : string)
    (verification_code : string) (photo : UploadFile)
    : Handler TransactionResponse :=
  fun ss =>
    (* Retrieve pending transaction; a stored [dict] is never empty *)
    match get_pending_transaction tid ss with
    | None =>
        raise_http 404
          (Some ("Transaction " +:+ tid
                   +:+ " not found or already processed")) ss
    | Some pending =>
        (* Validate verification code *)
        if negb (String.eqb (pending_verification_code pending)
                   verification_code)
        then raise_http 400 (Some "Invalid verification code") ss
        else
          (* Upload photo *)
          let photo_s3_path :=
            save_uploaded_photo tid (upload_content photo)
              (upload_filename photo) in
          (* Call orchestrator with photo *)
          pipeline
            (Orchestrator.orchestrate_transaction (world sv)
               (pending_data pending)
               (Some {| s3_path := photo_s3_path;
                        filename := upload_filename photo |})
               (Some verification_code))
            (fun result =>
               pipeline (lift (final_response tid result))
                 (fun response ss' => (inr response, ss')))
            ss
    end.

End Api.

(* ===================================================================== *)
(** ** Risk factors of [backend/tools/deepfake_tools.py] *)
(* ===================================================================== *)

Module RiskFactors.

(** The factors that report a failed identity check, as opposed to the
    factors on the quality of the picture. *)
Definition identity_check (f : DeepfakeTools.RiskFactor) : bool :=
  match f with
  | DeepfakeTools.FaceMismatch _
  | DeepfakeTools.PotentialDeepfake
  | DeepfakeTools.LivenessFailed => true
  | _ => false
  end.

End RiskFactors.

(* ===================================================================== *)
(** ** [backend/agents/transaction_monitor.py] (the Nova-based monitor) *)
(* ===================================================================== *)

Module NovaTransactionMonitor.

(** The [dict] that [predict_fraud] of [tools/ml_tools.py] returns. *)
Record MlResult := {
  ml_fraud_probability : Q;
  ml_fraud_score : Z;
  ml_risk_level : string;
  ml_model_confidence : Q;
  ml_feature_summary : gmap string Json
}.

(** Collaborators of the monitor: the classifier adapter, the renderer of
    the prompt (a format string over the transaction and the prediction),
    the Nova client, the JSON parser of the Python library, and the
    clock. *)
Record Collaborators := {
  predict_fraud : gmap string Json -> Py.Exn + MlResult;
  build_fraud_analysis_prompt : gmap string Json -> MlResult -> string;
  call_nova : string -> Z -> Q -> Py.Exn + string;
  json_loads : string -> Py.Exn + Json;
  isoformat_now : string
}.

(** The [dict] that [analyze_transaction] returns. *)
Record Analysis := {
  out_transaction_id : option Json;
  out_timestamp : string;
  ml_prediction : MlResult;
  nova_analysis : Json;
  final_verdict : Json;
  final_score : Z
}.

(** The analysis used when the response is not JSON. *)
Definition parse_fallback (nova_response : string) : gmap string Json :=
  list_to_map
    [("verdict", JStr "REVIEW");
     ("risk_factors", JArr [JStr "Unable to parse Nova response"]);
     ("recommended_action", JStr "Manual review required");
     ("reasoning", JStr nova_response)].

(** [analyze_transaction]: the outer [except Exception] prints and
    re-raises. *)
Definition analyze_transaction (c : Collaborators)
    (transaction_data : gmap string Json) : Py.Exn + Analysis :=
  (* Step 1: ML prediction *)
  match predict_fraud c transaction_data with
  | inl e => inl e
  | inr ml_result =>
      (* Steps 2 and 3: prompt and Nova's analysis *)
      let prompt := build_fraud_analysis_prompt c transaction_data ml_result in
      match call_nova c prompt 800 (3 # 10)%Q with
      | inl e => inl e
      | inr nova_response =>
          (* Step 4: parse Nova's JSON response *)
          let parsed :=
            match json_loads c nova_response with
            | inr v => inr v
            | inl Py.JSONDecodeError =>
                inr (JObj (parse_fallback nova_response))
            | inl e => inl e
            end in
          (* Step 5: combine results *)
          match parsed with
          | inl e => inl e
          | inr (JObj fields) =>
              inr {| out_transaction_id :=
                       transaction_data !! "transaction_id";
                     out_timestamp := isoformat_now c;
                     ml_prediction := ml_result;
                     nova_analysis := JObj fields;
                     final_verdict :=
                       default (JStr "REVIEW") (fields !! "verdict");
                     final_score := ml_fraud_score ml_result |}
          | inr _ => inl (Py.TypeError "object has no attribute 'get'")
          end
      end
  end.

End NovaTransactionMonitor.

(* ===================================================================== *)
(** ** [backend/agents/deepfake_detector.py] (the Nova-based verifier) *)
(* ===================================================================== *)

Module NovaDeepfakeDetector.

(** Collaborators of the verifier: the verification service, the renderer
    of the prompt, the Nova client, the JSON parser, [str()] on the values
    that are not [None], a boolean or a string, and the clock. *)
Record Collaborators := {
  call_deepfake_api : Json -> Json -> Json -> Py.Exn + DeepfakeTools.ApiResponse;
  build_deepfake_analysis_prompt :
    gmap string Json -> DeepfakeTools.Analysis -> string;
  call_nova : string -> Z -> Q -> Py.Exn + string;
  json_loads : string -> Py.Exn + Json;
  str_other : Json -> string;
  isoformat_now : string
}.

(** [d.get(key)]: [None] for an absent key. *)
Definition get (d : gmap string Json) (key : string) : Json :=
  default JNull (d !! key).

(** [str(v)]. *)
Definition str (c : Collaborators) (v : Json) : string :=
  match v with
  | JStr s => s
  | JNull => "None"
  | JBool true => "True"
  | JBool false => "False"
  | _ => str_other c v
  end.

(** The [dict] that [analyze_deepfake_verification] returns. *)
Record Verification := {
  out_transaction_id : string;
  out_user_id : string;
  out_timestamp : string;
  summary_is_authentic : bool;
  summary_overall_confidence : Q;
  summary_verification_result : string;
  detailed_checks : DeepfakeTools.Analysis;
  nova_analysis : Json;
  final_verdict : string;
  photo_verified : Json
}.

(** The analysis used when the response is not JSON. *)
Definition parse_fallback (nova_response : string) : gmap string Json :=
  list_to_map
    [("verdict", JStr "REVIEW");
     ("risk_assessment", JArr [JStr "Unable to parse analysis"]);
     ("recommended_action", JStr "Manual review required");
     ("reasoning", JStr nova_response)].

(** [analyze_deepfake_verification]: the outer [except Exception] prints
    and re-raises. *)
Definition analyze_deepfake_verification (c : Collaborators)
    (transaction_data : gmap string Json) : Py.Exn + Verification :=
  let user_id := get transaction_data "user_id" in
  let photo_s3_path := get transaction_data "photo_s3_path" in
  let similarity_threshold :=
    default (JNum 80) (transaction_data !! "similarity_threshold") in
  if negb (NovaRiskAssessor.truthy user_id)
     || negb (NovaRiskAssessor.truthy photo_s3_path)
  then inl (Py.ValueError
              "Missing required fields: user_id and photo_s3_path")
  else
    (* Step 1: deepfake detection API *)
    match call_deepfake_api c user_id photo_s3_path similarity_threshold with
    | inl e => inl e
    | inr api_response =>
        (* Step 2: parse results *)
        let deepfake_result :=
          DeepfakeTools.parse_deepfake_result api_response in
        (* Step 3: Nova's analysis *)
        let prompt :=
          build_deepfake_analysis_prompt c transaction_data deepfake_result in
        match call_nova c prompt 800 (2 # 10)%Q with
        | inl e => inl e
        | inr nova_response =>
            (* Step 4: parse Nova's response *)
            let parsed :=
              match json_loads c nova_response with
              | inr v => inr v
              | inl Py.JSONDecodeError =>
                  inr (JObj (parse_fallback nova_response))
              | inl e => inl e
              end in
            (* Step 5: combine results *)
            match parsed with
            | inl e => inl e
            | inr (JObj fields) =>
                inr {| out_transaction_id :=
                         str c (get transaction_data "transaction_id");
                       out_user_id := str c user_id;
                       out_timestamp := isoformat_now c;
                       summary_is_authentic :=
                         DeepfakeTools.is_authentic deepfake_result;
                       summary_overall_confidence :=
                         DeepfakeTools.overall_confidence deepfake_result;
                       summary_verification_result :=
                         DeepfakeTools.out_verification_result
                           deepfake_result;
                       detailed_checks := deepfake_result;
                       nova_analysis := JObj fields;
                       final_verdict :=
                         str c (default (JStr "REVIEW") (fields !! "verdict"));
                       photo_verified := photo_s3_path |}
            | inr _ => inl (Py.TypeError "object has no attribute 'get'")
            end
        end
    end.

End NovaDeepfakeDetector.

(* ===================================================================== *)
(** ** [backend/orchestrator.py] (the Nova-based orchestrator) *)
(* ===================================================================== *)

Module NovaOrchestrator.

(** The three agents of the first phase as they are called, the
    collaborators of the risk assessor, and the clock: the time at the end
    and the seconds elapsed since the start. *)
Record Agents := {
  analyze_fraud : gmap string Json -> Py.Exn + gmap string Json;
  collect_evidence : gmap string Json -> Py.Exn + gmap string Json;
  analyze_deepfake_verification :
    gmap string Json -> Py.Exn + gmap string Json;
  risk_assessor : NovaRiskAssessor.Collaborators;
  end_time_isoformat : string;
  total_seconds : Q
}.

(** The [dict] that the wrappers return for an agent that raised. *)
Definition agent_error (e : Py.Exn) (agent : string) : gmap string Json :=
  list_to_map [("error", JStr (Py.str_of_exn e)); ("agent", JStr agent)].

Definition run_transaction_monitor (a : Agents)
    (transaction_data : gmap string Json) : gmap string Json :=
  match analyze_fraud a transaction_data with
  | inr result => result
  | inl e => agent_error e "transaction_monitor"
  end.

Definition run_evidence_collector (a : Agents)
    (transaction_data : gmap string Json) : gmap string Json :=
  match collect_evidence a transaction_data with
  | inr result => result
  | inl e => agent_error e "evidence_collector"
  end.

(** [None] without a photo. *)
Definition run_deepfake_detector (a : Agents)
    (transaction_data : gmap string Json) (photo_s3_path : option string)
    : option (gmap string Json) :=
  match photo_s3_path with
  | None => None
  | Some path =>
      if Py.truthy_str path then
        match analyze_deepfake_verification a
                (<["photo_s3_path" := JStr path]> transaction_data) with
        | inr result => Some result
        | inl e => Some (agent_error e "deepfake_detector")
        end
      else None
  end.

(** [f"{v:,.2f}"]: formatting raises unless [v] is a number, a boolean
    counting as one. *)
Definition format_amount (v : Json) : Py.Exn + unit :=
  match v with
  | JNum _ | JBool _ => inr tt
  | JStr _ =>
      inl (Py.ValueError "Unknown format code 'f' for object of type 'str'")
  | _ => inl (Py.TypeError "unsupported format string passed to __format__")
  end.

(** [len(v)] for a JSON value. *)
Definition len (v : Json) : Py.Exn + Z :=
  match v with
  | JArr items => inr (Z.of_nat (length items))
  | JStr s => inr (Z.of_nat (String.length s))
  | JObj fields => inr (Z.of_nat (size fields))
  | _ => inl (Py.TypeError "object has no len()")
  end.

(** The entry [summary] of the result. *)
Record Summary := {
  summary_final_verdict : Json;
  summary_confidence : Json;
  summary_risk_level : Json;
  ml_fraud_score : Json;
  suspicious_patterns : Z;
  photo_verified : bool;
  summary_recommended_action : Json
}.

(** The [dict] that [orchestrate_fraud_detection] returns. *)
Record Result := {
  out_transaction_id : Json;
  out_user_id : Json;
  out_timestamp : string;
  processing_time_seconds : Q;
  risk_assessment : gmap string Json;
  agent_1_fraud_detection : gmap string Json;
  agent_2_evidence_collection : gmap string Json;
  agent_3_biometric_verification : option (gmap string Json);
  agent_4_risk_assessment : gmap string Json;
  summary : Summary
}.

(** [None] or the [dict], as a JSON value. *)
Definition json_of (d : option (gmap string Json)) : Json :=
  match d with
  | Some fields => JObj fields
  | None => JNull
  end.

(** [orchestrate_fraud_detection].  The three coroutines handed to
    [asyncio.gather] hold no [await], so they run one after the other in
    the order of the list, and each catches its own exceptions. *)
Definition orchestrate_fraud_detection (a : Agents)
    (transaction_data : gmap string Json) (photo_s3_path : option string)
    : Py.Exn + Result :=
  (* the banner prints the amount with two decimals *)
  match format_amount
          (default (JNum 0) (transaction_data !! "transaction_amount")) with
  | inl e => inl e
  | inr _ =>
  (* Phase 1: agents 1, 2, 3 *)
  let fraud_result := run_transaction_monitor a transaction_data in
  let evidence_result := run_evidence_collector a transaction_data in
  let deepfake_result :=
    run_deepfake_detector a transaction_data photo_s3_path in
  (* Phase 2: risk assessor *)
  match NovaRiskAssessor.assess_risk (risk_assessor a)
          (JObj transaction_data) (JObj fraud_result) (JObj evidence_result)
          (json_of deepfake_result) with
  | inl e => inl e
  | inr assessment =>
      (* Phase 3: complete response *)
      match len (default (JArr [])
                   (evidence_result !! "detected_patterns")) with
      | inl e => inl e
      | inr patterns =>
          inr {| out_transaction_id :=
                   NovaDeepfakeDetector.get transaction_data
                     "transaction_id";
                 out_user_id :=
                   NovaDeepfakeDetector.get transaction_data "user_id";
                 out_timestamp := end_time_isoformat a;
                 processing_time_seconds := Py.round2 (total_seconds a);
                 risk_assessment := assessment;
                 agent_1_fraud_detection := fraud_result;
                 agent_2_evidence_collection := evidence_result;
                 agent_3_biometric_verification := deepfake_result;
                 agent_4_risk_assessment := assessment;
                 summary :=
                   {| summary_final_verdict :=
                        NovaDeepfakeDetector.get assessment "final_verdict";
                      summary_confidence :=
                        NovaDeepfakeDetector.get assessment
                          "confidence_score";
                      summary_risk_level :=
                        NovaDeepfakeDetector.get assessment "risk_level";
                      ml_fraud_score :=
                        default (JNum 0) (fraud_result !! "final_score");
                      suspicious_patterns := patterns;
                      photo_verified :=
                        match deepfake_result with
                        | Some fields =>
                            negb (NovaRiskAssessor.truthy
                                    (NovaDeepfakeDetector.get fields "error"))
                        | None => false
                        end;
                      summary_recommended_action :=
                        NovaDeepfakeDetector.get assessment
                          "recommended_action" |} |}
      end
  end
  end.

End NovaOrchestrator.

(* ===================================================================== *)
(** ** [backend/config.py] and [backend/tools/feature_engineering.py] *)
(* ===================================================================== *)

Module FeatureEngineering.

Definition FEATURE_COLUMNS : list string :=
  ["Transaction_Amount"; "Transaction_Type"; "Account_Balance";
   "Device_Type"; "Location"; "Merchant_Category"; "IP_Address_Flag";
   "Previous_Fraudulent_Activity"; "Daily_Transaction_Count";
   "Avg_Transaction_Amount_7d"; "Failed_Transaction_Count_7d";
   "Card_Type"; "Card_Age"; "Transaction_Distance";
   "Authentication_Method"; "Is_Weekend"; "hour_of_day"; "day_of_week";
   "is_unusual_hour"; "amount_deviation_ratio"; "is_high_value";
   "is_new_device"].

Definition CATEGORICAL_COLUMNS : list string :=
  ["Transaction_Type"; "Device_Type"; "Location"; "Merchant_Category";
   "Card_Type"; "Authentication_Method"].

Definition HIGH_VALUE_THRESHOLD : Q := 1000.
Definition UNUSUAL_HOURS : list Z := [0; 1; 2; 3; 4; 5; 23].
Definition MEDIAN_ACCOUNT_BALANCE : Q := 50000.
Definition MEDIAN_CARD_AGE : Q := 730.
Definition MEDIAN_DAILY_TRANSACTIONS : Q := 5.
Definition MEDIAN_AVG_TRANSACTION_7D : Q := 200.

(** What the features read of a [datetime]. *)
Record Datetime := {
  dt_hour : Z;
  dt_weekday : Z
}.

(** The [timestamp] of a transaction: absent, a string, or a [datetime]. *)
Inductive TimestampArg :=
| NoTimestamp
| IsoString (text : string)
| DatetimeObject (dt : Datetime).

(** The clock and the parser of ISO dates ([None]: the parser raises). *)
Record Clock := {
  datetime_now : Datetime;
  datetime_fromisoformat : string -> option Datetime
}.

(** The transaction [dict] sent by the Lambda, read with [.get]. *)
Record LambdaInput := {
  in_timestamp : TimestampArg;
  in_transaction_amount : option Q;
  in_transaction_type : option string;
  in_device_type : option string;
  in_location : option string;
  in_merchant_category : option string;
  in_card_type : option string;
  in_authentication_method : option string
}.

Record TimeFeatures := {
  hour_of_day : Z;
  day_of_week : Z;
  Is_Weekend : Z;
  is_unusual_hour : Z
}.

Definition generate_time_features (k : Clock) (timestamp : TimestampArg)
    : TimeFeatures :=
  let dt :=
    match timestamp with
    | NoTimestamp => datetime_now k
    | IsoString text =>
        match datetime_fromisoformat k
                (EvidenceCollectorAgent.replace_Z text) with
        | Some parsed => parsed
        | None => datetime_now k
        end
    | DatetimeObject d => d
    end in
  {| hour_of_day := dt_hour dt;
     day_of_week := dt_weekday dt;
     Is_Weekend := if 5 <=? dt_weekday dt then 1 else 0;
     is_unusual_hour :=
       if existsb (Z.eqb (dt_hour dt)) UNUSUAL_HOURS then 1 else 0 |}.

Definition calculate_amount_deviation (ops : PyFloat.Ops)
    (amount avg_amount_7d : Q) : Q :=
  if Qeq_bool avg_amount_7d 0 then 0%Q
  else PyFloat.div ops (Qabs (PyFloat.sub ops amount avg_amount_7d))
         avg_amount_7d.

Definition generate_all_features (ops : PyFloat.Ops) (k : Clock)
    (transaction_data : LambdaInput) : gmap string FeatureVal :=
  (* Step 1: time features *)
  let time_features :=
    generate_time_features k (in_timestamp transaction_data) in
  (* Step 2 *)
  let amount := default 0%Q (in_transaction_amount transaction_data) in
  (* Step 3: user history features (defaults) *)
  let avg_amount_7d := MEDIAN_AVG_TRANSACTION_7D in
  let daily_txn_count := MEDIAN_DAILY_TRANSACTIONS in
  (* Step 4: derived features *)
  let amount_deviation :=
    calculate_amount_deviation ops amount avg_amount_7d in
  (* Step 5: the feature dictionary *)
  list_to_map
    [("Transaction_Amount", FNum amount);
     ("Transaction_Type",
        FStr (default "Purchase" (in_transaction_type transaction_data)));
     ("Device_Type",
        FStr (default "Desktop" (in_device_type transaction_data)));
     ("Location", FStr (default "Domestic" (in_location transaction_data)));
     ("Merchant_Category",
        FStr (default "Retail" (in_merchant_category transaction_data)));
     ("Card_Type", FStr (default "Credit" (in_card_type transaction_data)));
     ("Authentication_Method",
        FStr (default "PIN" (in_authentication_method transaction_data)));
     ("Account_Balance", FNum MEDIAN_ACCOUNT_BALANCE);
     ("Previous_Fraudulent_Activity", FNum 0);
     ("Daily_Transaction_Count", FNum daily_txn_count);
     ("Avg_Transaction_Amount_7d", FNum avg_amount_7d);
     ("Failed_Transaction_Count_7d", FNum 0);
     ("Card_Age", FNum MEDIAN_CARD_AGE);
     ("IP_Address_Flag", FNum 0);
     ("Transaction_Distance", FNum 0);
     ("is_new_device", FNum 0);
     ("amount_deviation_ratio", FNum amount_deviation);
     ("is_high_value",
        FNum (if Py.gt amount HIGH_VALUE_THRESHOLD then 1 else 0));
     ("hour_of_day", FNum (inject_Z (hour_of_day time_features)));
     ("day_of_week", FNum (inject_Z (day_of_week time_features)));
     ("Is_Weekend", FNum (inject_Z (Is_Weekend time_features)));
     ("is_unusual_hour", FNum (inject_Z (is_unusual_hour time_features)))].

End FeatureEngineering.

(* ===================================================================== *)
(** ** [backend/tools/ml_tools.py] *)
(* ===================================================================== *)

Module MlTools.

(** What [get_label_encoder] unpickles: a [dict] of encoders, one per
    column, or a single encoder. *)
Inductive LabelEncoders :=
| EncoderDict (encoders : gmap string Encoder)
| SingleEncoder (encoder : Encoder).

(** The classifier: [predict_proba(features)[0]], the probabilities of the
    two classes, on the row of the data frame. *)
Record PairClassifier := {
  predict_proba_pair : list FeatureVal -> Py.Exn + Q * Q
}.

(** The clock, the two lazy loaders of [tools/s3_tools.py], and the
    floating-point arithmetic in which the features and the score are
    computed (that of NumPy for the probability, a [float32]). *)
Record Collaborators := {
  clock : FeatureEngineering.Clock;
  get_xgboost_model : Py.Exn + PairClassifier;
  get_label_encoder : Py.Exn + LabelEncoders;
  floats : PyFloat.Ops
}.

(** A data frame of one row: the columns in order, each with its value. *)
Definition DataFrame : Type := list (string * FeatureVal).

(** [df[col].iloc[0]], for a column of the frame. *)
Definition column (df : DataFrame) (col : string) : option FeatureVal :=
  snd <$> List.find (fun entry => String.eqb (fst entry) col) df.

(** [df[col] = value], for a column of the frame. *)
Definition set_column (df : DataFrame) (col : string) (value : FeatureVal)
    : DataFrame :=
  List.map (fun entry =>
              if String.eqb (fst entry) col then (fst entry, value)
              else entry) df.

(** Encoding with one encoder: a value among the classes is transformed,
    any other value becomes 0. *)
Definition encode_with (encoder : Encoder) (original_value : FeatureVal)
    : Py.Exn + FeatureVal :=
  match original_value with
  | FStr v =>
      if Py.mem v (classes_ encoder) then
        match transform encoder v with
        | inr code => inr (FNum (inject_Z code))
        | inl e => inl e
        end
      else inr (FNum 0)
  | FNum _ => inr (FNum 0)
  end.

(** The body of the [try] of the encoding loop. *)
Definition encoded (encoders : LabelEncoders) (col : string)
    (original_value : FeatureVal) : Py.Exn + FeatureVal :=
  match encoders with
  | EncoderDict d =>
      match d !! col with
      | Some encoder => encode_with encoder original_value
      | None => inr (FNum 0)
      end
  | SingleEncoder encoder => encode_with encoder original_value
  end.

(** One iteration of the encoding loop:
    [if col in df.columns: try ... except: df[col] = 0]. *)
Definition encode_step (encoders : LabelEncoders) (df : DataFrame)
    (col : string) : DataFrame :=
  match column df col with
  | Some original_value =>
      match encoded encoders col original_value with
      | inr value => set_column df col value
      | inl _ => set_column df col (FNum 0)
      end
  | None => df
  end.

Definition prepare_features (c : Collaborators)
    (transaction_data : FeatureEngineering.LambdaInput)
    : Py.Exn + DataFrame :=
  (* Step 1: all features *)
  let features :=
    FeatureEngineering.generate_all_features (floats c) (clock c)
      transaction_data in
  (* Steps 2 and 3: the features in the order of the model *)
  let df : DataFrame :=
    List.map (fun col => (col, default (FNum 0) (features !! col)))
      FeatureEngineering.FEATURE_COLUMNS in
  (* Step 4: encode categorical columns *)
  match get_label_encoder c with
  | inl e => inl e
  | inr encoders =>
      inr (fold_left (encode_step encoders)
             FeatureEngineering.CATEGORICAL_COLUMNS df)
  end.

(** [int(features[col].iloc[0]) if col in features.columns else 0]. *)
Definition int_column (df : DataFrame) (col : string) : Py.Exn + Z :=
  match column df col with
  | Some (FNum q) => inr (Py.int q)
  | Some (FStr _) => inl (Py.ValueError "invalid literal for int()")
  | None => inr 0
  end.

Definition opt_num (v : option Q) : Json :=
  match v with Some q => JNum q | None => JNull end.

Definition opt_str (v : option string) : Json :=
  match v with Some s => JStr s | None => JNull end.

(** [predict_fraud]: the [except Exception] prints and re-raises. *)
Definition predict_fraud (c : Collaborators)
    (transaction_data : FeatureEngineering.LambdaInput)
    : Py.Exn + NovaTransactionMonitor.MlResult :=
  match get_xgboost_model c with
  | inl e => inl e
  | inr model =>
      match prepare_features c transaction_data with
      | inl e => inl e
      | inr features =>
          match predict_proba_pair model (List.map snd features) with
          | inl e => inl e
          | inr (p0, fraud_prob) =>
              (* int(fraud_prob * 100): the product is a float *)
              let fraud_score :=
                Py.int (PyFloat.mul (floats c) fraud_prob 100) in
              let risk_level :=
                if fraud_score <? 30 then "LOW"
                else if fraud_score <? 70 then "MEDIUM"
                else "HIGH" in
              let confidence :=
                if Py.lt p0 fraud_prob then fraud_prob else p0 in
              match int_column features "is_unusual_hour",
                    int_column features "hour_of_day",
                    int_column features "is_high_value" with
              | inr time_based_risk, inr hour, inr high_value =>
                  inr {| NovaTransactionMonitor.ml_fraud_probability :=
                           PyFloat.round (floats c) fraud_prob 4;
                         NovaTransactionMonitor.ml_fraud_score := fraud_score;
                         NovaTransactionMonitor.ml_risk_level := risk_level;
                         NovaTransactionMonitor.ml_model_confidence :=
                           PyFloat.round (floats c) confidence 4;
                         NovaTransactionMonitor.ml_feature_summary :=
                           list_to_map
                             [("amount",
                                 opt_num
                                   (FeatureEngineering.in_transaction_amount
                                      transaction_data));
                              ("type",
                                 opt_str
                                   (FeatureEngineering.in_transaction_type
                                      transaction_data));
                              ("merchant",
                                 opt_str
                                   (FeatureEngineering.in_merchant_category
                                      transaction_data));
                              ("time_based_risk",
                                 JNum (inject_Z time_based_risk));
                              ("hour", JNum (inject_Z hour));
                              ("is_high_value",
                                 JNum (inject_Z high_value))] |}
              | inl e, _, _ | _, inl e, _ | _, _, inl e => inl e
              end
          end
      end
  end.

End MlTools.

(* ===================================================================== *)
(** ** [backend/main.py]: making a result serializable *)
(* ===================================================================== *)

Module Serializable.

(** The values that a result of the orchestrator can hold: the values of
    Python, the four kinds of NumPy number that the conversion looks for
    ([np.float32], [np.float64], [np.int32], [np.int64]), and any other
    NumPy scalar. *)
#[warnings="-register-all"]
Inductive Value :=
| PNone
| PBool (b : bool)
| PInt (n : Z)
| PFloat (x : Q)
| PStr (s : string)
| NpFloat (x : Q)
| NpInt (n : Z)
| NpOther (repr : string)
| PList (items : list Value)
| PTuple (items : list Value)
| PDict (items : list (string * Value)).

Fixpoint convert_to_serializable (obj : Value) : Value :=
  match obj with
  | NpFloat x => PFloat x
  | NpInt n => PInt n
  | PDict items =>
      PDict (List.map
               (fun kv : string * Value =>
                  let (k, v) := kv in (k, convert_to_serializable v))
               items)
  | PList items => PList (List.map convert_to_serializable items)
  | _ => obj
  end.

(** No NumPy number of the four kinds occurs in the value. *)
Fixpoint plain (obj : Value) : bool :=
  match obj with
  | NpFloat _ | NpInt _ => false
  | PList items | PTuple items => forallb plain items
  | PDict items =>
      forallb (fun kv : string * Value => let (_, v) := kv in plain v) items
  | _ => true
  end.

(** No tuple occurs in the value. *)
Fixpoint tuple_free (obj : Value) : bool :=
  match obj with
  | PTuple _ => false
  | PList items => forallb tuple_free items
  | PDict items =>
      forallb (fun kv : string * Value => let (_, v) := kv in tuple_free v)
        items
  | _ => true
  end.

End Serializable.

(* ===================================================================== *)
(** ** Globals before and after a stretch of the pipeline *)
(* ===================================================================== *)

(** The globals [s'] are those of [s] after a stretch of the pipeline: the
    model globals and the profile store are the same, and the log of
    started agents has grown at its end. *)
Definition later_globals (s s' : State) : Prop :=
  MODEL s' = MODEL s
  /\ ENCODERS s' = ENCODERS s
  /\ FEATURE_COLUMNS s' = FEATURE_COLUMNS s
  /\ MOCK_USER_PROFILES s' = MOCK_USER_PROFILES s
  /\ exists more, started s' = started s ++ more.

(* ===================================================================== *)
(** ** Lemmas on the Python primitives *)
(* ===================================================================== *)

Lemma py_lt_true (x y : Q) : Py.lt x y = true <-> (x < y)%Q.
Proof.
  unfold Py.lt. rewrite negb_true_iff. split.
  - intros H. apply Qnot_le_lt. intros Hle.
    apply Qle_bool_iff in Hle. congruence.
  - intros H. destruct (Qle_bool y x) eqn:E; [|reflexivity].
    apply Qle_bool_iff in E. exfalso. eapply Qlt_not_le; eauto.
Qed.

Lemma py_gt_true (x y : Q) : Py.gt x y = true <-> (y < x)%Q.
Proof. unfold Py.gt. apply py_lt_true. Qed.

Lemma py_mem_In (x : string) (xs : list string) :
  Py.mem x xs = true <-> In x xs.
Proof.
  unfold Py.mem. rewrite existsb_exists. split.
  - intros [y [Hy E]]. apply String.eqb_eq in E. now subst.
  - intros H. exists x. split; [assumption | apply String.eqb_refl].
Qed.

Lemma py_sum_total (l : list (string * Z)) :
  Py.sum (List.map snd l) = AdjustmentTable.total l.
Proof.
  unfold Py.sum.
  assert (G : forall (k : list (string * Z)) (acc : Z),
             fold_left Z.add (List.map snd k) acc
             = acc + AdjustmentTable.total k).
  { induction k as [|[r d] k IH]; intros acc; simpl.
    - lia.
    - rewrite IH. lia. }
  rewrite G. lia.
Qed.

(* ===================================================================== *)
(** ** The Suspicion Gate *)
(* ===================================================================== *)

(** What a call of the gate returns, in terms of its five tests; the state
    is returned as it was. *)
Lemma gate_run (w : World) (s : State) (tx : TransactionData) (p : Q) :
  let i := GateRules.inputs_of w s tx p in
  Utils.calculate_suspicious_flag w tx p s
  = (inr (GateRules.test_high_value_deviation i
          || GateRules.test_ml_high_risk i
          || GateRules.test_new_device_high_amount i
          || GateRules.test_unusual_hour i
          || GateRules.test_geographic_anomaly i,
          GateRules.pick (GateRules.test_high_value_deviation i)
            "high_value_deviation"
          ++ GateRules.pick (GateRules.test_ml_high_risk i) "ml_high_risk"
          ++ GateRules.pick (GateRules.test_new_device_high_amount i)
               "new_device_high_amount"
          ++ GateRules.pick (GateRules.test_unusual_hour i) "unusual_hour"
          ++ GateRules.pick (GateRules.test_geographic_anomaly i)
               "geographic_anomaly"), s).
Proof.
  unfold Utils.calculate_suspicious_flag, Utils.get_user_baseline,
    Services.get_user_profile, bind, ret, get_state,
    GateRules.test_high_value_deviation, GateRules.test_ml_high_risk,
    GateRules.test_new_device_high_amount, GateRules.test_unusual_hour,
    GateRules.test_geographic_anomaly, GateRules.inputs_of. simpl.
  repeat match goal with
         | |- context [if ?c then _ else _] => destruct c
         end; reflexivity.
Qed.

Lemma test_high_value_deviation_iff (i : GateRules.Inputs) :
  GateRules.test_high_value_deviation i = true
  <-> GateRules.high_value_deviation i.
Proof.
  unfold GateRules.test_high_value_deviation, GateRules.high_value_deviation.
  rewrite andb_true_iff, !py_gt_true. reflexivity.
Qed.

Lemma test_ml_high_risk_iff (i : GateRules.Inputs) :
  GateRules.test_ml_high_risk i = true <-> GateRules.ml_high_risk i.
Proof.
  unfold GateRules.test_ml_high_risk, GateRules.ml_high_risk.
  apply py_gt_true.
Qed.

Lemma test_new_device_high_amount_iff (i : GateRules.Inputs) :
  GateRules.test_new_device_high_amount i = true
  <-> GateRules.new_device_high_amount i.
Proof.
  unfold GateRules.test_new_device_high_amount,
    GateRules.new_device_high_amount.
  rewrite andb_true_iff, negb_true_iff, py_gt_true.
  rewrite <- py_mem_In.
  destruct (Py.mem (GateRules.device i) (GateRules.devices_known i));
    intuition congruence.
Qed.

Lemma test_unusual_hour_iff (i : GateRules.Inputs) :
  GateRules.test_unusual_hour i = true <-> GateRules.unusual_hour i.
Proof.
  unfold GateRules.test_unusual_hour, GateRules.unusual_hour.
  rewrite !andb_true_iff, py_gt_true, !Z.leb_le. reflexivity.
Qed.

Lemma test_geographic_anomaly_iff (i : GateRules.Inputs) :
  GateRules.test_geographic_anomaly i = true
  <-> GateRules.geographic_anomaly i.
Proof.
  unfold GateRules.test_geographic_anomaly, GateRules.geographic_anomaly.
  rewrite andb_true_iff, !py_gt_true. reflexivity.
Qed.

Lemma picks_sublist (b1 b2 b3 b4 b5 : bool) :
  sublist
    (GateRules.pick b1 "high_value_deviation"
     ++ GateRules.pick b2 "ml_high_risk"
     ++ GateRules.pick b3 "new_device_high_amount"
     ++ GateRules.pick b4 "unusual_hour"
     ++ GateRules.pick b5 "geographic_anomaly")
    GateRules.all_reason_codes.
Proof.
  destruct b1, b2, b3, b4, b5; simpl; unfold GateRules.all_reason_codes;
    repeat (first [apply sublist_nil | apply sublist_skip | apply sublist_cons]).
Qed.

Lemma picks_In (b1 b2 b3 b4 b5 : bool) (code : string) :
  In code
    (GateRules.pick b1 "high_value_deviation"
     ++ GateRules.pick b2 "ml_high_risk"
     ++ GateRules.pick b3 "new_device_high_amount"
     ++ GateRules.pick b4 "unusual_hour"
     ++ GateRules.pick b5 "geographic_anomaly")
  <-> (code = "high_value_deviation" /\ b1 = true)
      \/ (code = "ml_high_risk" /\ b2 = true)
      \/ (code = "new_device_high_amount" /\ b3 = true)
      \/ (code = "unusual_hour" /\ b4 = true)
      \/ (code = "geographic_anomaly" /\ b5 = true).
Proof.
  rewrite !in_app_iff.
  assert (P : forall (b : bool) (c : string),
             In code (GateRules.pick b c) <-> code = c /\ b = true).
  { intros [] c; simpl; intuition congruence. }
  rewrite !P. tauto.
Qed.

(** C4.  The Suspicion Gate returns [requires_verification = true] exactly
    when one of the five rules fires; the reason codes are those of the rules
    that fire, in the fixed rule order; with a probability at or below 0.60
    and no other rule firing the flag is false and no reason is listed.  The
    call always returns and leaves the state as it was. *)
Theorem suspicion_gate_rules (w : World) (s : State) (tx : TransactionData)
    (p : Q) :
  let i := GateRules.inputs_of w s tx p in
  exists (flag : bool) (reasons : list string),
    Utils.calculate_suspicious_flag w tx p s = (inr (flag, reasons), s)
    /\ sublist reasons GateRules.all_reason_codes
    /\ (forall code, In code reasons <-> GateRules.fires i code)
    /\ (flag = true
        <-> GateRules.high_value_deviation i \/ GateRules.ml_high_risk i
            \/ GateRules.new_device_high_amount i \/ GateRules.unusual_hour i
            \/ GateRules.geographic_anomaly i)
    /\ ((p <= 60 # 100)%Q
        -> ~ GateRules.high_value_deviation i
        -> ~ GateRules.new_device_high_amount i
        -> ~ GateRules.unusual_hour i
        -> ~ GateRules.geographic_anomaly i
        -> flag = false /\ reasons = []).
Proof.
  intros i. eexists _, _. split; [apply gate_run|]. fold i.
  pose proof (test_high_value_deviation_iff i) as H1.
  pose proof (test_ml_high_risk_iff i) as H2.
  pose proof (test_new_device_high_amount_iff i) as H3.
  pose proof (test_unusual_hour_iff i) as H4.
  pose proof (test_geographic_anomaly_iff i) as H5.
  split; [apply picks_sublist|]. split; [|split].
  - intros code. rewrite picks_In. unfold GateRules.fires. tauto.
  - rewrite !orb_true_iff. tauto.
  - intros Hp N1 N3 N4 N5.
    assert (N2 : ~ GateRules.ml_high_risk i).
    { unfold GateRules.ml_high_risk. subst i. simpl.
      intros Hlt. eapply Qlt_not_le; eauto. }
    destruct (GateRules.test_high_value_deviation i); [tauto|].
    destruct (GateRules.test_ml_high_risk i); [tauto|].
    destruct (GateRules.test_new_device_high_amount i); [tauto|].
    destruct (GateRules.test_unusual_hour i); [tauto|].
    destruct (GateRules.test_geographic_anomaly i); [tauto|].
    split; reflexivity.
Qed.

(** Scenarios A and B: amount 9000 against a baseline average of 1000 is
    flagged with [high_value_deviation]; amount 200 with probability 0.1 on
    a known device at noon is not flagged. *)
Lemma suspicion_gate_rules_witness :
  (exists reasons,
     fst (Utils.calculate_suspicious_flag
            (Demo.world_at 12 Demo.mock_detection)
            (Demo.transaction 9000 (Some "Desktop")) (1 # 10)
            (Demo.loaded (1 # 10)))
     = inr (true, reasons)
     /\ In "high_value_deviation" reasons)
  /\ fst (Utils.calculate_suspicious_flag
            (Demo.world_at 12 Demo.mock_detection)
            (Demo.transaction 200 (Some "Desktop")) (1 # 10)
            (Demo.loaded (1 # 10)))
     = inr (false, []).
Proof.
  split.
  - destruct (suspicion_gate_rules (Demo.world_at 12 Demo.mock_detection)
                (Demo.loaded (1 # 10))
                (Demo.transaction 9000 (Some "Desktop")) (1 # 10))
      as (flag & reasons & Hrun & _ & Hin & Hflag & _).
    assert (Hfire : GateRules.high_value_deviation
                      (GateRules.inputs_of
                         (Demo.world_at 12 Demo.mock_detection)
                         (Demo.loaded (1 # 10))
                         (Demo.transaction 9000 (Some "Desktop")) (1 # 10))).
    { split; reflexivity. }
    exists reasons. rewrite Hrun. simpl. split.
    + f_equal. f_equal. apply Hflag. left. exact Hfire.
    + apply Hin. left. split; [reflexivity | exact Hfire].
  - destruct (suspicion_gate_rules (Demo.world_at 12 Demo.mock_detection)
                (Demo.loaded (1 # 10))
                (Demo.transaction 200 (Some "Desktop")) (1 # 10))
      as (flag & reasons & Hrun & _ & _ & _ & Hlow).
    rewrite Hrun. simpl.
    destruct Hlow as [-> ->]; try reflexivity.
    + discriminate.
    + intros [H _]. revert H. vm_compute. discriminate.
    + intros [H _]. apply H. simpl. left. reflexivity.
    + intros [[_ H] _]. revert H. vm_compute. intros H. apply H. reflexivity.
    + intros [H _]. revert H. vm_compute. discriminate.
Defined.

(** The gate at 03:00 and at 12:00 on the same transaction (amount 2500),
    probability and baseline: flagged with [unusual_hour] in the first call,
    not flagged in the second. *)
Lemma suspicion_gate_reads_clock :
  Services.lookup_profile
    (MOCK_USER_PROFILES (Demo.loaded (1 # 10)))
    (user_id (Demo.transaction 2500 (Some "Desktop")))
  = Services.lookup_profile
      (MOCK_USER_PROFILES (Demo.loaded (1 # 10)))
      (user_id (Demo.transaction 2500 (Some "Desktop")))
  /\ fst (Utils.calculate_suspicious_flag
            (Demo.world_at 3 Demo.mock_detection)
            (Demo.transaction 2500 (Some "Desktop")) (1 # 10)
            (Demo.loaded (1 # 10)))
     = inr (true, ["unusual_hour"])
  /\ fst (Utils.calculate_suspicious_flag
            (Demo.world_at 12 Demo.mock_detection)
            (Demo.transaction 2500 (Some "Desktop")) (1 # 10)
            (Demo.loaded (1 # 10)))
     = inr (false, [])
  /\ fst (Utils.calculate_suspicious_flag
            (Demo.world_at 3 Demo.mock_detection)
            (Demo.transaction 2500 (Some "Desktop")) (1 # 10)
            (Demo.loaded (1 # 10)))
     <> fst (Utils.calculate_suspicious_flag
               (Demo.world_at 12 Demo.mock_detection)
               (Demo.transaction 2500 (Some "Desktop")) (1 # 10)
               (Demo.loaded (1 # 10))).
Proof.
  split; [reflexivity|]. split; [reflexivity|]. split; [reflexivity|].
  vm_compute. discriminate.
Qed.

(** C8 (amended).  Two calls of the gate with the same transaction data,
    the same probability, the same user baseline and the same hour of the
    clock return the same flag and the same list of reason codes, and each
    call leaves the state as it found it. *)
Theorem suspicion_gate_deterministic (w1 w2 : World) (s1 s2 : State)
    (tx : TransactionData) (p : Q) :
  Services.lookup_profile (MOCK_USER_PROFILES s1) (user_id tx)
  = Services.lookup_profile (MOCK_USER_PROFILES s2) (user_id tx) ->
  now_hour w1 = now_hour w2 ->
  fst (Utils.calculate_suspicious_flag w1 tx p s1)
  = fst (Utils.calculate_suspicious_flag w2 tx p s2)
  /\ snd (Utils.calculate_suspicious_flag w1 tx p s1) = s1
  /\ snd (Utils.calculate_suspicious_flag w2 tx p s2) = s2.
Proof.
  intros Hb Hh. rewrite !gate_run. simpl.
  assert (E : GateRules.inputs_of w1 s1 tx p = GateRules.inputs_of w2 s2 tx p).
  { unfold GateRules.inputs_of. rewrite Hb, Hh. reflexivity. }
  rewrite E. auto.
Qed.

Lemma suspicion_gate_deterministic_witness :
  fst (Utils.calculate_suspicious_flag
         (Demo.world_at 3 Demo.mock_detection)
         (Demo.transaction 2500 (Some "Desktop")) (1 # 10)
         (Demo.loaded (1 # 10)))
  = fst (Utils.calculate_suspicious_flag
           (Demo.world_at 3 Demo.deepfake_detection)
           (Demo.transaction 2500 (Some "Desktop")) (1 # 10)
           (Demo.loaded (9 # 10)))
  /\ snd (Utils.calculate_suspicious_flag
            (Demo.world_at 3 Demo.mock_detection)
            (Demo.transaction 2500 (Some "Desktop")) (1 # 10)
            (Demo.loaded (1 # 10)))
     = Demo.loaded (1 # 10)
  /\ snd (Utils.calculate_suspicious_flag
            (Demo.world_at 3 Demo.deepfake_detection)
            (Demo.transaction 2500 (Some "Desktop")) (1 # 10)
            (Demo.loaded (9 # 10)))
     = Demo.loaded (9 # 10).
Proof.
  apply (suspicion_gate_deterministic
           (Demo.world_at 3 Demo.mock_detection)
           (Demo.world_at 3 Demo.deepfake_detection)
           (Demo.loaded (1 # 10)) (Demo.loaded (9 # 10))
           (Demo.transaction 2500 (Some "Desktop")) (1 # 10));
    reflexivity.
Defined.

(* ===================================================================== *)
(** ** The Risk Synthesizer of [backend/app] *)
(* ===================================================================== *)

(** The run of [assess_risk]: it always returns, and the only change of the
    state is the announcement. *)
Lemma assess_risk_run (w : World) (m : MonitorResult)
    (d : option DeepfakeResult) (e : Evidence) (s : State) :
  exists ra,
    RiskAssessorAgent.assess_risk w m d e s
    = (inr ra, started_with RiskAssessor s)
    /\ ra !! "risk_score"
       = Some (VInt (RiskAssessorAgent.composite_risk_score (risk_score m)
                       (RiskAssessorAgent.risk_adjustments d
                          (default [] (detected_patterns e)))))
    /\ ra !! "base_risk" = Some (VInt (risk_score m))
    /\ ra !! "adjustments"
       = Some (VAdjustments
                 (RiskAssessorAgent.risk_adjustments d
                    (default [] (detected_patterns e))))
    /\ ra !! "status"
       = Some (VStr (fst (RiskAssessorAgent.determine_status
                            (RiskAssessorAgent.composite_risk_score
                               (risk_score m)
                               (RiskAssessorAgent.risk_adjustments d
                                  (default [] (detected_patterns e)))))))
    /\ ra !! "case_id" = None
    /\ ra !! "alerts_sent" = None.
Proof.
  unfold RiskAssessorAgent.assess_risk, bind, announce, ret.
  destruct (RiskAssessorAgent.determine_status _) as [st cf] eqn:E.
  eexists. split; [reflexivity|].
  repeat split; reflexivity.
Qed.

Lemma risk_adjustments_total (d : option DeepfakeResult)
    (patterns : list string) :
  AdjustmentTable.total (RiskAssessorAgent.risk_adjustments d patterns)
  = AdjustmentTable.chained_total d patterns.
Proof.
  unfold RiskAssessorAgent.risk_adjustments, AdjustmentTable.chained_total,
    AdjustmentTable.inauthentic, AdjustmentTable.face_below_threshold,
    AdjustmentTable.code_check_failed, AdjustmentTable.amount_anomaly,
    AdjustmentTable.velocity_anomaly, AdjustmentTable.new_device,
    AdjustmentTable.delta.
  destruct d as [r|];
    [destruct (is_deepfake r), (Py.lt (face_match_score r) (80 # 100)),
       (code_validated r)|];
    destruct (Py.any_contains "higher than normal" patterns),
      (Py.any_contains "High velocity" patterns),
      (Py.any_contains "New device" patterns); reflexivity.
Qed.

Lemma chained_total_bounds (d : option DeepfakeResult)
    (patterns : list string) :
  0 <= AdjustmentTable.chained_total d patterns <= 75.
Proof.
  unfold AdjustmentTable.chained_total, AdjustmentTable.delta.
  destruct (AdjustmentTable.inauthentic d),
    (AdjustmentTable.face_below_threshold d),
    (AdjustmentTable.code_check_failed d),
    (AdjustmentTable.amount_anomaly patterns),
    (AdjustmentTable.velocity_anomaly patterns),
    (AdjustmentTable.new_device patterns); lia.
Qed.

Lemma total_nonneg (adjustments : list (string * Z)) :
  Forall (fun a => 0 <= snd a) adjustments ->
  0 <= AdjustmentTable.total adjustments.
Proof.
  induction 1 as [|[r d] l H _ IH]; simpl in *; lia.
Qed.

Lemma composite_risk_score_min (base : Z) (adjustments : list (string * Z)) :
  RiskAssessorAgent.composite_risk_score base adjustments
  = Z.min (base + AdjustmentTable.total adjustments) 100.
Proof.
  unfold RiskAssessorAgent.composite_risk_score.
  rewrite py_sum_total. reflexivity.
Qed.

(** C2.  For a base score in [0,100] the composite score of [assess_risk]
    is the base score plus the sum of the deltas of the adjustments it lists,
    capped at 100, and lies in [0,100]; the same holds of the scoring step
    for every list of adjustments with non-negative deltas; base 90 with
    +40, +20 and +15 gives exactly 100. *)
Theorem composite_score_clamped (w : World) (m : MonitorResult)
    (d : option DeepfakeResult) (e : Evidence) (s : State) :
  0 <= risk_score m <= 100 ->
  (exists ra adjustments score,
     RiskAssessorAgent.assess_risk w m d e s
     = (inr ra, started_with RiskAssessor s)
     /\ ra !! "adjustments" = Some (VAdjustments adjustments)
     /\ ra !! "risk_score" = Some (VInt score)
     /\ score = Z.min (risk_score m + AdjustmentTable.total adjustments) 100
     /\ 0 <= score <= 100)
  /\ (forall adjustments : list (string * Z),
        Forall (fun a => 0 <= snd a) adjustments ->
        RiskAssessorAgent.composite_risk_score (risk_score m) adjustments
        = Z.min (risk_score m + AdjustmentTable.total adjustments) 100
        /\ 0 <= RiskAssessorAgent.composite_risk_score (risk_score m)
                  adjustments <= 100)
  /\ RiskAssessorAgent.composite_risk_score 90
       [("Deepfake detected", 40); ("Low face match", 20);
        ("Code validation failed", 15)] = 100.
Proof.
  intros Hbase. split; [|split].
  - destruct (assess_risk_run w m d e s)
      as (ra & Hrun & Hscore & _ & Hadj & _).
    eexists ra, _, _. split; [exact Hrun|]. split; [exact Hadj|].
    split; [exact Hscore|]. rewrite composite_risk_score_min.
    split; [reflexivity|].
    rewrite risk_adjustments_total.
    pose proof (chained_total_bounds d (default [] (detected_patterns e))).
    lia.
  - intros adjustments Hpos. rewrite composite_risk_score_min.
    split; [reflexivity|]. apply total_nonneg in Hpos. lia.
  - reflexivity.
Qed.

(** Base 90 with a detected deepfake (+40), an amount anomaly (+15) and a
    new device (+10): the score is 100. *)
Lemma composite_score_clamped_witness :
  0 <= risk_score (Demo.monitor_result 90) <= 100
  /\ exists ra,
       fst (RiskAssessorAgent.assess_risk
              (Demo.world_at 12 Demo.deepfake_detection)
              (Demo.monitor_result 90) (Some Demo.failed_verification)
              (Demo.evidence_with
                 ["Amount 9x higher than normal"; "New device detected"])
              (Demo.loaded (9 # 10)))
       = inr ra
       /\ ra !! "risk_score" = Some (VInt 100).
Proof.
  assert (H : 0 <= risk_score (Demo.monitor_result 90) <= 100)
    by (simpl; lia).
  split; [exact H|].
  destruct (composite_score_clamped
              (Demo.world_at 12 Demo.deepfake_detection)
              (Demo.monitor_result 90) (Some Demo.failed_verification)
              (Demo.evidence_with
                 ["Amount 9x higher than normal"; "New device detected"])
              (Demo.loaded (9 # 10)) H)
    as [(ra & adjustments & score & Hrun & Hadj & Hscore & Heq & _) _].
  exists ra. rewrite Hrun. split; [reflexivity|].
  rewrite Hscore. f_equal. f_equal. subst score.
  assert (E : VAdjustments adjustments
              = VAdjustments [("Deepfake detected", 40); ("Amount anomaly", 15);
                              ("New device", 10)]).
  { apply (f_equal fst) in Hrun. simpl in Hrun.
    assert (Some (VAdjustments adjustments)
            = Some (VAdjustments [("Deepfake detected", 40);
                                  ("Amount anomaly", 15); ("New device", 10)])).
    { rewrite <- Hadj. injection Hrun as <-. reflexivity. }
    congruence. }
  injection E as ->. reflexivity.
Defined.

(** With a biometric result that is a deepfake, has a face match of 0.5
    and a failed code check, [assess_risk] lists the single adjustment
    [Deepfake detected] (+40); evaluating the three verification rows
    independently would give +75. *)
Lemma verification_rows_are_chained :
  RiskAssessorAgent.risk_adjustments (Some Demo.failed_verification) []
  = [("Deepfake detected", 40)]
  /\ AdjustmentTable.total
       (RiskAssessorAgent.risk_adjustments (Some Demo.failed_verification) [])
     = 40
  /\ AdjustmentTable.independent_total (Some Demo.failed_verification) [] = 75
  /\ AdjustmentTable.total
       (RiskAssessorAgent.risk_adjustments (Some Demo.failed_verification) [])
     <> AdjustmentTable.independent_total (Some Demo.failed_verification) [].
Proof.
  repeat split; try reflexivity. vm_compute. discriminate.
Qed.

(** C3 (amended).  The three evidence rows of the adjustment table are
    evaluated independently, each contributing its delta when its pattern is
    present.  The three verification rows form a chain: +40 when a deepfake
    is reported; otherwise +20 when the face match is below 0.80; otherwise
    +15 when the code was not validated; at most one of them is applied. *)
Theorem adjustments_chain_then_evidence (w : World) (m : MonitorResult)
    (d : option DeepfakeResult) (e : Evidence) (s : State) :
  let patterns := default [] (detected_patterns e) in
  exists ra adjustments,
    RiskAssessorAgent.assess_risk w m d e s
    = (inr ra, started_with RiskAssessor s)
    /\ ra !! "adjustments" = Some (VAdjustments adjustments)
    /\ AdjustmentTable.total adjustments
       = AdjustmentTable.chained_total d patterns
    /\ (In ("Deepfake detected", 40) adjustments
        <-> AdjustmentTable.inauthentic d = true)
    /\ (In ("Low face match", 20) adjustments
        <-> AdjustmentTable.inauthentic d = false
            /\ AdjustmentTable.face_below_threshold d = true)
    /\ (In ("Code validation failed", 15) adjustments
        <-> AdjustmentTable.inauthentic d = false
            /\ AdjustmentTable.face_below_threshold d = false
            /\ AdjustmentTable.code_check_failed d = true)
    /\ (In ("Amount anomaly", 15) adjustments
        <-> AdjustmentTable.amount_anomaly patterns = true)
    /\ (In ("Velocity spike", 10) adjustments
        <-> AdjustmentTable.velocity_anomaly patterns = true)
    /\ (In ("New device", 10) adjustments
        <-> AdjustmentTable.new_device patterns = true).
Proof.
  intros patterns.
  destruct (assess_risk_run w m d e s) as (ra & Hrun & _ & _ & Hadj & _).
  exists ra, (RiskAssessorAgent.risk_adjustments d patterns).
  split; [exact Hrun|]. split; [exact Hadj|].
  split; [apply risk_adjustments_total|].
  unfold RiskAssessorAgent.risk_adjustments, AdjustmentTable.inauthentic,
    AdjustmentTable.face_below_threshold, AdjustmentTable.code_check_failed,
    AdjustmentTable.amount_anomaly, AdjustmentTable.velocity_anomaly,
    AdjustmentTable.new_device.
  destruct d as [r|];
    [destruct (is_deepfake r), (Py.lt (face_match_score r) (80 # 100)),
       (code_validated r)|];
    destruct (Py.any_contains "higher than normal" patterns),
      (Py.any_contains "High velocity" patterns),
      (Py.any_contains "New device" patterns);
    simpl; repeat split; intros; intuition congruence.
Qed.

(* ===================================================================== *)
(** ** Runs of the agents *)
(* ===================================================================== *)

(** One step of a run: the monad operations are unfolded and the matches
    on their results reduced. *)
Ltac step :=
  cbv beta iota delta [bind ret raise lift get_state try_except announce].

Tactic Notation "step" "in" hyp(H) :=
  cbv beta iota delta [bind ret raise lift get_state try_except announce]
    in H.

Lemma get_user_profile_run (uid : option string) (s : State) :
  Services.get_user_profile uid s
  = (inr (Services.lookup_profile (MOCK_USER_PROFILES s) uid), s).
Proof. reflexivity. Qed.

(** Feature preparation reads the state and never changes it. *)
Lemma prepare_features_state (w : World) (tx : TransactionData) (s : State) :
  snd (FraudModel.prepare_features w tx s) = s.
Proof.
  unfold FraudModel.prepare_features, Utils.get_user_baseline, bind.
  rewrite get_user_profile_run. unfold get_state.
  destruct (ENCODERS s); reflexivity.
Qed.

(** The classifier adapter reads the state and never changes it. *)
Lemma predict_fraud_probability_state (w : World) (tx : TransactionData)
    (s : State) :
  snd (FraudModel.predict_fraud_probability w tx s) = s.
Proof.
  unfold FraudModel.predict_fraud_probability, bind, get_state.
  destruct (MODEL s) as [model|]; [|reflexivity].
  unfold try_except, bind.
  pose proof (prepare_features_state w tx s) as Hp.
  destruct (FraudModel.prepare_features w tx s) as [[e|features] s1].
  - simpl in Hp. subst s1. reflexivity.
  - simpl in Hp. subst s1. unfold get_state.
    destruct (FEATURE_COLUMNS s) as [columns|]; [|reflexivity].
    unfold lift.
    destruct (FraudModel.select_columns features columns) as [e|row];
      [reflexivity|].
    destruct (predict_proba model row); reflexivity.
Qed.

(** When the Transaction Monitor returns, the only change of the state is
    its announcement. *)
Lemma analyze_transaction_state (w : World) (tx : TransactionData)
    (s s1 : State) (m : MonitorResult) :
  TransactionMonitorAgent.analyze_transaction w tx s = (inr m, s1) ->
  s1 = started_with TransactionMonitor s.
Proof.
  unfold TransactionMonitorAgent.analyze_transaction, bind, announce.
  pose proof (predict_fraud_probability_state w tx
                (started_with TransactionMonitor s)) as Hp.
  destruct (FraudModel.predict_fraud_probability w tx
              (started_with TransactionMonitor s)) as [[e|p] s'].
  - discriminate.
  - simpl in Hp. subst s'. unfold ret. intros H. now injection H.
Qed.

(** The Deepfake Detector always returns, and only announces itself. *)
Lemma analyze_deepfake_state (w : World) (tx : TransactionData)
    (path code : string) (s : State) :
  exists d,
    DeepfakeDetectorAgent.analyze_deepfake w tx path code s
    = (inr d, started_with DeepfakeDetector s).
Proof. eexists. reflexivity. Qed.

(** The Evidence Collector always returns, and only announces itself. *)
Lemma collect_evidence_state (w : World) (tx : TransactionData) (s : State) :
  exists e,
    EvidenceCollectorAgent.collect_evidence w tx s
    = (inr e, started_with EvidenceCollector s).
Proof.
  unfold EvidenceCollectorAgent.collect_evidence, bind, announce, ret.
  rewrite get_user_profile_run. eexists. reflexivity.
Qed.

(** The run of the Escalation Handler on a risk assessment that holds a
    score and a status. *)
Lemma handle_escalation_run (w : World) (tx : TransactionData)
    (ra : gmap string PyVal) (e : Evidence) (s : State) (score status : PyVal) :
  ra !! "risk_score" = Some score ->
  ra !! "status" = Some status ->
  exists r fc,
    EscalationHandlerAgent.handle_escalation w tx ra e s
    = (inr r,
       Services.with_fraud_case fc (started_with EscalationHandler s))
    /\ case_id r
       = "FA-" +:+ now_yyyymmdd w +:+ "-"
           +:+ Py.str_of_int (randint_1000_9999 w)
    /\ alerts_sent r = [sns_message_id w]
    /\ fc_case_id fc = case_id r
    /\ fc_transaction_id fc = transaction_id tx
    /\ fc_risk_score fc = score
    /\ fc_status fc = status.
Proof.
  intros Hscore Hstatus.
  unfold EscalationHandlerAgent.handle_escalation, bind, announce,
    EscalationHandlerAgent.item.
  rewrite Hscore, Hstatus. unfold ret, Services.create_fraud_case.
  eexists _, _. split; [reflexivity|]. repeat split; reflexivity.
Qed.

(* ===================================================================== *)
(** ** The orchestrator *)
(* ===================================================================== *)

(** C1.  When a photo and a verification code are supplied and the
    Deepfake Detector reports a deepfake or a verification that did not
    pass, [orchestrate_transaction] returns status BLOCKED with risk score
    100 and that report; the only agents that started are the Transaction
    Monitor and the Deepfake Detector, so evidence collection, risk synthesis
    and escalation did not run, and no fraud case was stored. *)
Theorem deepfake_short_circuit (w : World) (tx : TransactionData)
    (photo : PhotoData) (code : string) (s s1 s2 : State)
    (m : MonitorResult) (d : DeepfakeResult) :
  TransactionMonitorAgent.analyze_transaction w tx s = (inr m, s1) ->
  Py.truthy_str code = true ->
  DeepfakeDetectorAgent.analyze_deepfake w tx (s3_path photo) code s1
  = (inr d, s2) ->
  is_deepfake d = true \/ verification_passed d = false ->
  Orchestrator.orchestrate_transaction w tx (Some photo) (Some code) s
  = (inr (ImmediateBlock (VStr "BLOCKED") (VInt 100)
            "Deepfake authentication detected" d), s2)
  /\ started s2 = started s ++ [TransactionMonitor; DeepfakeDetector]
  /\ ~ In EvidenceCollector [TransactionMonitor; DeepfakeDetector]
  /\ ~ In RiskAssessor [TransactionMonitor; DeepfakeDetector]
  /\ ~ In EscalationHandler [TransactionMonitor; DeepfakeDetector]
  /\ MOCK_FRAUD_CASES s2 = MOCK_FRAUD_CASES s.
Proof.
  intros Hm Hcode Hd Hfail.
  pose proof (analyze_transaction_state w tx s s1 m Hm) as E1.
  destruct (analyze_deepfake_state w tx (s3_path photo) code s1)
    as (d' & Hd').
  assert (E2 : s2 = started_with DeepfakeDetector s1) by congruence.
  split.
  - unfold Orchestrator.orchestrate_transaction, bind.
    rewrite Hm, Hcode, Hd.
    assert (C : is_deepfake d || negb (verification_passed d) = true).
    { destruct Hfail as [-> | ->]; [reflexivity | apply orb_true_r]. }
    rewrite C. reflexivity.
  - subst s2 s1. simpl. rewrite <- app_assoc. simpl.
    repeat split; try reflexivity;
      intros [H | [H | []]]; discriminate.
Qed.

(** A run at noon in which the endpoint reports a deepfake. *)
Lemma deepfake_short_circuit_witness :
  exists d s2,
    Orchestrator.orchestrate_transaction
      (Demo.world_at 12 Demo.deepfake_detection)
      (Demo.transaction 2500 (Some "Desktop")) (Some Demo.photo)
      (Some "482913") (Demo.loaded (1 # 10))
    = (inr (ImmediateBlock (VStr "BLOCKED") (VInt 100)
              "Deepfake authentication detected" d), s2)
    /\ is_deepfake d = true
    /\ started s2 = [TransactionMonitor; DeepfakeDetector]
    /\ MOCK_FRAUD_CASES s2 = ∅.
Proof.
  destruct (TransactionMonitorAgent.analyze_transaction
              (Demo.world_at 12 Demo.deepfake_detection)
              (Demo.transaction 2500 (Some "Desktop")) (Demo.loaded (1 # 10)))
    as [[e|m] s1] eqn:Hm; [vm_compute in Hm; discriminate|].
  destruct (DeepfakeDetectorAgent.analyze_deepfake
              (Demo.world_at 12 Demo.deepfake_detection)
              (Demo.transaction 2500 (Some "Desktop"))
              (s3_path Demo.photo) "482913" s1)
    as [[e|d] s2] eqn:Hd; [vm_compute in Hd; discriminate|].
  assert (Hdeep : is_deepfake d = true).
  { unfold DeepfakeDetectorAgent.analyze_deepfake, bind, announce, ret in Hd.
    injection Hd as <- _. reflexivity. }
  destruct (deepfake_short_circuit
              (Demo.world_at 12 Demo.deepfake_detection)
              (Demo.transaction 2500 (Some "Desktop")) Demo.photo "482913"
              (Demo.loaded (1 # 10)) s1 s2 m d Hm eq_refl Hd (or_introl Hdeep))
    as (Hrun & Hstarted & _ & _ & _ & Hcases).
  exists d, s2. repeat split; assumption.
Defined.

(** The escalation step on a risk assessment whose score is below 70: the
    assessment and the state are returned as they were. *)
Lemma escalation_step_low (w : World) (tx : TransactionData)
    (ra : gmap string PyVal) (e : Evidence) (s : State) (z : Z) :
  ra !! "risk_score" = Some (VInt z) -> z < 70 ->
  Orchestrator.escalation_step w tx ra e s = (inr ra, s).
Proof.
  intros Hscore Hlow.
  unfold Orchestrator.escalation_step, bind, EscalationHandlerAgent.item.
  rewrite Hscore. unfold ret, Orchestrator.ge_int.
  assert (E : (70 <=? z) = false) by (apply Z.leb_gt; lia).
  rewrite E. reflexivity.
Qed.

(** The escalation step on a risk assessment whose score is at least 70:
    the Escalation Handler runs, a fraud case is stored, and the two keys
    [case_id] and [alerts_sent] are set. *)
Lemma escalation_step_high (w : World) (tx : TransactionData)
    (ra : gmap string PyVal) (e : Evidence) (s : State) (z : Z)
    (status : PyVal) :
  ra !! "risk_score" = Some (VInt z) -> 70 <= z ->
  ra !! "status" = Some status ->
  exists fc,
    Orchestrator.escalation_step w tx ra e s
    = (inr (<["alerts_sent" := VIds [sns_message_id w]]>
              (<["case_id" := VStr (fc_case_id fc)]> ra)),
       Services.with_fraud_case fc (started_with EscalationHandler s))
    /\ fc_case_id fc
       = "FA-" +:+ now_yyyymmdd w +:+ "-"
           +:+ Py.str_of_int (randint_1000_9999 w)
    /\ fc_transaction_id fc = transaction_id tx
    /\ fc_risk_score fc = VInt z
    /\ fc_status fc = status.
Proof.
  intros Hscore Hhigh Hstatus.
  destruct (handle_escalation_run w tx ra e s (VInt z) status Hscore Hstatus)
    as (r & fc & Hrun & Hcase & Halerts & Hfc & Htid & Hsc & Hst).
  exists fc.
  unfold Orchestrator.escalation_step, bind, EscalationHandlerAgent.item.
  rewrite Hscore. unfold Orchestrator.ge_int. step.
  assert (E : (70 <=? z) = true) by (apply Z.leb_le; lia).
  rewrite E. step. rewrite Hrun. step.
  rewrite Halerts, Hfc.
  repeat split; congruence.
Qed.

(** C5.  With a base score of 60, evidence that holds an amount-anomaly
    pattern and a new-device pattern (and no velocity pattern), and no
    biometric check (no photo, or no verification code), the composite score
    is 85 and the status BLOCKED; the
    Escalation Handler runs, stores a fraud case for the transaction, and the
    identifier of that case is attached to the risk assessment. *)
Theorem scenario_d_escalation (w : World) (tx : TransactionData)
    (photo : option PhotoData) (code : option string) (s s1 s2 : State)
    (m : MonitorResult) (e : Evidence) :
  photo = None \/ code = None \/ code = Some "" ->
  TransactionMonitorAgent.analyze_transaction w tx s = (inr m, s1) ->
  risk_score m = 60 ->
  EvidenceCollectorAgent.collect_evidence w tx s1 = (inr e, s2) ->
  AdjustmentTable.amount_anomaly (default [] (detected_patterns e)) = true ->
  AdjustmentTable.new_device (default [] (detected_patterns e)) = true ->
  AdjustmentTable.velocity_anomaly (default [] (detected_patterns e)) = false ->
  exists ra fc s3,
    Orchestrator.orchestrate_transaction w tx photo code s
    = (inr (FullAnalysis (VStr "BLOCKED") (VInt 85) m None e ra), s3)
    /\ ra !! "risk_score" = Some (VInt 85)
    /\ ra !! "status" = Some (VStr "BLOCKED")
    /\ ra !! "adjustments"
       = Some (VAdjustments [("Amount anomaly", 15); ("New device", 10)])
    /\ ra !! "case_id" = Some (VStr (fc_case_id fc))
    /\ MOCK_FRAUD_CASES s3 !! fc_case_id fc = Some fc
    /\ fc_case_id fc
       = "FA-" +:+ now_yyyymmdd w +:+ "-"
           +:+ Py.str_of_int (randint_1000_9999 w)
    /\ fc_transaction_id fc = transaction_id tx
    /\ fc_risk_score fc = VInt 85
    /\ fc_status fc = VStr "BLOCKED"
    /\ started s3 = started s2 ++ [RiskAssessor; EscalationHandler].
Proof.
  intros Hnone Hm Hbase He Ha Hn Hv.
  destruct (assess_risk_run w m None e s2)
    as (ra & Hrun & Hscore & _ & Hadj & Hstatus & _).
  assert (Eadj : RiskAssessorAgent.risk_adjustments None
                   (default [] (detected_patterns e))
                 = [("Amount anomaly", 15); ("New device", 10)]).
  { unfold RiskAssessorAgent.risk_adjustments.
    unfold AdjustmentTable.amount_anomaly, AdjustmentTable.new_device,
      AdjustmentTable.velocity_anomaly in *.
    rewrite Ha, Hn, Hv. reflexivity. }
  rewrite Eadj, Hbase in *.
  change (RiskAssessorAgent.composite_risk_score 60 _) with 85 in *.
  change (fst (RiskAssessorAgent.determine_status 85)) with "BLOCKED"
    in Hstatus.
  destruct (escalation_step_high w tx ra e (started_with RiskAssessor s2) 85
              (VStr "BLOCKED") Hscore ltac:(lia) Hstatus)
    as (fc & Hesc & Hid & Htid & Hsc & Hst).
  eexists _, fc, _. split.
  - unfold Orchestrator.orchestrate_transaction, bind. rewrite Hm.
    assert (Hs : Orchestrator.synthesize w tx m None s1
                 = (inr (FullAnalysis (VStr "BLOCKED") (VInt 85) m None e
                           (<["alerts_sent" := VIds [sns_message_id w]]>
                              (<["case_id" := VStr (fc_case_id fc)]> ra))),
                    Services.with_fraud_case fc
                      (started_with EscalationHandler
                         (started_with RiskAssessor s2)))).
    { unfold Orchestrator.synthesize, bind. rewrite He, Hrun, Hesc.
      unfold EscalationHandlerAgent.item.
      rewrite !lookup_insert_ne by done.
      rewrite Hstatus, Hscore. reflexivity. }
    destruct Hnone as [-> | [-> | ->]].
    + destruct code as [c|]; exact Hs.
    + destruct photo; exact Hs.
    + destruct photo; exact Hs.
  - split; [rewrite !lookup_insert_ne by done; exact Hscore|].
    split; [rewrite !lookup_insert_ne by done; exact Hstatus|].
    split; [rewrite !lookup_insert_ne by done; exact Hadj|].
    split; [rewrite lookup_insert_ne by done; apply lookup_insert_eq|].
    split; [simpl; apply lookup_insert_eq|].
    repeat split; try assumption.
    simpl. rewrite <- app_assoc. reflexivity.
Qed.

(** Scenario D on concrete collaborators: the classifier answers 0.6, the
    amount is nine times the baseline average and the device is unknown. *)
Lemma scenario_d_escalation_witness :
  exists m e ra fc s3,
    Orchestrator.orchestrate_transaction
      (Demo.world_at 12 Demo.mock_detection)
      (Demo.transaction 9000 (Some "Tablet")) None None
      (Demo.loaded (6 # 10))
    = (inr (FullAnalysis (VStr "BLOCKED") (VInt 85) m None e ra), s3)
    /\ detected_patterns e
       = Some ["Amount 9x higher than normal"; "New device detected"]
    /\ ra !! "case_id" = Some (VStr "FA-20231114-4821")
    /\ MOCK_FRAUD_CASES s3 !! "FA-20231114-4821" = Some fc
    /\ fc_risk_score fc = VInt 85.
Proof.
  destruct (TransactionMonitorAgent.analyze_transaction
              (Demo.world_at 12 Demo.mock_detection)
              (Demo.transaction 9000 (Some "Tablet")) (Demo.loaded (6 # 10)))
    as [[x|m] s1] eqn:Hm; [vm_compute in Hm; discriminate|].
  assert (Hbase : risk_score m = 60).
  { revert Hm. vm_compute. intros Hm. injection Hm as <- _. reflexivity. }
  destruct (collect_evidence_state
              (Demo.world_at 12 Demo.mock_detection)
              (Demo.transaction 9000 (Some "Tablet")) s1) as (e & He).
  assert (Hpat : detected_patterns e
                 = Some ["Amount 9x higher than normal";
                         "New device detected"]).
  { pose proof (f_equal fst He) as Hfst. revert Hfst.
    rewrite (analyze_transaction_state _ _ _ _ _ Hm).
    vm_compute. intros Hfst. injection Hfst as <-. reflexivity. }
  destruct (scenario_d_escalation
              (Demo.world_at 12 Demo.mock_detection)
              (Demo.transaction 9000 (Some "Tablet")) None None
              (Demo.loaded (6 # 10)) s1 _ m e (or_introl eq_refl)
              Hm Hbase He)
    as (ra & fc & s3 & Hrun & _ & _ & _ & Hcase & Hstore & Hid & _ & Hscore
        & _).
  - rewrite Hpat. reflexivity.
  - rewrite Hpat. reflexivity.
  - rewrite Hpat. reflexivity.
  - change ("FA-" +:+ _) with "FA-20231114-4821" in Hid.
    exists m, e, ra, fc, s3. rewrite <- Hid.
    repeat split; assumption.
Defined.

(** The escalation step that returns went one of two ways: below 70 nothing
    changed; from 70 on the handler ran and the two keys were set. *)
Lemma escalation_step_cases (w : World) (tx : TransactionData)
    (ra ra' : gmap string PyVal) (e : Evidence) (s s' : State) :
  Orchestrator.escalation_step w tx ra e s = (inr ra', s') ->
  (exists z, ra !! "risk_score" = Some (VInt z) /\ z < 70
             /\ ra' = ra /\ s' = s)
  \/ (exists z fc,
        ra !! "risk_score" = Some (VInt z) /\ 70 <= z
        /\ ra' = <["alerts_sent" := VIds [sns_message_id w]]>
                   (<["case_id" := VStr (fc_case_id fc)]> ra)
        /\ s' = Services.with_fraud_case fc
                  (started_with EscalationHandler s)).
Proof.
  intros Hrun.
  destruct (ra !! "risk_score") as [v|] eqn:Hscore.
  2:{ unfold Orchestrator.escalation_step, EscalationHandlerAgent.item in Hrun.
      rewrite Hscore in Hrun. discriminate. }
  destruct v as [|z| | |];
    try (unfold Orchestrator.escalation_step, EscalationHandlerAgent.item
           in Hrun; rewrite Hscore in Hrun; discriminate).
  destruct (Z.lt_ge_cases z 70) as [Hlow | Hhigh].
  - left. exists z. rewrite (escalation_step_low w tx ra e s z Hscore Hlow)
      in Hrun.
    injection Hrun as <- <-. auto.
  - right. destruct (ra !! "status") as [status|] eqn:Hstatus.
    + destruct (escalation_step_high w tx ra e s z status Hscore Hhigh Hstatus)
        as (fc & Hesc & _).
      rewrite Hesc in Hrun. injection Hrun as <- <-.
      exists z, fc. auto.
    + exfalso.
      unfold Orchestrator.escalation_step, EscalationHandlerAgent.item,
        Orchestrator.ge_int in Hrun.
      rewrite Hscore in Hrun. step in Hrun.
      assert (E : (70 <=? z) = true) by (apply Z.leb_le; lia).
      rewrite E in Hrun.
      unfold EscalationHandlerAgent.handle_escalation,
        EscalationHandlerAgent.item in Hrun.
      step in Hrun. rewrite Hscore, Hstatus in Hrun. discriminate.
Qed.

(** A run of the escalation step on the assessment that [assess_risk]
    produced for base score 90: afterwards the assessment has a key
    [alerts_sent], which it did not have before and which is not the case
    identifier. *)
Lemma escalation_sets_alerts_sent :
  exists ra ra' s',
    fst (RiskAssessorAgent.assess_risk
           (Demo.world_at 12 Demo.mock_detection) (Demo.monitor_result 90)
           None (Demo.evidence_with []) (Demo.loaded (9 # 10)))
    = inr ra
    /\ Orchestrator.escalation_step
         (Demo.world_at 12 Demo.mock_detection)
         (Demo.transaction 2500 (Some "Desktop")) ra
         (Demo.evidence_with []) (Demo.loaded (9 # 10))
       = (inr ra', s')
    /\ "alerts_sent" <> "case_id"
    /\ ra !! "alerts_sent" = None
    /\ ra' !! "alerts_sent" = Some (VIds [Some "mock-message-id"])
    /\ ra' !! "alerts_sent" <> ra !! "alerts_sent".
Proof.
  destruct (assess_risk_run (Demo.world_at 12 Demo.mock_detection)
              (Demo.monitor_result 90) None (Demo.evidence_with [])
              (Demo.loaded (9 # 10)))
    as (ra & Hra & Hscore & _ & _ & Hstatus & _ & Halerts).
  destruct (escalation_step_high (Demo.world_at 12 Demo.mock_detection)
              (Demo.transaction 2500 (Some "Desktop")) ra
              (Demo.evidence_with []) (Demo.loaded (9 # 10)) 90 _
              Hscore ltac:(lia) Hstatus)
    as (fc & Hesc & _).
  eexists ra, _, _. split; [rewrite Hra; reflexivity|].
  split; [exact Hesc|]. split; [discriminate|]. split; [exact Halerts|].
  rewrite lookup_insert_eq, Halerts. split; [reflexivity | discriminate].
Qed.

(** The frame of the escalation step: it changes the risk assessment only
    at the keys [case_id] and [alerts_sent], and only when the Escalation
    Handler ran. *)
Lemma escalation_step_frame (w : World) (tx : TransactionData)
    (ra ra' : gmap string PyVal) (e : Evidence) (s s' : State) :
  Orchestrator.escalation_step w tx ra e s = (inr ra', s') ->
  (forall k, k <> "case_id" -> k <> "alerts_sent" -> ra' !! k = ra !! k)
  /\ dom ra' ⊆ dom ra ∪ {["case_id"; "alerts_sent"]}
  /\ (ra' = ra /\ s' = s
      \/ started s' = started s ++ [EscalationHandler]
         /\ is_Some (ra' !! "case_id") /\ is_Some (ra' !! "alerts_sent")).
Proof.
  intros Hrun.
  destruct (escalation_step_cases w tx ra ra' e s s' Hrun)
    as [(z & _ & _ & -> & ->) | (z & fc & _ & _ & -> & ->)].
  - split; [reflexivity|]. split; [set_solver|]. left. auto.
  - split; [|split].
    + intros k Hc Ha.
      rewrite lookup_insert_ne by (intros E; apply Ha; now symmetry).
      rewrite lookup_insert_ne by (intros E; apply Hc; now symmetry).
      reflexivity.
    + rewrite !dom_insert_L.
      intros k Hk. apply elem_of_union in Hk as [Hk | Hk].
      * apply elem_of_union. right. apply elem_of_singleton in Hk as ->.
        apply elem_of_union. right. apply elem_of_singleton. reflexivity.
      * apply elem_of_union in Hk as [Hk | Hk].
        -- apply elem_of_union. right. apply elem_of_singleton in Hk as ->.
           apply elem_of_union. left. apply elem_of_singleton. reflexivity.
        -- apply elem_of_union. left. exact Hk.
    + right. split; [reflexivity|]. split.
      * rewrite lookup_insert_ne by done. rewrite lookup_insert_eq. eauto.
      * rewrite lookup_insert_eq. eauto.
Qed.

(** A run of agents 3 to 5 that returns: the evidence was collected, the
    risk assessment created, the escalation step applied to it, and the
    result assembled around the assessment that the step returned. *)
Lemma synthesize_inv (w : World) (tx : TransactionData) (m : MonitorResult)
    (d : option DeepfakeResult) (s s' : State) (r : OrchestratorResult) :
  Orchestrator.synthesize w tx m d s = (inr r, s') ->
  exists e ra ra' status score,
    EvidenceCollectorAgent.collect_evidence w tx s
    = (inr e, started_with EvidenceCollector s)
    /\ RiskAssessorAgent.assess_risk w m d e (started_with EvidenceCollector s)
       = (inr ra, started_with RiskAssessor (started_with EvidenceCollector s))
    /\ Orchestrator.escalation_step w tx ra e
         (started_with RiskAssessor (started_with EvidenceCollector s))
       = (inr ra', s')
    /\ r = FullAnalysis status score m d e ra'.
Proof.
  intros Hrun.
  destruct (collect_evidence_state w tx s) as (e & He).
  destruct (assess_risk_run w m d e (started_with EvidenceCollector s))
    as (ra & Hra & _).
  unfold Orchestrator.synthesize in Hrun. step in Hrun.
  rewrite He in Hrun. step in Hrun. rewrite Hra in Hrun. step in Hrun.
  destruct (Orchestrator.escalation_step w tx ra e
              (started_with RiskAssessor (started_with EvidenceCollector s)))
    as [[x|ra'] s1] eqn:Hesc; [discriminate|].
  unfold EscalationHandlerAgent.item in Hrun. step in Hrun.
  destruct (ra' !! "status") as [status|]; [|discriminate].
  step in Hrun.
  destruct (ra' !! "risk_score") as [score|]; [|discriminate].
  step in Hrun. injection Hrun as <- <-.
  exists e, ra, ra', status, score. auto.
Qed.

(** C9 (amended).  In every pipeline run that creates a risk assessment,
    the assessment in the final result differs from the one the Risk
    Synthesizer created only at the two keys [case_id] and [alerts_sent]:
    every other field (score, base score, adjustments, status, confidence,
    reasoning) is the same, no other key is added, and the two keys are set
    only when the Escalation Handler ran. *)
Theorem escalation_frame (w : World) (tx : TransactionData)
    (photo : option PhotoData) (code : option string) (s s' : State)
    (status score : PyVal) (m : MonitorResult) (d : option DeepfakeResult)
    (e : Evidence) (ra' : gmap string PyVal) :
  Orchestrator.orchestrate_transaction w tx photo code s
  = (inr (FullAnalysis status score m d e ra'), s') ->
  exists ra s1,
    RiskAssessorAgent.assess_risk w m d e s1
    = (inr ra, started_with RiskAssessor s1)
    /\ (forall k, k <> "case_id" -> k <> "alerts_sent" -> ra' !! k = ra !! k)
    /\ ra' !! "risk_score" = ra !! "risk_score"
    /\ ra' !! "adjustments" = ra !! "adjustments"
    /\ ra' !! "status" = ra !! "status"
    /\ ra' !! "confidence" = ra !! "confidence"
    /\ ra' !! "llm_reasoning" = ra !! "llm_reasoning"
    /\ dom ra' ⊆ dom ra ∪ {["case_id"; "alerts_sent"]}
    /\ (ra' = ra
        \/ In EscalationHandler (started s')
           /\ is_Some (ra' !! "case_id") /\ is_Some (ra' !! "alerts_sent")).
Proof.
  intros Hrun.
  assert (Hsyn : exists s0 m0 d0,
             Orchestrator.synthesize w tx m0 d0 s0
             = (inr (FullAnalysis status score m d e ra'), s')).
  { unfold Orchestrator.orchestrate_transaction in Hrun. step in Hrun.
    destruct (TransactionMonitorAgent.analyze_transaction w tx s)
      as [[x|m0] s0]; [discriminate|].
    destruct photo as [ph|], code as [c|]; eauto.
    destruct (Py.truthy_str c); eauto.
    step in Hrun.
    destruct (DeepfakeDetectorAgent.analyze_deepfake w tx (s3_path ph) c s0)
      as [[x|d0] s1]; [discriminate|].
    destruct (is_deepfake d0 || negb (verification_passed d0));
      [discriminate | eauto]. }
  destruct Hsyn as (s0 & m0 & d0 & Hsyn).
  destruct (synthesize_inv w tx m0 d0 s0 s' _ Hsyn)
    as (e1 & ra & ra1 & st & sc & _ & Hra & Hesc & Hres).
  injection Hres as -> -> -> -> -> ->.
  destruct (escalation_step_frame w tx ra ra1 e1 _ s' Hesc)
    as (Hframe & Hdom & Hcase).
  exists ra, (started_with EvidenceCollector s0).
  split; [exact Hra|]. split; [exact Hframe|].
  repeat (split; [apply Hframe; discriminate|]).
  split; [exact Hdom|].
  destruct Hcase as [[-> _] | (Hst & Hc & Ha)]; [left; reflexivity|].
  right. split; [|split; assumption].
  rewrite Hst. apply in_or_app. right. left. reflexivity.
Qed.

(** Scenario D: the run escalates; score, status and confidence of the
    final assessment are those the Risk Synthesizer computed. *)
Lemma escalation_frame_witness :
  exists m e (ra ra' : gmap string PyVal) s',
    Orchestrator.orchestrate_transaction
      (Demo.world_at 12 Demo.mock_detection)
      (Demo.transaction 9000 (Some "Tablet")) None None
      (Demo.loaded (6 # 10))
    = (inr (FullAnalysis (VStr "BLOCKED") (VInt 85) m None e ra'), s')
    /\ ra' !! "alerts_sent" = Some (VIds [Some "mock-message-id"])
    /\ ra' !! "risk_score" = Some (VInt 85)
    /\ ra !! "risk_score" = Some (VInt 85)
    /\ ra !! "confidence" = ra' !! "confidence".
Proof.
  assert (Hrun : exists m e ra' s',
             Orchestrator.orchestrate_transaction
               (Demo.world_at 12 Demo.mock_detection)
               (Demo.transaction 9000 (Some "Tablet")) None None
               (Demo.loaded (6 # 10))
             = (inr (FullAnalysis (VStr "BLOCKED") (VInt 85) m None e ra'), s')
             /\ ra' !! "alerts_sent" = Some (VIds [Some "mock-message-id"])
             /\ ra' !! "risk_score" = Some (VInt 85)).
  { vm_compute. eexists _, _, _, _. split; [reflexivity|].
    split; reflexivity. }
  destruct Hrun as (m & e & ra' & s' & Hrun & Halerts & Hscore).
  destruct (escalation_frame _ _ _ _ _ _ _ _ _ _ _ _ Hrun)
    as (ra & s1 & _ & _ & Hsc & _ & _ & Hconf & _).
  exists m, e, ra, ra', s'. rewrite <- Hsc, <- Hconf.
  repeat split; assumption.
Defined.

(* ===================================================================== *)
(** ** The Biometric Verifier Adapter *)
(* ===================================================================== *)

Lemma qplus_0_l (a : Q) : (0 + a)%Q = a.
Proof.
  destruct a as [n d]. unfold Qplus. simpl. f_equal. lia.
Qed.

(** Rounding to the nearest integer moves a number by at most one half. *)
Lemma round_half_even_close (x : Q) :
  (Qabs (inject_Z (Py.round_half_even x) - x) <= 1 # 2)%Q.
Proof.
  pose proof (Qfloor_le x) as Hlo.
  pose proof (Qlt_floor x) as Hhi.
  rewrite inject_Z_plus in Hhi. change (inject_Z 1) with 1%Q in Hhi.
  apply Qabs_Qle_condition. unfold Py.round_half_even.
  destruct (Py.lt (x - inject_Z (Qfloor x)) (1 # 2)) eqn:E1.
  - apply py_lt_true in E1. split; lra.
  - destruct (Py.lt (1 # 2) (x - inject_Z (Qfloor x))) eqn:E2.
    + apply py_lt_true in E2. rewrite inject_Z_plus.
      change (inject_Z 1) with 1%Q. split; lra.
    + assert (H1 : ~ (x - inject_Z (Qfloor x) < 1 # 2)%Q)
        by (intros H; apply py_lt_true in H; congruence).
      assert (H2 : ~ (1 # 2 < x - inject_Z (Qfloor x))%Q)
        by (intros H; apply py_lt_true in H; congruence).
      apply Qnot_lt_le in H1. apply Qnot_lt_le in H2.
      destruct (Z.even (Qfloor x));
        [|rewrite inject_Z_plus; change (inject_Z 1) with 1%Q]; split; lra.
Qed.

(** Rounding to two decimals gives a multiple of 1/100 at most 1/200 away. *)
Lemma round2_close (x : Q) :
  (Qabs (Py.round2 x - x) <= 1 # 200)%Q.
Proof.
  pose proof (round_half_even_close (x * 100)) as H.
  apply Qabs_Qle_condition in H. apply Qabs_Qle_condition.
  unfold Py.round2.
  set (k := inject_Z (Py.round_half_even (x * 100))) in *.
  unfold Qdiv. change (/ 100)%Q with (1 # 100)%Q.
  split; lra.
Qed.

(** The parsed value of the overall confidence: the mean of the three
    sub-check confidences, rounded to two decimals. *)
Lemma overall_confidence_value (r : DeepfakeTools.ApiResponse) :
  DeepfakeTools.overall_confidence (DeepfakeTools.parse_deepfake_result r)
  = Py.round2 (VerifierRules.mean_confidence r).
Proof.
  unfold DeepfakeTools.parse_deepfake_result, VerifierRules.mean_confidence,
    VerifierRules.face_confidence, VerifierRules.quality_confidence,
    VerifierRules.liveness_confidence, DeepfakeTools.qsum.
  simpl. rewrite qplus_0_l.
  destruct (DeepfakeTools.face_comparison r),
    (DeepfakeTools.quality_check r), (DeepfakeTools.liveness_check r);
    reflexivity.
Qed.

(** *** The parser on the raw response *)

Lemma bind_inr {A B : Type} (m : Py.Exn + A) (k : A -> Py.Exn + B) (b : B) :
  DeepfakeToolsRaw.bind m k = inr b -> exists a, m = inr a /\ k a = inr b.
Proof.
  destruct m as [e | a]; simpl; [discriminate |]. intros H. exists a. auto.
Qed.

Lemma get_inr (d : Json) (key : string) (fallback v : Json) :
  DeepfakeToolsRaw.get d key fallback = inr v ->
  exists fields, d = JObj fields /\ v = default fallback (fields !! key).
Proof.
  destruct d; simpl; try discriminate. intros [= <-]. eexists. split; reflexivity.
Qed.

Lemma get_object (fields : gmap string Json) (key : string) (fallback : Json) :
  DeepfakeToolsRaw.get (JObj fields) key fallback
  = inr (default fallback (fields !! key)).
Proof. reflexivity. Qed.

(** The parser returns exactly on the responses of which it can read all
    the parts. *)
Lemma parse_inv (ops : PyFloat.Ops) (r : Json) (a : DeepfakeToolsRaw.Analysis) :
  DeepfakeToolsRaw.parse_deepfake_result ops r = inr a ->
  exists p, RawVerifierRules.has_parts r p.
Proof.
  unfold DeepfakeToolsRaw.parse_deepfake_result. intros H.
  apply bind_inr in H. destruct H as (vr & Hvr & H).
  apply get_inr in Hvr. destruct Hvr as (f & -> & ->).
  rewrite !get_object in H. cbn [DeepfakeToolsRaw.bind] in H.
  apply bind_inr in H. destruct H as (ia & _ & H).
  apply bind_inr in H. destruct H as (c1 & Hc1 & H).
  apply get_inr in Hc1. destruct Hc1 as (gf & Hgf & ->).
  apply bind_inr in H. destruct H as (c2 & Hc2 & H).
  apply get_inr in Hc2. destruct Hc2 as (gq & Hgq & ->).
  apply bind_inr in H. destruct H as (c3 & Hc3 & H).
  apply get_inr in Hc3. destruct Hc3 as (gl & Hgl & ->).
  rewrite Hgf, Hgq, Hgl in H.
  apply bind_inr in H. destruct H as (n1 & Hn1 & H).
  apply bind_inr in H. destruct H as (n2 & Hn2 & H).
  apply bind_inr in H. destruct H as (n3 & Hn3 & H).
  cbv zeta in H. rewrite !get_object in H. cbn [DeepfakeToolsRaw.bind] in H.
  apply bind_inr in H. destruct H as (rf1 & _ & H).
  apply bind_inr in H. destruct H as (score & Hscore & H).
  apply bind_inr in H. destruct H as (rf2 & _ & H).
  apply bind_inr in H. destruct H as (checks & Hchecks & H).
  apply get_inr in Hchecks. destruct Hchecks as (gc & Hgc & ->).
  rewrite Hgc in H. rewrite !get_object in H. cbn [DeepfakeToolsRaw.bind] in H.
  apply bind_inr in H. destruct H as (top & Htop & H).
  apply bind_inr in H. destruct H as (metrics & Hmetrics & H).
  apply get_inr in Hmetrics. destruct Hmetrics as (gm & Hgm & _).
  rewrite Hgm in H. rewrite !get_object in H. cbn [DeepfakeToolsRaw.bind] in H.
  apply bind_inr in H. destruct H as (ty & Hty & H).
  apply get_inr in Hty. destruct Hty as (ge & -> & _).
  exists (RawVerifierRules.Build_Parts f gf gq gl n1 n2 n3 score gc gm ge).
  unfold RawVerifierRules.has_parts. cbn.
  repeat split; assumption.
Qed.

Lemma parse_run (ops : PyFloat.Ops) (r : Json) (p : RawVerifierRules.Parts) :
  RawVerifierRules.has_parts r p ->
  exists a,
    DeepfakeToolsRaw.parse_deepfake_result ops r = inr a
    /\ NovaRiskAssessor.truthy (DeepfakeToolsRaw.is_authentic a)
       = DeepfakeToolsRaw.equals_str
           (default (JStr "UNKNOWN")
              (RawVerifierRules.fields p !! "verification_result")) "VERIFIED"
         && NovaRiskAssessor.truthy
              (default (JBool false) (RawVerifierRules.face p !! "match"))
         && NovaRiskAssessor.truthy
              (default (JBool false) (RawVerifierRules.quality p !! "is_real"))
         && NovaRiskAssessor.truthy
              (default (JBool false) (RawVerifierRules.liveness p !! "is_live"))
    /\ DeepfakeToolsRaw.overall_confidence a
       = PyFloat.round ops
           (PyFloat.div ops
              (PyFloat.add ops
                 (PyFloat.add ops
                    (PyFloat.add ops 0 (RawVerifierRules.face_number p))
                    (RawVerifierRules.quality_number p))
                 (RawVerifierRules.liveness_number p)) 3) 2.
Proof.
  destruct p as [f gf gq gl n1 n2 n3 score gc gm ge].
  unfold RawVerifierRules.has_parts. cbn.
  intros (-> & Hgf & Hgq & Hgl & Hn1 & Hn2 & Hn3 & Hscore & Hgc & Hgm & Hge).
  unfold DeepfakeToolsRaw.parse_deepfake_result.
  rewrite !get_object. cbn [DeepfakeToolsRaw.bind].
  rewrite Hgf, Hgq, Hgl. rewrite !get_object. cbn [DeepfakeToolsRaw.bind].
  rewrite Hn1, Hn2, Hn3, Hscore. cbn [DeepfakeToolsRaw.bind].
  rewrite Hgc, Hgm, Hge. rewrite !get_object. cbn [DeepfakeToolsRaw.bind].
  unfold DeepfakeToolsRaw.and_also.
  destruct (DeepfakeToolsRaw.equals_str _ "VERIFIED");
    destruct (NovaRiskAssessor.truthy (default (JBool false) (gf !! "match")))
      eqn:Hm;
    destruct (NovaRiskAssessor.truthy (default (JBool false) (gq !! "is_real")))
      eqn:Hr;
    destruct (NovaRiskAssessor.truthy (default (JBool false) (gl !! "is_live")))
      eqn:Hl;
    cbn [DeepfakeToolsRaw.bind];
    destruct (negb (NovaRiskAssessor.truthy (default JNull (gf !! "match"))));
    cbn [DeepfakeToolsRaw.bind];
    destruct (Py.lt score 70); cbn [DeepfakeToolsRaw.bind];
    eexists; (split; [reflexivity |]); cbn [DeepfakeToolsRaw.is_authentic
      DeepfakeToolsRaw.overall_confidence andb];
    (split; [| reflexivity]); try assumption; reflexivity.
Qed.

(** Under a key that holds an object or is absent, the rules read what the
    parser reads. *)
Lemma sub_object (f g : gmap string Json) (k : string) :
  default (JObj ∅) (f !! k) = JObj g ->
  (forall key, RawVerifierRules.entry (RawVerifierRules.entry (JObj f) k) key
               = RawVerifierRules.entry (JObj g) key)
  /\ (forall key,
        RawVerifierRules.absent (RawVerifierRules.entry (JObj f) k) key
        = RawVerifierRules.absent (JObj g) key).
Proof.
  intros H. cbn [RawVerifierRules.entry].
  destruct (f !! k) as [v |]; cbn in H.
  - subst v. split; reflexivity.
  - injection H as <-. split; intros key; cbn.
    + rewrite lookup_empty. reflexivity.
    + rewrite lookup_empty. reflexivity.
Qed.





Lemma status_verified_iff (f : gmap string Json) :
  DeepfakeToolsRaw.equals_str
    (default (JStr "UNKNOWN") (f !! "verification_result")) "VERIFIED" = true
  <-> RawVerifierRules.status_verified (JObj f).
Proof.
  unfold RawVerifierRules.status_verified. cbn.
  destruct (f !! "verification_result") as [v |]; cbn.
  - destruct v; cbn; split; try discriminate.
    + intros H. apply String.eqb_eq in H. congruence.
    + intros [= ->]. reflexivity.
  - split; discriminate.
Qed.

Lemma flag_truthy (g : gmap string Json) (key : string) :
  NovaRiskAssessor.truthy (default (JBool false) (g !! key))
  = NovaRiskAssessor.truthy (RawVerifierRules.entry (JObj g) key).
Proof. cbn. destruct (g !! key); reflexivity. Qed.

Lemma confidence_number (f g : gmap string Json) (check : string) (n : Q) :
  default (JObj ∅) (f !! check) = JObj g ->
  DeepfakeToolsRaw.number (default (JNum 0) (g !! "confidence")) = inr n ->
  RawVerifierRules.confidence_of (JObj f) check = n.
Proof.
  intros Hg Hn. unfold RawVerifierRules.confidence_of.
  destruct (sub_object _ _ _ Hg) as (E & _). rewrite E. cbn.
  destruct (g !! "confidence") as [v |]; cbn in Hn |- *.
  - destruct v as [| [] | | | |]; cbn in Hn; congruence.
  - congruence.
Qed.

(** What the parser returns on a response that it accepts. *)
Lemma parse_returns (ops : PyFloat.Ops) (r : Json)
    (a : DeepfakeToolsRaw.Analysis) :
  DeepfakeToolsRaw.parse_deepfake_result ops r = inr a ->
  (NovaRiskAssessor.truthy (DeepfakeToolsRaw.is_authentic a) = true
   <-> RawVerifierRules.status_verified r
       /\ RawVerifierRules.face_match_passed r
       /\ RawVerifierRules.is_real_passed r
       /\ RawVerifierRules.liveness_passed r)
  /\ DeepfakeToolsRaw.overall_confidence a
     = PyFloat.round ops
         (PyFloat.div ops
            (PyFloat.add ops
               (PyFloat.add ops
                  (PyFloat.add ops 0
                     (RawVerifierRules.confidence_of r "face_comparison"))
                  (RawVerifierRules.confidence_of r "quality_check"))
               (RawVerifierRules.confidence_of r "liveness_check")) 3) 2.
Proof.
  intros Hrun. destruct (parse_inv _ _ _ Hrun) as (p & Hp).
  destruct (parse_run ops r p Hp) as (a' & Hrun' & Hauth & Hconf).
  rewrite Hrun in Hrun'. injection Hrun' as <-.
  destruct p as [f gf gq gl n1 n2 n3 score gc gm ge].
  unfold RawVerifierRules.has_parts in Hp. cbn in Hp, Hauth, Hconf.
  destruct Hp as (-> & Hgf & Hgq & Hgl & Hn1 & Hn2 & Hn3 & _).
  split.
  - rewrite Hauth, !andb_true_iff, status_verified_iff, !flag_truthy.
    unfold RawVerifierRules.face_match_passed, RawVerifierRules.is_real_passed,
      RawVerifierRules.liveness_passed.
    destruct (sub_object _ _ _ Hgf) as (Ef & _).
    destruct (sub_object _ _ _ Hgq) as (Eq & _).
    destruct (sub_object _ _ _ Hgl) as (El & _).
    rewrite Ef, Eq, El. tauto.
  - rewrite Hconf.
    rewrite (confidence_number _ _ _ _ Hgf Hn1),
      (confidence_number _ _ _ _ Hgq Hn2), (confidence_number _ _ _ _ Hgl Hn3).
    reflexivity.
Qed.

(** In arithmetic without rounding error the overall confidence is the
    arithmetic mean of the three confidences rounded to the nearest
    multiple of 1/100, ties going to the even one. *)
Lemma exact_overall_confidence (r : Json) (a : DeepfakeToolsRaw.Analysis) :
  DeepfakeToolsRaw.parse_deepfake_result PyFloat.exact r = inr a ->
  DeepfakeToolsRaw.overall_confidence a
  = Py.round2
      ((0 + RawVerifierRules.confidence_of r "face_comparison"
        + RawVerifierRules.confidence_of r "quality_check"
        + RawVerifierRules.confidence_of r "liveness_check") / 3)%Q.
Proof.
  intros Ha. destruct (parse_returns PyFloat.exact r a Ha) as (_ & ->).
  reflexivity.
Qed.



(* ===================================================================== *)
(** ** The Nova-based Risk Synthesizer *)
(* ===================================================================== *)

(** [assess_risk] returns an assessment on every input. *)
Lemma nova_assess_risk_total (c : NovaRiskAssessor.Collaborators)
    (tx fr er dr : Json) :
  exists a, NovaRiskAssessor.assess_risk c tx fr er dr = inr a.
Proof.
  unfold NovaRiskAssessor.assess_risk.
  destruct (NovaRiskAssessor.assess_risk_body c tx fr er dr); eauto.
Qed.

(** C7.  When the response of the text-generation service is not JSON,
    the Risk Synthesizer does not raise: it returns an assessment with
    verdict REVIEW, a placeholder confidence and the recommendation of a
    manual review.  With a biometric result that is absent or an object this
    is the fixed fallback (confidence 50, generic summary, the first 500
    characters of the response as reasoning) plus the metadata. *)
Theorem unparseable_response_falls_back (c : NovaRiskAssessor.Collaborators)
    (tx fr er dr : Json) (prompt response : string) :
  NovaRiskAssessor.build_risk_assessment_prompt c tx fr er dr = inr prompt ->
  NovaRiskAssessor.call_nova c prompt 1500 (3 # 10)%Q = inr response ->
  NovaRiskAssessor.json_loads c response = inl Py.JSONDecodeError ->
  exists a,
    NovaRiskAssessor.assess_risk c tx fr er dr = inr a
    /\ a !! "final_verdict" = Some (JStr "REVIEW")
    /\ (a !! "confidence_score" = Some (JNum 50)
        \/ a !! "confidence_score" = Some (JNum 0))
    /\ a !! "recommended_action" = Some (JStr "Manual review required")
    /\ a !! "agent" = Some (JStr "risk_assessor")
    /\ (dr = JNull \/ (exists fields, dr = JObj fields) ->
        a !! "confidence_score" = Some (JNum 50)
        /\ a !! "risk_level" = Some (JStr "MEDIUM")
        /\ a !! "risk_summary"
           = Some (JStr "Unable to parse comprehensive assessment")
        /\ a !! "decision_reasoning"
           = Some (JStr (Py.take_str 500 response))
        /\ a !! "error" = None).
Proof.
  intros Hprompt Hnova Hjson.
  unfold NovaRiskAssessor.assess_risk, NovaRiskAssessor.assess_risk_body.
  rewrite Hprompt, Hnova, Hjson.
  destruct (NovaRiskAssessor.biometric_verified dr) as [e|verified] eqn:Hb.
  - eexists. split; [reflexivity|].
    split; [reflexivity|]. split; [right; reflexivity|].
    split; [reflexivity|]. split; [reflexivity|].
    intros [-> | [fields ->]]; simpl in Hb; discriminate.
  - eexists. split; [reflexivity|].
    split; [reflexivity|]. split; [left; reflexivity|].
    split; [reflexivity|]. split; [reflexivity|].
    intros _. repeat split; reflexivity.
Qed.

(** The service answers plain text; no biometric check was made. *)
Lemma unparseable_response_falls_back_witness :
  exists a,
    NovaRiskAssessor.assess_risk
      (Demo.nova "I think this transaction looks fine.")
      (JObj ∅) (JObj ∅) (JObj ∅) JNull
    = inr a
    /\ a !! "final_verdict" = Some (JStr "REVIEW")
    /\ a !! "confidence_score" = Some (JNum 50)
    /\ a !! "decision_reasoning"
       = Some (JStr "I think this transaction looks fine.").
Proof.
  destruct (unparseable_response_falls_back
              (Demo.nova "I think this transaction looks fine.")
              (JObj ∅) (JObj ∅) (JObj ∅) JNull
              "You are a senior fraud risk analyst."
              "I think this transaction looks fine."
              eq_refl eq_refl eq_refl)
    as (a & Hrun & Hverdict & _ & _ & _ & Hfixed).
  destruct (Hfixed (or_introl eq_refl)) as (Hconf & _ & _ & Hreason & _).
  exists a. repeat split; assumption.
Defined.

(* ===================================================================== *)
(** ** The Fraud Classifier Adapter *)
(* ===================================================================== *)

(** Two runs of [predict_fraud_probability].  Before the model is loaded
    the call raises.  With the model loaded and an encoder whose [transform]
    raises, the encoding error is absorbed inside feature preparation and the
    classifier's answer 0.9 is returned, not the fallback 0.5. *)
Lemma classifier_errors_not_all_fall_back :
  fst (FraudModel.predict_fraud_probability
         (Demo.world_at 12 Demo.mock_detection)
         (Demo.transaction 2500 (Some "Desktop"))
         (Demo.state_with None (Some ∅)))
  = inl (Py.RuntimeError "Model not loaded. Call load_fraud_model() first.")
  /\ FraudModel.encode_value Demo.failing_encoder (FStr "Online")
     = inl (Py.ValueError "unseen label")
  /\ fst (FraudModel.predict_fraud_probability
            (Demo.world_at 12 Demo.mock_detection)
            (Demo.transaction 2500 (Some "Desktop"))
            Demo.failing_encoder_state)
     = inr (9 # 10)%Q
  /\ ~ (9 # 10 == 1 # 2)%Q.
Proof.
  split; [reflexivity|]. split; [reflexivity|].
  split; [vm_compute; reflexivity|]. discriminate.
Qed.

(** C10 (amended).  Once the model is loaded, [predict_fraud_probability]
    returns a probability for every transaction and leaves the state as it
    was.  When feature preparation raises, when the selection of the feature
    columns raises, or when model inference raises, the probability is the
    fallback 0.5; otherwise it is the classifier's answer.  The fallback maps
    to base risk score 50, which the status thresholds place in the REVIEW
    band. *)
Theorem classifier_failure_falls_back (w : World) (tx : TransactionData)
    (s : State) (model : Classifier) :
  MODEL s = Some model ->
  exists p,
    FraudModel.predict_fraud_probability w tx s = (inr p, s)
    /\ (forall e, fst (FraudModel.prepare_features w tx s) = inl e ->
        p = (1 # 2)%Q)
    /\ (forall features,
          fst (FraudModel.prepare_features w tx s) = inr features ->
          match FEATURE_COLUMNS s with
          | None => p = (1 # 2)%Q
          | Some columns =>
              match FraudModel.select_columns features columns with
              | inl _ => p = (1 # 2)%Q
              | inr row =>
                  match predict_proba model row with
                  | inl _ => p = (1 # 2)%Q
                  | inr q => p = q
                  end
              end
          end)
    /\ Py.int ((1 # 2) * 100)%Q = 50
    /\ RiskAssessorAgent.determine_status 50 = ("REVIEW", "medium").
Proof.
  intros Hmodel.
  unfold FraudModel.predict_fraud_probability. step. rewrite Hmodel.
  pose proof (prepare_features_state w tx s) as Hstate.
  destruct (FraudModel.prepare_features w tx s) as [[e|features] s1].
  - simpl in Hstate. subst s1. exists (1 # 2)%Q.
    split; [reflexivity|]. split; [reflexivity|].
    split; [intros f Hf; discriminate|]. split; reflexivity.
  - simpl in Hstate. subst s1.
    destruct (FEATURE_COLUMNS s) as [columns|].
    + destruct (FraudModel.select_columns features columns) as [e|row] eqn:Hsel.
      * exists (1 # 2)%Q. split; [reflexivity|].
        split; [intros e' He'; discriminate|].
        split; [|split; reflexivity].
        intros f Hf. simpl in Hf. injection Hf as <-. rewrite Hsel.
        reflexivity.
      * destruct (predict_proba model row) as [e|q] eqn:Hpred.
        -- exists (1 # 2)%Q. split; [reflexivity|].
           split; [intros e' He'; discriminate|].
           split; [|split; reflexivity].
           intros f Hf. simpl in Hf. injection Hf as <-.
           rewrite Hsel, Hpred. reflexivity.
        -- exists q. split; [reflexivity|].
           split; [intros e' He'; discriminate|].
           split; [|split; reflexivity].
           intros f Hf. simpl in Hf. injection Hf as <-.
           rewrite Hsel, Hpred. reflexivity.
    + exists (1 # 2)%Q. split; [reflexivity|].
      split; [intros e' He'; discriminate|].
      split; [|split; reflexivity].
      intros f Hf. reflexivity.
Qed.

(** The model is loaded and its inference fails: the adapter answers 0.5
    and the Transaction Monitor reports risk score 50. *)
Lemma classifier_failure_falls_back_witness :
  FraudModel.predict_fraud_probability
    (Demo.world_at 12 Demo.mock_detection)
    (Demo.transaction 2500 (Some "Desktop"))
    (Demo.state_with (Some Demo.failing_classifier) (Some ∅))
  = (inr (1 # 2)%Q, Demo.state_with (Some Demo.failing_classifier) (Some ∅))
  /\ match fst (TransactionMonitorAgent.analyze_transaction
                  (Demo.world_at 12 Demo.mock_detection)
                  (Demo.transaction 2500 (Some "Desktop"))
                  (Demo.state_with (Some Demo.failing_classifier) (Some ∅)))
     with
     | inr m => risk_score m = 50
     | inl _ => False
     end.
Proof.
  destruct (classifier_failure_falls_back
              (Demo.world_at 12 Demo.mock_detection)
              (Demo.transaction 2500 (Some "Desktop"))
              (Demo.state_with (Some Demo.failing_classifier) (Some ∅))
              Demo.failing_classifier eq_refl)
    as (p & Hrun & _).
  assert (E : fst (FraudModel.predict_fraud_probability
                     (Demo.world_at 12 Demo.mock_detection)
                     (Demo.transaction 2500 (Some "Desktop"))
                     (Demo.state_with (Some Demo.failing_classifier)
                        (Some ∅)))
              = inr (1 # 2)%Q)
    by (vm_compute; reflexivity).
  rewrite Hrun in E. simpl in E. injection E as ->.
  split; [exact Hrun|]. vm_compute. reflexivity.
Defined.

(* ===================================================================== *)
(** ** Further properties of the [backend/app] pipeline *)
(* ===================================================================== *)

(** With the model loaded the classifier adapter returns a probability and
    leaves the state as it was. *)
Lemma predict_returns (w : World) (tx : TransactionData) (s : State)
    (model : Classifier) :
  MODEL s = Some model ->
  exists p, FraudModel.predict_fraud_probability w tx s = (inr p, s).
Proof.
  intros Hmodel.
  pose proof (predict_fraud_probability_state w tx s) as Hstate.
  destruct (FraudModel.predict_fraud_probability w tx s) as [[e|p] s1] eqn:E.
  - exfalso. revert E.
    unfold FraudModel.predict_fraud_probability. step. rewrite Hmodel.
    destruct (FraudModel.prepare_features w tx s) as [[x|features] s2];
      [discriminate|].
    destruct (FEATURE_COLUMNS s2) as [columns|]; [|discriminate].
    destruct (FraudModel.select_columns features columns); [discriminate|].
    destruct (predict_proba model l); discriminate.
  - simpl in Hstate. subst s1. eauto.
Qed.

(** With the model loaded the Transaction Monitor returns; its risk score
    is the truncated percentage of the adapter's probability. *)
Lemma analyze_transaction_run (w : World) (tx : TransactionData) (s : State)
    (model : Classifier) :
  MODEL s = Some model ->
  exists m p,
    TransactionMonitorAgent.analyze_transaction w tx s
    = (inr m, started_with TransactionMonitor s)
    /\ FraudModel.predict_fraud_probability w tx
         (started_with TransactionMonitor s)
       = (inr p, started_with TransactionMonitor s)
    /\ fraud_probability m = p
    /\ risk_score m = Py.int (p * 100)%Q.
Proof.
  intros Hmodel.
  destruct (predict_returns w tx (started_with TransactionMonitor s) model
              Hmodel) as (p & Hp).
  unfold TransactionMonitorAgent.analyze_transaction. step.
  rewrite Hp. eexists _, p. split; [reflexivity|]. auto.
Qed.

(** Agents 3 to 5 always return.  The result carries the composite score
    and the status that the thresholds give it. *)
Lemma synthesize_run (w : World) (tx : TransactionData) (m : MonitorResult)
    (d : option DeepfakeResult) (s : State) :
  exists e ra ra' s',
    Orchestrator.synthesize w tx m d s
    = (inr (FullAnalysis
              (VStr (fst (RiskAssessorAgent.determine_status
                            (RiskAssessorAgent.composite_risk_score
                               (risk_score m)
                               (RiskAssessorAgent.risk_adjustments d
                                  (default [] (detected_patterns e)))))))
              (VInt (RiskAssessorAgent.composite_risk_score (risk_score m)
                       (RiskAssessorAgent.risk_adjustments d
                          (default [] (detected_patterns e)))))
              m d e ra'), s')
    /\ EvidenceCollectorAgent.collect_evidence w tx s
       = (inr e, started_with EvidenceCollector s)
    /\ RiskAssessorAgent.assess_risk w m d e (started_with EvidenceCollector s)
       = (inr ra, started_with RiskAssessor (started_with EvidenceCollector s))
    /\ Orchestrator.escalation_step w tx ra e
         (started_with RiskAssessor (started_with EvidenceCollector s))
       = (inr ra', s').
Proof.
  destruct (collect_evidence_state w tx s) as (e & He).
  destruct (assess_risk_run w m d e (started_with EvidenceCollector s))
    as (ra & Hra & Hscore & _ & _ & Hstatus & _).
  set (c := RiskAssessorAgent.composite_risk_score (risk_score m)
              (RiskAssessorAgent.risk_adjustments d
                 (default [] (detected_patterns e)))) in *.
  assert (Hesc : exists ra' s',
             Orchestrator.escalation_step w tx ra e
               (started_with RiskAssessor (started_with EvidenceCollector s))
             = (inr ra', s')
             /\ ra' !! "status" = ra !! "status"
             /\ ra' !! "risk_score" = ra !! "risk_score").
  { destruct (Z.lt_ge_cases c 70) as [Hlow | Hhigh].
    - eexists _, _. split; [eapply escalation_step_low; eauto|]. auto.
    - destruct (escalation_step_high w tx ra e
                  (started_with RiskAssessor
                     (started_with EvidenceCollector s)) c _ Hscore Hhigh
                  Hstatus) as (fc & Hesc & _).
      eexists _, _. split; [exact Hesc|].
      split; rewrite !lookup_insert_ne by done; reflexivity. }
  destruct Hesc as (ra' & s' & Hesc & Hst' & Hsc').
  exists e, ra, ra', s'. split; [|auto].
  unfold Orchestrator.synthesize. step. rewrite He. step. rewrite Hra. step.
  rewrite Hesc. unfold EscalationHandlerAgent.item. step.
  rewrite Hst', Hstatus. step. rewrite Hsc', Hscore. reflexivity.
Qed.

(** The bands of the status thresholds. *)
Lemma determine_status_bands (c : Z) :
  In (fst (RiskAssessorAgent.determine_status c))
    ["APPROVED"; "REVIEW"; "BLOCKED"]
  /\ (fst (RiskAssessorAgent.determine_status c) = "BLOCKED" <-> 85 <= c)
  /\ (fst (RiskAssessorAgent.determine_status c) = "REVIEW" <-> 50 <= c < 85)
  /\ (fst (RiskAssessorAgent.determine_status c) = "APPROVED" <-> c < 50).
Proof.
  unfold RiskAssessorAgent.determine_status.
  destruct (85 <=? c) eqn:E1; [apply Z.leb_le in E1 | apply Z.leb_gt in E1].
  - simpl. repeat split; intros; try lia; try discriminate; auto.
  - destruct (70 <=? c) eqn:E2; [apply Z.leb_le in E2 | apply Z.leb_gt in E2].
    + simpl. repeat split; intros; try lia; try discriminate; auto.
    + destruct (50 <=? c) eqn:E3;
        [apply Z.leb_le in E3 | apply Z.leb_gt in E3];
        simpl; repeat split; intros; try lia; try discriminate; auto.
Qed.

(** The Deepfake Detector's verdict: the verification passes exactly when
    no deepfake is reported, the face match reaches 0.80 and the code was
    validated. *)
Lemma analyze_deepfake_verdict (w : World) (tx : TransactionData)
    (path code : string) (s s' : State) (d : DeepfakeResult) :
  DeepfakeDetectorAgent.analyze_deepfake w tx path code s = (inr d, s') ->
  s' = started_with DeepfakeDetector s
  /\ verification_passed d
     = negb (is_deepfake d) && Py.ge (face_match_score d) (80 # 100)%Q
       && code_validated d.
Proof.
  unfold DeepfakeDetectorAgent.analyze_deepfake. step.
  intros H. injection H as <- <-. split; reflexivity.
Qed.

(** X1.  Once the model is loaded, [orchestrate_transaction] returns a result
    for every transaction, photo and code: none of its item look-ups or
    comparisons can raise.  The result holds a status among APPROVED, REVIEW
    and BLOCKED and an integer score of at most 100, and the status agrees
    with the score: BLOCKED exactly from 85, REVIEW from 50 to 84, APPROVED
    below 50. *)
Theorem pipeline_returns (w : World) (tx : TransactionData)
    (photo : option PhotoData) (code : option string) (s : State)
    (model : Classifier) :
  MODEL s = Some model ->
  exists r s' status score,
    Orchestrator.orchestrate_transaction w tx photo code s = (inr r, s')
    /\ result_status r = VStr status
    /\ result_risk_score r = VInt score
    /\ In status ["APPROVED"; "REVIEW"; "BLOCKED"]
    /\ (status = "BLOCKED" <-> 85 <= score)
    /\ (status = "REVIEW" <-> 50 <= score < 85)
    /\ (status = "APPROVED" <-> score < 50)
    /\ score <= 100.
Proof.
  intros Hmodel.
  destruct (analyze_transaction_run w tx s model Hmodel)
    as (m & p & Hm & _).
  assert (Hsyn : forall d s0,
             exists r s' status score,
               Orchestrator.synthesize w tx m d s0 = (inr r, s')
               /\ result_status r = VStr status
               /\ result_risk_score r = VInt score
               /\ In status ["APPROVED"; "REVIEW"; "BLOCKED"]
               /\ (status = "BLOCKED" <-> 85 <= score)
               /\ (status = "REVIEW" <-> 50 <= score < 85)
               /\ (status = "APPROVED" <-> score < 50)
               /\ score <= 100).
  { intros d s0.
    destruct (synthesize_run w tx m d s0) as (e & ra & ra' & s' & Hrun & _).
    eexists _, s', _, _. split; [exact Hrun|].
    split; [reflexivity|]. split; [reflexivity|].
    set (c := RiskAssessorAgent.composite_risk_score _ _).
    destruct (determine_status_bands c) as (H1 & H2 & H3 & H4).
    repeat (split; [assumption|]).
    subst c. rewrite composite_risk_score_min. lia. }
  unfold Orchestrator.orchestrate_transaction. step. rewrite Hm. step.
  destruct photo as [ph|], code as [c|]; try apply Hsyn.
  destruct (Py.truthy_str c); [|apply Hsyn].
  destruct (analyze_deepfake_state w tx (s3_path ph) c
              (started_with TransactionMonitor s)) as (d & Hd).
  rewrite Hd. step.
  destruct (is_deepfake d || negb (verification_passed d)); [|apply Hsyn].
  eexists _, _, "BLOCKED", 100. split; [reflexivity|].
  split; [reflexivity|]. split; [reflexivity|].
  split; [simpl; auto|].
  repeat split; intros; try lia; try discriminate.
Qed.

Lemma pipeline_returns_witness :
  exists r s',
    Orchestrator.orchestrate_transaction
      (Demo.world_at 12 Demo.mock_detection)
      (Demo.transaction 200 (Some "Desktop")) None None
      (Demo.loaded (1 # 10))
    = (inr r, s')
    /\ result_status r = VStr "APPROVED"
    /\ result_risk_score r = VInt 10.
Proof.
  destruct (pipeline_returns (Demo.world_at 12 Demo.mock_detection)
              (Demo.transaction 200 (Some "Desktop")) None None
              (Demo.loaded (1 # 10)) (Demo.constant_classifier (1 # 10))
              eq_refl)
    as (r & s' & status & score & Hrun & Hst & Hsc & _ & _ & _ & Happ & _).
  assert (E : match fst (Orchestrator.orchestrate_transaction
                           (Demo.world_at 12 Demo.mock_detection)
                           (Demo.transaction 200 (Some "Desktop")) None None
                           (Demo.loaded (1 # 10)))
              with
              | inr r0 => result_risk_score r0
              | inl _ => VNone
              end = VInt 10) by (vm_compute; reflexivity).
  rewrite Hrun in E. simpl in E. rewrite Hsc in E. injection E as ->.
  exists r, s'. split; [exact Hrun|]. split; [|exact Hsc].
  rewrite Hst. f_equal. apply Happ. lia.
Defined.

(** X2.  Before the model is loaded, [orchestrate_transaction] raises the
    [RuntimeError] of the classifier adapter for every transaction, photo and
    code: the Transaction Monitor is the only agent that started, and no
    fraud case was stored. *)
Theorem pipeline_without_model (w : World) (tx : TransactionData)
    (photo : option PhotoData) (code : option string) (s : State) :
  MODEL s = None ->
  Orchestrator.orchestrate_transaction w tx photo code s
  = (inl (Py.RuntimeError "Model not loaded. Call load_fraud_model() first."),
     started_with TransactionMonitor s).
Proof.
  intros Hmodel.
  unfold Orchestrator.orchestrate_transaction,
    TransactionMonitorAgent.analyze_transaction,
    FraudModel.predict_fraud_probability.
  step. cbn [MODEL started_with]. rewrite Hmodel. reflexivity.
Qed.

Lemma pipeline_without_model_witness :
  Orchestrator.orchestrate_transaction
    (Demo.world_at 12 Demo.mock_detection)
    (Demo.transaction 200 (Some "Desktop")) (Some Demo.photo) (Some "482913")
    (Demo.state_with None (Some ∅))
  = (inl (Py.RuntimeError "Model not loaded. Call load_fraud_model() first."),
     started_with TransactionMonitor (Demo.state_with None (Some ∅))).
Proof.
  apply (pipeline_without_model (Demo.world_at 12 Demo.mock_detection)
           (Demo.transaction 200 (Some "Desktop")) (Some Demo.photo)
           (Some "482913") (Demo.state_with None (Some ∅)) eq_refl).
Defined.

(** The ways a run of the orchestrator can go once the Transaction Monitor
    has returned: without a biometric check, straight to agents 3 to 5; with
    one, either the immediate block or agents 3 to 5 with its result. *)
Lemma orchestrate_cases (w : World) (tx : TransactionData)
    (photo : option PhotoData) (code : option string) (s s1 : State)
    (m : MonitorResult) :
  TransactionMonitorAgent.analyze_transaction w tx s = (inr m, s1) ->
  ((photo = None \/ code = None
    \/ exists c, code = Some c /\ Py.truthy_str c = false)
   /\ Orchestrator.orchestrate_transaction w tx photo code s
      = Orchestrator.synthesize w tx m None s1)
  \/ (exists ph c d,
        photo = Some ph /\ code = Some c /\ Py.truthy_str c = true
        /\ DeepfakeDetectorAgent.analyze_deepfake w tx (s3_path ph) c s1
           = (inr d, started_with DeepfakeDetector s1)
        /\ (is_deepfake d || negb (verification_passed d) = true
            /\ Orchestrator.orchestrate_transaction w tx photo code s
               = (inr (ImmediateBlock (VStr "BLOCKED") (VInt 100)
                         "Deepfake authentication detected" d),
                  started_with DeepfakeDetector s1)
            \/ is_deepfake d || negb (verification_passed d) = false
               /\ Orchestrator.orchestrate_transaction w tx photo code s
                  = Orchestrator.synthesize w tx m (Some d)
                      (started_with DeepfakeDetector s1))).
Proof.
  intros Hm.
  unfold Orchestrator.orchestrate_transaction. step. rewrite Hm. step.
  destruct photo as [ph|]; [|left; auto].
  destruct code as [c|]; [|left; auto].
  destruct (Py.truthy_str c) eqn:Hc; [|left; split; eauto].
  right. destruct (analyze_deepfake_state w tx (s3_path ph) c s1) as (d & Hd).
  exists ph, c, d. rewrite Hd. step.
  destruct (is_deepfake d || negb (verification_passed d)) eqn:Hfail; auto 10.
Qed.

(** [int(p * 100)] of a probability is a percentage. *)
Lemma percentage_bounds (p : Q) :
  (0 <= p <= 1)%Q -> 0 <= Py.int (p * 100)%Q <= 100.
Proof.
  intros [Hlo Hhi]. destruct p as [n d].
  unfold Qle in Hlo, Hhi. simpl in Hlo, Hhi.
  unfold Py.int. simpl.
  rewrite Pos.mul_1_r.
  rewrite Z.quot_div_nonneg by lia.
  split.
  - apply Z.div_pos; lia.
  - apply Z.div_le_upper_bound; lia.
Qed.

(** The probability that the adapter returns is the fallback or an answer
    of the classifier. *)
Lemma predict_value (w : World) (tx : TransactionData) (s s' : State)
    (model : Classifier) (p : Q) :
  MODEL s = Some model ->
  FraudModel.predict_fraud_probability w tx s = (inr p, s') ->
  p = (1 # 2)%Q \/ exists row, predict_proba model row = inr p.
Proof.
  intros Hmodel.
  unfold FraudModel.predict_fraud_probability. step. rewrite Hmodel.
  destruct (FraudModel.prepare_features w tx s) as [[x|features] s2].
  - intros H. injection H as <- _. auto.
  - destruct (FEATURE_COLUMNS s2) as [columns|].
    + destruct (FraudModel.select_columns features columns) as [x|row].
      * intros H. injection H as <- _. auto.
      * destruct (predict_proba model row) as [x|q] eqn:Hq.
        -- intros H. injection H as <- _. auto.
        -- intros H. injection H as <- _. eauto.
    + intros H. injection H as <- _. auto.
Qed.

(** X3.  When the classifier answers probabilities between 0 and 1, the
    base score of the Transaction Monitor and the final risk score of every
    run of the orchestrator lie between 0 and 100, whichever way the run
    goes (fallback probability, immediate block, or synthesis with any
    evidence). *)
Theorem pipeline_score_bounds (w : World) (tx : TransactionData)
    (photo : option PhotoData) (code : option string) (s s' : State)
    (model : Classifier) (r : OrchestratorResult) :
  MODEL s = Some model ->
  (forall row q, predict_proba model row = inr q -> (0 <= q <= 1)%Q) ->
  Orchestrator.orchestrate_transaction w tx photo code s = (inr r, s') ->
  (exists score, result_risk_score r = VInt score /\ 0 <= score <= 100)
  /\ match r with
     | FullAnalysis _ _ m _ _ _ => 0 <= risk_score m <= 100
     | ImmediateBlock _ _ _ _ => True
     end.
Proof.
  intros Hmodel Hrange Hrun.
  destruct (analyze_transaction_run w tx s model Hmodel)
    as (m & p & Hm & Hp & _ & Hscore).
  assert (Hbase : 0 <= risk_score m <= 100).
  { rewrite Hscore. apply percentage_bounds.
    destruct (predict_value w tx (started_with TransactionMonitor s) _
                model p Hmodel Hp) as [-> | [row Hq]].
    - split; discriminate.
    - eauto. }
  assert (Hsyn : forall d s0,
             Orchestrator.synthesize w tx m d s0 = (inr r, s') ->
             (exists score, result_risk_score r = VInt score
                            /\ 0 <= score <= 100)
             /\ match r with
                | FullAnalysis _ _ m0 _ _ _ => 0 <= risk_score m0 <= 100
                | ImmediateBlock _ _ _ _ => True
                end).
  { intros d s0 H.
    destruct (synthesize_run w tx m d s0) as (e & ra & ra' & s2 & Hs & _).
    rewrite Hs in H. injection H as <- _. split; [|exact Hbase].
    eexists. split; [reflexivity|].
    rewrite composite_risk_score_min, risk_adjustments_total.
    pose proof (chained_total_bounds d (default [] (detected_patterns e))).
    lia. }
  destruct (orchestrate_cases w tx photo code s _ m Hm)
    as [[_ E] | (ph & c & d & _ & _ & _ & _ & [[_ E] | [_ E]])];
    rewrite E in Hrun.
  - eapply Hsyn; eauto.
  - injection Hrun as <- _. split; [|exact I].
    exists 100. split; [reflexivity | lia].
  - eapply Hsyn; eauto.
Qed.

Lemma pipeline_score_bounds_witness :
  exists r s' score,
    Orchestrator.orchestrate_transaction
      (Demo.world_at 12 Demo.mock_detection)
      (Demo.transaction 9000 (Some "Tablet")) None None
      (Demo.loaded (9 # 10))
    = (inr r, s')
    /\ result_risk_score r = VInt score /\ 0 <= score <= 100.
Proof.
  assert (Hrun : exists r s',
             Orchestrator.orchestrate_transaction
               (Demo.world_at 12 Demo.mock_detection)
               (Demo.transaction 9000 (Some "Tablet")) None None
               (Demo.loaded (9 # 10))
             = (inr r, s')).
  { vm_compute. eexists _, _. reflexivity. }
  destruct Hrun as (r & s' & Hrun).
  assert (Hrange : forall row q,
             predict_proba (Demo.constant_classifier (9 # 10)) row = inr q ->
             (0 <= q <= 1)%Q).
  { intros row q H. injection H as <-. split; discriminate. }
  destruct (pipeline_score_bounds
              (Demo.world_at 12 Demo.mock_detection)
              (Demo.transaction 9000 (Some "Tablet")) None None
              (Demo.loaded (9 # 10)) s'
              (Demo.constant_classifier (9 # 10)) r eq_refl Hrange Hrun)
    as [(score & Hsc & Hb) _].
  exists r, s', score. auto.
Defined.

(** A run of the orchestrator that returns went through a Transaction
    Monitor that returned. *)
Lemma orchestrate_monitor_returned (w : World) (tx : TransactionData)
    (photo : option PhotoData) (code : option string) (s s' : State)
    (r : OrchestratorResult) :
  Orchestrator.orchestrate_transaction w tx photo code s = (inr r, s') ->
  exists m,
    TransactionMonitorAgent.analyze_transaction w tx s
    = (inr m, started_with TransactionMonitor s).
Proof.
  intros Hrun.
  destruct (TransactionMonitorAgent.analyze_transaction w tx s)
    as [[x|m] s1] eqn:Hm.
  - exfalso. unfold Orchestrator.orchestrate_transaction in Hrun.
    step in Hrun. rewrite Hm in Hrun. discriminate.
  - exists m. rewrite (analyze_transaction_state w tx s s1 m Hm). reflexivity.
Qed.

(** The adjustments that [assess_risk] lists when the biometric result, if
    any, is no deepfake, has a face match of at least 0.80 and a validated
    code: evidence rows only. *)
Lemma risk_adjustments_evidence_only (d : option DeepfakeResult)
    (patterns : list string) :
  AdjustmentTable.inauthentic d = false ->
  AdjustmentTable.face_below_threshold d = false ->
  AdjustmentTable.code_check_failed d = false ->
  forall a, In a (RiskAssessorAgent.risk_adjustments d patterns) ->
            In a [("Amount anomaly", 15); ("Velocity spike", 10);
                  ("New device", 10)].
Proof.
  unfold AdjustmentTable.inauthentic, AdjustmentTable.face_below_threshold,
    AdjustmentTable.code_check_failed, RiskAssessorAgent.risk_adjustments.
  intros H1 H2 H3 a.
  destruct d as [r|]; [rewrite H1, H2; apply negb_false_iff in H3;
                       rewrite H3|];
    destruct (Py.any_contains "higher than normal" patterns),
      (Py.any_contains "High velocity" patterns),
      (Py.any_contains "New device" patterns);
    simpl; intuition.
Qed.

(** X4.  In every run of the orchestrator that reaches risk synthesis with
    a biometric result, that result is no deepfake, its face match is at
    least 0.80 and its code was validated, since every other result is
    blocked before.  The three verification rows of [assess_risk] therefore
    never apply in the pipeline: the listed adjustments are evidence rows
    only, and the final score exceeds the base score by at most 35. *)
Theorem biometric_rows_unreachable (w : World) (tx : TransactionData)
    (photo : option PhotoData) (code : option string) (s s' : State)
    (status score : PyVal) (m : MonitorResult) (d : DeepfakeResult)
    (e : Evidence) (ra : gmap string PyVal) :
  Orchestrator.orchestrate_transaction w tx photo code s
  = (inr (FullAnalysis status score m (Some d) e ra), s') ->
  is_deepfake d = false
  /\ verification_passed d = true
  /\ (80 # 100 <= face_match_score d)%Q
  /\ code_validated d = true
  /\ exists adjustments z,
       ra !! "adjustments" = Some (VAdjustments adjustments)
       /\ (forall a, In a adjustments ->
                     In a [("Amount anomaly", 15); ("Velocity spike", 10);
                           ("New device", 10)])
       /\ score = VInt z
       /\ z <= risk_score m + 35.
Proof.
  intros Hrun.
  destruct (orchestrate_monitor_returned _ _ _ _ _ _ _ Hrun) as (m0 & Hm).
  destruct (orchestrate_cases w tx photo code s _ m0 Hm)
    as [[_ E] | (ph & c & d0 & _ & _ & _ & Hd & [[_ E] | [Hok E]])];
    rewrite E in Hrun.
  - destruct (synthesize_run w tx m0 None
                (started_with TransactionMonitor s))
      as (e0 & ra0 & ra1 & s2 & Hs & _).
    rewrite Hs in Hrun. discriminate.
  - discriminate.
  - destruct (synthesize_run w tx m0 (Some d0)
                (started_with DeepfakeDetector
                   (started_with TransactionMonitor s)))
      as (e0 & ra0 & ra1 & s2 & Hs & _ & Hra & Hesc).
    rewrite Hs in Hrun. injection Hrun as <- <- <- <- <- <- <-.
    apply orb_false_iff in Hok as [Hdeep Hpass].
    apply negb_false_iff in Hpass.
    destruct (analyze_deepfake_verdict _ _ _ _ _ _ _ Hd) as (_ & Hv).
    rewrite Hpass, Hdeep in Hv. simpl in Hv. symmetry in Hv.
    apply andb_true_iff in Hv as [Hface Hcode].
    split; [exact Hdeep|]. split; [exact Hpass|].
    split; [apply Qle_bool_iff; exact Hface|]. split; [exact Hcode|].
    destruct (assess_risk_run w m0 (Some d0) e0
                (started_with EvidenceCollector
                   (started_with DeepfakeDetector
                      (started_with TransactionMonitor s))))
      as (ra2 & Hra2 & _ & _ & Hadj & _).
    rewrite Hra in Hra2. injection Hra2 as <-.
    destruct (escalation_step_frame _ _ _ _ _ _ _ Hesc) as (Hframe & _).
    assert (Hface' : Py.lt (face_match_score d0) (80 # 100) = false).
    { unfold Py.lt. unfold Py.ge in Hface. rewrite Hface. reflexivity. }
    eexists _, _. split; [rewrite Hframe by discriminate; exact Hadj|].
    split.
    + apply risk_adjustments_evidence_only; simpl;
        [exact Hdeep | exact Hface' | rewrite Hcode; reflexivity].
    + split; [reflexivity|].
      rewrite composite_risk_score_min, risk_adjustments_total.
      unfold AdjustmentTable.chained_total. simpl.
      rewrite Hdeep, Hface', Hcode. simpl.
      unfold AdjustmentTable.delta.
      destruct (AdjustmentTable.amount_anomaly _),
        (AdjustmentTable.velocity_anomaly _),
        (AdjustmentTable.new_device _); lia.
Qed.

Lemma biometric_rows_unreachable_witness :
  exists m d e ra s',
    Orchestrator.orchestrate_transaction
      (Demo.world_at 12 Demo.mock_detection)
      (Demo.transaction 9000 (Some "Tablet")) (Some Demo.photo)
      (Some "482913") (Demo.loaded (6 # 10))
    = (inr (FullAnalysis (VStr "BLOCKED") (VInt 85) m (Some d) e ra), s')
    /\ verification_passed d = true.
Proof.
  assert (Hrun : exists m d e ra s',
             Orchestrator.orchestrate_transaction
               (Demo.world_at 12 Demo.mock_detection)
               (Demo.transaction 9000 (Some "Tablet")) (Some Demo.photo)
               (Some "482913") (Demo.loaded (6 # 10))
             = (inr (FullAnalysis (VStr "BLOCKED") (VInt 85) m (Some d) e ra),
                s')).
  { vm_compute. eexists _, _, _, _, _. reflexivity. }
  destruct Hrun as (m & d & e & ra & s' & Hrun).
  destruct (biometric_rows_unreachable _ _ _ _ _ _ _ _ _ _ _ _ Hrun)
    as (_ & Hpass & _).
  exists m, d, e, ra, s'. auto.
Defined.

(** X5.  In every run of the orchestrator that reaches risk synthesis, the
    Escalation Handler runs exactly when the composite score is at least 70.
    Below 70 the store of fraud cases is left as it was and the assessment
    has no case identifier.  From 70 on one fraud case is stored under the
    identifier attached to the assessment, with the score and the status of
    the assessment and the identifier of the transaction; its status is
    REVIEW or BLOCKED, never APPROVED. *)
Theorem escalation_threshold (w : World) (tx : TransactionData)
    (photo : option PhotoData) (code : option string) (s s' : State)
    (status score : PyVal) (m : MonitorResult) (d : option DeepfakeResult)
    (e : Evidence) (ra : gmap string PyVal) :
  Orchestrator.orchestrate_transaction w tx photo code s
  = (inr (FullAnalysis status score m d e ra), s') ->
  exists z st,
    score = VInt z /\ status = VStr st
    /\ (In EscalationHandler (started s')
        <-> In EscalationHandler (started s) \/ 70 <= z)
    /\ (z < 70 ->
        MOCK_FRAUD_CASES s' = MOCK_FRAUD_CASES s
        /\ ra !! "case_id" = None /\ ra !! "alerts_sent" = None)
    /\ (70 <= z ->
        exists fc,
          ra !! "case_id" = Some (VStr (fc_case_id fc))
          /\ MOCK_FRAUD_CASES s' !! fc_case_id fc = Some fc
          /\ fc_transaction_id fc = transaction_id tx
          /\ fc_risk_score fc = VInt z
          /\ fc_status fc = VStr st
          /\ st <> "APPROVED").
Proof.
  intros Hrun.
  destruct (orchestrate_monitor_returned _ _ _ _ _ _ _ Hrun) as (m0 & Hm).
  assert (Hsyn : exists d0 s0,
             Orchestrator.synthesize w tx m0 d0 s0
             = (inr (FullAnalysis status score m d e ra), s')
             /\ MOCK_FRAUD_CASES s0 = MOCK_FRAUD_CASES s
             /\ (In EscalationHandler (started s0)
                 <-> In EscalationHandler (started s))).
  { destruct (orchestrate_cases w tx photo code s _ m0 Hm)
      as [[_ E] | (ph & c & d0 & _ & _ & _ & Hd & [[_ E] | [Hok E]])];
      rewrite E in Hrun.
    - eexists _, _. split; [exact Hrun|]. split; [reflexivity|].
      simpl. rewrite in_app_iff. simpl. intuition discriminate.
    - discriminate.
    - eexists _, _. split; [exact Hrun|]. split; [reflexivity|].
      simpl. rewrite !in_app_iff. simpl. intuition discriminate. }
  destruct Hsyn as (d0 & s0 & Hsyn & Hcases0 & Hlog0).
  destruct (synthesize_run w tx m0 d0 s0)
    as (e0 & ra0 & ra1 & s2 & Hs & _ & Hra & Hesc).
  rewrite Hs in Hsyn. injection Hsyn as <- <- <- <- <- <- <-.
  destruct (assess_risk_run w m0 d0 e0 (started_with EvidenceCollector s0))
    as (ra2 & Hra2 & Hscore & _ & _ & Hstatus & Hnocase & Hnoalert).
  rewrite Hra in Hra2. injection Hra2 as <-.
  set (c := RiskAssessorAgent.composite_risk_score (risk_score m0)
              (RiskAssessorAgent.risk_adjustments d0
                 (default [] (detected_patterns e0)))) in *.
  exists c, (fst (RiskAssessorAgent.determine_status c)).
  split; [reflexivity|]. split; [reflexivity|].
  destruct (escalation_step_cases _ _ _ _ _ _ _ Hesc)
    as [(z & Hz & Hlow & -> & ->) | (z & fc & Hz & Hhigh & -> & ->)];
    rewrite Hscore in Hz; injection Hz as <-.
  - split; [|split].
    + simpl. rewrite !in_app_iff, Hlog0. simpl.
      split; [intros [[H | [H | []]] | [H | []]]; try discriminate; auto|].
      intros [H | H]; [auto | lia].
    + intros _. simpl. auto.
    + intros H. lia.
  - destruct (escalation_step_high w tx ra0 e0
                (started_with RiskAssessor
                   (started_with EvidenceCollector s0)) c _ Hscore Hhigh
                Hstatus) as (fc' & Hesc' & _ & Htid & Hsc & Hst).
    rewrite Hesc in Hesc'. injection Hesc' as Hmap Hstate.
    assert (Hfc : fc = fc').
    { apply (f_equal (fun x => x !! "case_id")) in Hmap.
      do 2 (rewrite lookup_insert_ne in Hmap by done;
            rewrite lookup_insert_eq in Hmap).
      injection Hmap as Hid.
      apply (f_equal (fun x => x !! fc_case_id fc)) in Hstate.
      rewrite lookup_insert_eq, Hid, lookup_insert_eq in Hstate.
      congruence. }
    subst fc'.
    split; [|split].
    + simpl. rewrite !in_app_iff. simpl. intuition.
    + intros H. lia.
    + intros _. exists fc.
      split; [rewrite lookup_insert_ne by done; apply lookup_insert_eq|].
      split; [simpl; apply lookup_insert_eq|].
      repeat (split; [assumption|]).
      destruct (determine_status_bands c) as (_ & _ & _ & Happ).
      intros Habs. apply Happ in Habs. lia.
Qed.

Lemma escalation_threshold_witness :
  exists m e ra s' fc,
    Orchestrator.orchestrate_transaction
      (Demo.world_at 12 Demo.mock_detection)
      (Demo.transaction 9000 (Some "Tablet")) None None
      (Demo.loaded (6 # 10))
    = (inr (FullAnalysis (VStr "BLOCKED") (VInt 85) m None e ra), s')
    /\ ra !! "case_id" = Some (VStr (fc_case_id fc))
    /\ MOCK_FRAUD_CASES s' !! fc_case_id fc = Some fc
    /\ fc_risk_score fc = VInt 85.
Proof.
  assert (Hrun : exists m e ra s',
             Orchestrator.orchestrate_transaction
               (Demo.world_at 12 Demo.mock_detection)
               (Demo.transaction 9000 (Some "Tablet")) None None
               (Demo.loaded (6 # 10))
             = (inr (FullAnalysis (VStr "BLOCKED") (VInt 85) m None e ra),
                s')).
  { vm_compute. eexists _, _, _, _. reflexivity. }
  destruct Hrun as (m & e & ra & s' & Hrun).
  destruct (escalation_threshold _ _ _ _ _ _ _ _ _ _ _ _ Hrun)
    as (z & st & Hz & Hst & _ & _ & Hhigh).
  injection Hz as <-. injection Hst as <-.
  destruct (Hhigh ltac:(lia)) as (fc & Hc & Hstore & _ & Hsc & _).
  exists m, e, ra, s', fc. auto.
Defined.

(** X6.  A biometric answer that lacks the face-match score or the
    code-validation flag fails closed: the missing score is read as 0 and the
    missing flag as false, the verification does not pass, and the
    orchestrator returns the immediate block with score 100. *)
Theorem incomplete_biometric_answer_blocks (w : World) (tx : TransactionData)
    (ph : PhotoData) (c : string) (s : State) (model : Classifier) :
  MODEL s = Some model ->
  Py.truthy_str c = true ->
  (let answer :=
     sagemaker_endpoint w
       {| uploaded_photo_s3 := s3_path ph;
          reference_photo_s3 := Services.get_reference_photo (user_id tx);
          expected_code := c |} in
   raw_face_match_score answer = None \/ raw_code_validated answer = None) ->
  exists d,
    Orchestrator.orchestrate_transaction w tx (Some ph) (Some c) s
    = (inr (ImmediateBlock (VStr "BLOCKED") (VInt 100)
              "Deepfake authentication detected" d),
       started_with DeepfakeDetector (started_with TransactionMonitor s))
    /\ verification_passed d = false.
Proof.
  intros Hmodel Hc Hmissing.
  destruct (analyze_transaction_run w tx s model Hmodel) as (m & p & Hm & _).
  destruct (orchestrate_cases w tx (Some ph) (Some c) s _ m Hm)
    as [[[H | [H | (c' & H & Hc')]] _]
       | (ph' & c' & d & Hph & Hcode & _ & Hd & Hcase)];
    try discriminate.
  - injection H as <-. congruence.
  - injection Hph as <-. injection Hcode as <-.
    assert (Hfail : verification_passed d = false).
    { revert Hd. unfold DeepfakeDetectorAgent.analyze_deepfake. step.
      intros Hd. injection Hd as <-. simpl.
      unfold Services.invoke_sagemaker_endpoint.
      destruct Hmissing as [-> | ->]; simpl.
      - apply andb_false_iff. left. apply andb_false_iff. right. reflexivity.
      - apply andb_false_r. }
    exists d. split; [|exact Hfail].
    destruct Hcase as [[_ E] | [Hok _]]; [exact E|].
    rewrite Hfail in Hok. rewrite orb_true_r in Hok. discriminate.
Qed.

Lemma incomplete_biometric_answer_blocks_witness :
  exists d,
    Orchestrator.orchestrate_transaction
      (Demo.world_at 12
         {| raw_is_deepfake := Some false;
            raw_deepfake_confidence := None;
            raw_face_match_score := None;
            raw_code_validated := Some true |})
      (Demo.transaction 200 (Some "Desktop")) (Some Demo.photo)
      (Some "482913") (Demo.loaded (1 # 10))
    = (inr (ImmediateBlock (VStr "BLOCKED") (VInt 100)
              "Deepfake authentication detected" d),
       started_with DeepfakeDetector
         (started_with TransactionMonitor (Demo.loaded (1 # 10))))
    /\ verification_passed d = false.
Proof.
  apply (incomplete_biometric_answer_blocks
           (Demo.world_at 12
              {| raw_is_deepfake := Some false;
                 raw_deepfake_confidence := None;
                 raw_face_match_score := None;
                 raw_code_validated := Some true |})
           (Demo.transaction 200 (Some "Desktop")) Demo.photo "482913"
           (Demo.loaded (1 # 10)) (Demo.constant_classifier (1 # 10))
           eq_refl eq_refl).
  left. reflexivity.
Defined.

(** X7.  A biometric answer that lacks the deepfake flag is read as "no
    deepfake": with a face match of at least 0.80 and a validated code the
    verification passes, the run is not blocked and goes on to risk synthesis
    with that result. *)
Theorem missing_deepfake_flag_passes (w : World) (tx : TransactionData)
    (ph : PhotoData) (c : string) (s : State) (model : Classifier) (face : Q) :
  MODEL s = Some model ->
  Py.truthy_str c = true ->
  (let answer :=
     sagemaker_endpoint w
       {| uploaded_photo_s3 := s3_path ph;
          reference_photo_s3 := Services.get_reference_photo (user_id tx);
          expected_code := c |} in
   raw_is_deepfake answer = None
   /\ raw_face_match_score answer = Some face
   /\ raw_code_validated answer = Some true) ->
  (80 # 100 <= face)%Q ->
  exists status score m d e ra s',
    Orchestrator.orchestrate_transaction w tx (Some ph) (Some c) s
    = (inr (FullAnalysis status score m (Some d) e ra), s')
    /\ is_deepfake d = false
    /\ verification_passed d = true.
Proof.
  intros Hmodel Hc (Hdeep & Hface & Hcode) Hge.
  destruct (analyze_transaction_run w tx s model Hmodel) as (m & p & Hm & _).
  destruct (orchestrate_cases w tx (Some ph) (Some c) s _ m Hm)
    as [[[H | [H | (c' & H & Hc')]] _]
       | (ph' & c' & d & Hph & Hcode' & _ & Hd & Hcase)];
    try discriminate.
  - injection H as <-. congruence.
  - injection Hph as <-. injection Hcode' as <-.
    assert (Hres : is_deepfake d = false /\ verification_passed d = true).
    { revert Hd. unfold DeepfakeDetectorAgent.analyze_deepfake. step.
      intros Hd. injection Hd as <-. simpl.
      unfold Services.invoke_sagemaker_endpoint.
      rewrite Hdeep, Hface, Hcode. simpl. split; [reflexivity|].
      rewrite andb_true_r. apply Qle_bool_iff. exact Hge. }
    destruct Hres as [Hd1 Hd2].
    destruct Hcase as [[Hbad _] | [_ E]].
    + rewrite Hd1, Hd2 in Hbad. discriminate.
    + destruct (synthesize_run w tx m (Some d)
                  (started_with DeepfakeDetector
                     (started_with TransactionMonitor s)))
        as (e & ra & ra' & s' & Hs & _).
      rewrite Hs in E. eexists _, _, m, d, e, ra', s'. eauto.
Qed.

Lemma missing_deepfake_flag_passes_witness :
  exists status score m d e ra s',
    Orchestrator.orchestrate_transaction
      (Demo.world_at 12
         {| raw_is_deepfake := None;
            raw_deepfake_confidence := None;
            raw_face_match_score := Some (9 # 10)%Q;
            raw_code_validated := Some true |})
      (Demo.transaction 200 (Some "Desktop")) (Some Demo.photo)
      (Some "482913") (Demo.loaded (1 # 10))
    = (inr (FullAnalysis status score m (Some d) e ra), s')
    /\ is_deepfake d = false
    /\ verification_passed d = true.
Proof.
  apply (missing_deepfake_flag_passes
           (Demo.world_at 12
              {| raw_is_deepfake := None;
                 raw_deepfake_confidence := None;
                 raw_face_match_score := Some (9 # 10)%Q;
                 raw_code_validated := Some true |})
           (Demo.transaction 200 (Some "Desktop")) Demo.photo "482913"
           (Demo.loaded (1 # 10)) (Demo.constant_classifier (1 # 10))
           (9 # 10)%Q eq_refl eq_refl).
  - repeat split.
  - discriminate.
Defined.

(* ===================================================================== *)
(** ** The texts of the evidence patterns *)
(* ===================================================================== *)

Lemma contains_cons (needle : string) (a : ascii) (rest : string) :
  Py.contains needle (String a rest)
  = String.prefix needle (String a rest) || Py.contains needle rest.
Proof.
  cbn [Py.contains]. destruct (String.prefix needle (String a rest));
    reflexivity.
Qed.

(** A needle that starts with a character no number holds is found in a
    rendered number followed by a tail exactly when it is found in the
    tail. *)
Lemma contains_skip_number (c : ascii) (needle digits tail : string) :
  Text.number_char c = false ->
  Text.all_chars Text.number_char digits = true ->
  Py.contains (String c needle) (digits +:+ tail)
  = Py.contains (String c needle) tail.
Proof.
  intros Hc. induction digits as [|a rest IH]; intros Hd; [reflexivity|].
  cbn [Text.all_chars] in Hd. apply andb_true_iff in Hd as [Ha Hrest].
  change (String a rest +:+ tail) with (String a (rest +:+ tail)).
  rewrite contains_cons, (IH Hrest).
  cbn [String.prefix]. destruct (ascii_dec c a) as [->|]; [congruence|].
  reflexivity.
Qed.

Lemma string_of_uint_chars (d : Decimal.uint) :
  Text.all_chars Text.number_char (NilEmpty.string_of_uint d) = true.
Proof. induction d; simpl; auto. Qed.

(** [str(n)] holds digits and the minus sign only. *)
Lemma str_of_int_chars (n : Z) :
  Text.all_chars Text.number_char (Py.str_of_int n) = true.
Proof.
  unfold Py.str_of_int, NilZero.string_of_int.
  destruct (Z.to_int n) as [d|d]; unfold NilZero.string_of_uint.
  - destruct d; try reflexivity; apply string_of_uint_chars.
  - cbn [Text.all_chars]. apply andb_true_iff. split; [reflexivity|].
    destruct d; try reflexivity; apply string_of_uint_chars.
Qed.

(** What the three tests of [assess_risk] find in the text of the amount
    pattern, whatever the multiplier. *)
Lemma amount_pattern_tests (n : Z) :
  Py.contains "higher than normal"
    ("Amount " +:+ Py.str_of_int n +:+ "x higher than normal") = true
  /\ Py.contains "High velocity"
       ("Amount " +:+ Py.str_of_int n +:+ "x higher than normal") = false
  /\ Py.contains "New device"
       ("Amount " +:+ Py.str_of_int n +:+ "x higher than normal") = false.
Proof.
  pose proof (str_of_int_chars n) as Hn.
  set (digits := Py.str_of_int n) in *.
  change ("Amount " +:+ digits +:+ "x higher than normal")
    with (String "A" (String "m" (String "o" (String "u" (String "n"
           (String "t" (String " " (digits +:+ "x higher than normal")))))))).
  split; [|split].
  - rewrite !contains_cons. cbn [String.prefix]. simpl orb.
    rewrite (contains_skip_number "h" _ digits _ eq_refl Hn). reflexivity.
  - rewrite !contains_cons. cbn [String.prefix]. simpl orb.
    rewrite (contains_skip_number "H" _ digits _ eq_refl Hn). reflexivity.
  - rewrite !contains_cons. cbn [String.prefix]. simpl orb.
    rewrite (contains_skip_number "N" _ digits _ eq_refl Hn). reflexivity.
Qed.

(** The same for the text of the velocity pattern, whatever the count. *)
Lemma velocity_pattern_tests (n : Z) :
  Py.contains "higher than normal"
    ("High velocity: " +:+ Py.str_of_int n +:+ " transactions in 24h") = false
  /\ Py.contains "High velocity"
       ("High velocity: " +:+ Py.str_of_int n +:+ " transactions in 24h")
     = true
  /\ Py.contains "New device"
       ("High velocity: " +:+ Py.str_of_int n +:+ " transactions in 24h")
     = false.
Proof.
  pose proof (str_of_int_chars n) as Hn.
  set (digits := Py.str_of_int n) in *.
  change ("High velocity: " +:+ digits +:+ " transactions in 24h")
    with (String "H" (String "i" (String "g" (String "h" (String " "
           (String "v" (String "e" (String "l" (String "o" (String "c"
           (String "i" (String "t" (String "y" (String ":" (String " "
           (digits +:+ " transactions in 24h")))))))))))))))).
  split; [|split].
  - rewrite !contains_cons. cbn [String.prefix]. simpl orb.
    rewrite (contains_skip_number "h" _ digits _ eq_refl Hn). reflexivity.
  - rewrite contains_cons. cbn [String.prefix]. reflexivity.
  - rewrite !contains_cons. cbn [String.prefix]. simpl orb.
    rewrite (contains_skip_number "N" _ digits _ eq_refl Hn). reflexivity.
Qed.

(** The three tests of [assess_risk] on a list of patterns as
    [collect_evidence] builds it: each test finds its own pattern and no
    other. *)
Lemma pattern_list_tests (b1 b2 b3 : bool) (n1 n2 : Z) :
  let patterns :=
    (if b1
     then ["Amount " +:+ Py.str_of_int n1 +:+ "x higher than normal"]
     else [])
    ++ (if b2
        then ["High velocity: " +:+ Py.str_of_int n2
                +:+ " transactions in 24h"]
        else [])
    ++ (if b3 then ["New device detected"] else []) in
  AdjustmentTable.amount_anomaly patterns = b1
  /\ AdjustmentTable.velocity_anomaly patterns = b2
  /\ AdjustmentTable.new_device patterns = b3.
Proof.
  destruct (amount_pattern_tests n1) as (A1 & A2 & A3).
  destruct (velocity_pattern_tests n2) as (V1 & V2 & V3).
  assert (D1 : Py.contains "higher than normal" "New device detected" = false)
    by reflexivity.
  assert (D2 : Py.contains "High velocity" "New device detected" = false)
    by reflexivity.
  assert (D3 : Py.contains "New device" "New device detected" = true)
    by reflexivity.
  unfold AdjustmentTable.amount_anomaly, AdjustmentTable.velocity_anomaly,
    AdjustmentTable.new_device, Py.any_contains.
  destruct b1, b2, b3; cbn [app existsb];
    rewrite ?A1, ?A2, ?A3, ?V1, ?V2, ?V3, ?D1, ?D2, ?D3;
    repeat split; reflexivity.
Qed.

(** The patterns of the Evidence Collector, by the conditions of the code:
    tests on the texts of the patterns give back the conditions under which
    they were appended. *)
Lemma collected_patterns (w : World) (tx : TransactionData) (s s' : State)
    (e : Evidence) :
  EvidenceCollectorAgent.collect_evidence w tx s = (inr e, s') ->
  let profile :=
    Services.lookup_profile (MOCK_USER_PROFILES s) (user_id tx) in
  let amount := default 0%Q (transaction_amount tx) in
  let average := default 0%Q (avg_transaction_amount profile) in
  let patterns := default [] (detected_patterns e) in
  (AdjustmentTable.amount_anomaly patterns = true
   <-> (0 < average)%Q /\ (average * 5 < amount)%Q)
  /\ (AdjustmentTable.velocity_anomaly patterns = true
      <-> 10 < recent_24h_count e)
  /\ (AdjustmentTable.new_device patterns = true
      <-> Py.mem_opt (device_type tx) (default [] (known_devices profile))
          = false)
  /\ recent_24h_count e
     = Z.of_nat
         (length
            (List.filter
               (fun t => EvidenceCollectorAgent.is_within_24h w (h_timestamp t))
               (transaction_history w (user_id tx) 90))).
Proof.
  unfold EvidenceCollectorAgent.collect_evidence. step.
  rewrite get_user_profile_run. step.
  intros H. injection H as <- _.
  cbv zeta.
  cbn [detected_patterns recent_24h_count default MOCK_USER_PROFILES
       started_with].
  unfold Services.get_user_transaction_history.
  set (profile := Services.lookup_profile (MOCK_USER_PROFILES s) (user_id tx)).
  set (amount := default 0%Q (transaction_amount tx)).
  set (average := default 0%Q (avg_transaction_amount profile)).
  set (recent := Z.of_nat (length (List.filter _ _))).
  assert (I1 : Py.gt average 0 && Py.gt amount (average * 5) = true
               <-> (0 < average)%Q /\ (average * 5 < amount)%Q)
    by (rewrite andb_true_iff, !py_gt_true; reflexivity).
  assert (I2 : (10 <? recent) = true <-> 10 < recent) by apply Z.ltb_lt.
  assert (I3 : negb (Py.mem_opt (device_type tx)
                       (default [] (known_devices profile))) = true
               <-> Py.mem_opt (device_type tx)
                     (default [] (known_devices profile)) = false)
    by apply negb_true_iff.
  revert I1 I2 I3.
  generalize (Py.gt average 0 && Py.gt amount (average * 5)) as b1.
  generalize (10 <? recent) as b2.
  generalize (negb (Py.mem_opt (device_type tx)
                      (default [] (known_devices profile)))) as b3.
  intros b3 b2 b1 I1 I2 I3.
  pose proof (pattern_list_tests b1 b2 b3
                (Py.int (amount / average)) recent) as Htests.
  cbv zeta in Htests.
  destruct b1, b2, b3; cbn [app id] in Htests |- *;
    destruct Htests as (-> & -> & ->); auto.
Qed.

(** X8.  The patterns that the Evidence Collector emits drive the evidence
    rows of [assess_risk] one to one, whatever numbers their texts hold: the
    amount-anomaly row applies exactly when the profile average is positive
    and the amount exceeds five times it, the velocity row exactly when more
    than 10 history entries fall in the last 24 hours, and the new-device row
    exactly when the device of the transaction is not among the known
    devices (an absent device counts as new). *)
Theorem evidence_patterns_drive_adjustments (w : World)
    (tx : TransactionData) (s s' : State) (e : Evidence) :
  EvidenceCollectorAgent.collect_evidence w tx s = (inr e, s') ->
  let profile :=
    Services.lookup_profile (MOCK_USER_PROFILES s) (user_id tx) in
  let amount := default 0%Q (transaction_amount tx) in
  let average := default 0%Q (avg_transaction_amount profile) in
  let patterns := default [] (detected_patterns e) in
  (AdjustmentTable.amount_anomaly patterns = true
   <-> (0 < average)%Q /\ (average * 5 < amount)%Q)
  /\ (AdjustmentTable.velocity_anomaly patterns = true
      <-> 10 < recent_24h_count e)
  /\ (AdjustmentTable.new_device patterns = true
      <-> Py.mem_opt (device_type tx) (default [] (known_devices profile))
          = false)
  /\ recent_24h_count e
     = Z.of_nat
         (length
            (List.filter
               (fun t => EvidenceCollectorAgent.is_within_24h w (h_timestamp t))
               (transaction_history w (user_id tx) 90))).
Proof. exact (collected_patterns w tx s s' e). Qed.

Lemma evidence_patterns_drive_adjustments_witness :
  exists e s',
    EvidenceCollectorAgent.collect_evidence
      (Demo.world_at 12 Demo.mock_detection)
      (Demo.transaction 9000 (Some "Tablet")) (Demo.loaded (6 # 10))
    = (inr e, s')
    /\ AdjustmentTable.amount_anomaly (default [] (detected_patterns e)) = true
    /\ AdjustmentTable.velocity_anomaly (default [] (detected_patterns e))
       = false.
Proof.
  destruct (collect_evidence_state (Demo.world_at 12 Demo.mock_detection)
              (Demo.transaction 9000 (Some "Tablet")) (Demo.loaded (6 # 10)))
    as (e & He).
  destruct (evidence_patterns_drive_adjustments _ _ _ _ _ He)
    as (Ha & Hv & _ & Hrecent).
  exists e, (started_with EvidenceCollector (Demo.loaded (6 # 10))).
  split; [exact He|]. split.
  - apply Ha. split; reflexivity.
  - destruct (AdjustmentTable.velocity_anomaly _); [|reflexivity].
    exfalso. assert (H : 10 < recent_24h_count e) by (apply Hv; reflexivity).
    rewrite Hrecent in H. revert H. vm_compute. discriminate.
Defined.

(* ===================================================================== *)
(** ** Feature preparation and start-up *)
(* ===================================================================== *)

(** Encoding a column leaves the other columns as they are. *)
Lemma encode_column_other (encoders : gmap string Encoder)
    (features : gmap string FeatureVal) (col c : string) :
  col <> c ->
  FraudModel.encode_column encoders features col !! c = features !! c.
Proof.
  intros Hne. unfold FraudModel.encode_column.
  destruct (encoders !! col) as [encoder|]; [|reflexivity].
  destruct (features !! col) as [value|]; [|reflexivity].
  destruct (FraudModel.encode_value encoder value);
    rewrite lookup_insert_ne by done; reflexivity.
Qed.

(** Encoding a column that has an encoder and a value leaves a number. *)
Lemma encode_column_encoded (encoders : gmap string Encoder)
    (features : gmap string FeatureVal) (col : string) :
  is_Some (encoders !! col) -> is_Some (features !! col) ->
  exists q, FraudModel.encode_column encoders features col !! col
            = Some (FNum q).
Proof.
  intros [encoder He] [value Hv]. unfold FraudModel.encode_column.
  rewrite He, Hv.
  destruct (FraudModel.encode_value encoder value);
    rewrite lookup_insert_eq; eauto.
Qed.

(** Encoding a column without an encoder changes nothing. *)
Lemma encode_column_no_encoder (encoders : gmap string Encoder)
    (features : gmap string FeatureVal) (col : string) :
  encoders !! col = None ->
  FraudModel.encode_column encoders features col = features.
Proof. intros He. unfold FraudModel.encode_column. now rewrite He. Qed.

(** A number stays a number through the encoding loop. *)
Lemma encode_columns_number (encoders : gmap string Encoder)
    (cols : list string) (features : gmap string FeatureVal) (c : string) :
  (exists q, features !! c = Some (FNum q)) ->
  exists q, fold_left (FraudModel.encode_column encoders) cols features !! c
            = Some (FNum q).
Proof.
  revert features. induction cols as [|col cols IH]; intros features Hc.
  - exact Hc.
  - simpl. apply IH. destruct (decide (col = c)) as [->|Hne].
    + destruct (encoders !! c) as [encoder|] eqn:He.
      * apply encode_column_encoded; [eauto|].
        destruct Hc as [q ->]. eauto.
      * now rewrite encode_column_no_encoder.
    + now rewrite encode_column_other.
Qed.

(** A value stays present through the encoding loop. *)
Lemma encode_columns_present (encoders : gmap string Encoder)
    (cols : list string) (features : gmap string FeatureVal) (c : string) :
  is_Some (features !! c) ->
  is_Some (fold_left (FraudModel.encode_column encoders) cols features !! c).
Proof.
  revert features. induction cols as [|col cols IH]; intros features Hc.
  - exact Hc.
  - simpl. apply IH. destruct (decide (col = c)) as [->|Hne].
    + destruct (encoders !! c) as [encoder|] eqn:He.
      * destruct (encode_column_encoded encoders features c) as [q Hq];
          [eauto|assumption|]. rewrite Hq. eauto.
      * now rewrite encode_column_no_encoder.
    + now rewrite encode_column_other.
Qed.

(** The loop turns every column that it visits, that has an encoder and
    that holds a value into a number. *)
Lemma encode_columns_encoded (encoders : gmap string Encoder)
    (cols : list string) (features : gmap string FeatureVal) (c : string) :
  In c cols -> is_Some (encoders !! c) -> is_Some (features !! c) ->
  exists q, fold_left (FraudModel.encode_column encoders) cols features !! c
            = Some (FNum q).
Proof.
  revert features. induction cols as [|col cols IH];
    intros features Hin He Hc; [destruct Hin|].
  simpl. destruct (decide (col = c)) as [->|Hne].
  - apply encode_columns_number. now apply encode_column_encoded.
  - destruct Hin as [->|Hin]; [done|].
    apply IH; [assumption..|]. now rewrite encode_column_other.
Qed.

(** The loop leaves a column without an encoder as it is. *)
Lemma encode_columns_no_encoder (encoders : gmap string Encoder)
    (cols : list string) (features : gmap string FeatureVal) (c : string) :
  encoders !! c = None ->
  fold_left (FraudModel.encode_column encoders) cols features !! c
  = features !! c.
Proof.
  revert features. induction cols as [|col cols IH]; intros features He.
  - reflexivity.
  - simpl. rewrite IH by assumption. destruct (decide (col = c)) as [->|Hne].
    + now rewrite encode_column_no_encoder.
    + now rewrite encode_column_other.
Qed.

(** Selecting columns that are all present gives the row of their values. *)
Lemma select_columns_present (features : gmap string FeatureVal)
    (columns : list string) :
  Forall (fun c => is_Some (features !! c)) columns ->
  exists row,
    FraudModel.select_columns features columns = inr row
    /\ Forall2 (fun c v => features !! c = Some v) columns row.
Proof.
  induction 1 as [|c columns [v Hv] _ (row & Hrow & Hall)].
  - exists []. split; [reflexivity|constructor].
  - exists (v :: row). simpl. rewrite Hv, Hrow. split; [reflexivity|].
    now constructor.
Qed.

(** Selecting a column that is absent raises the [KeyError] of the first
    such column. *)
Lemma select_columns_absent (features : gmap string FeatureVal)
    (columns : list string) (e : Py.Exn) :
  FraudModel.select_columns features columns = inl e ->
  exists c, e = Py.KeyError c /\ In c columns /\ features !! c = None.
Proof.
  induction columns as [|c columns IH]; [discriminate|].
  simpl. destruct (features !! c) as [v|] eqn:Hv.
  - destruct (FraudModel.select_columns features columns) as [e'|row];
      [|discriminate].
    intros H. injection H as <-.
    destruct (IH eq_refl) as (c' & -> & Hin & Hc'). eauto.
  - intros H. injection H as <-. eauto.
Qed.

(** A row selected from columns that all hold numbers holds numbers. *)
Lemma selected_numbers (features : gmap string FeatureVal)
    (columns : list string) (row : list FeatureVal) :
  Forall (fun c => exists q, features !! c = Some (FNum q)) columns ->
  Forall2 (fun c v => features !! c = Some v) columns row ->
  forallb FraudModelStartup.is_number row = true.
Proof.
  intros Hnum Hrow. induction Hrow as [|c v columns row Hc _ IH].
  - reflexivity.
  - inversion Hnum as [|? ? [q Hq] Hrest]; subst.
    rewrite Hq in Hc. injection Hc as <-. simpl. now apply IH.
Qed.

(** The look-ups of the feature [dict] that [prepare_features] builds,
    whatever values it holds. *)
Lemma feature_dict_lookup
    (v1 v2 v3 v4 v5 v6 v7 v8 v9 v10 v11 v12 v13 v14 v15 v16 v17 v18 v19 v20
       v21 v22 : FeatureVal) :
  let features : gmap string FeatureVal :=
    list_to_map
      [("Transaction_Amount", v1); ("Account_Balance", v2);
       ("IP_Address_Flag", v3); ("Previous_Fraudulent_Activity", v4);
       ("Daily_Transaction_Count", v5); ("Avg_Transaction_Amount_7d", v6);
       ("Failed_Transaction_Count_7d", v7); ("Card_Age", v8);
       ("Transaction_Distance", v9); ("Is_Weekend", v10);
       ("hour_of_day", v11); ("day_of_week", v12);
       ("is_unusual_hour", v13); ("amount_deviation_ratio", v14);
       ("is_new_device", v15); ("is_high_value", v16);
       ("Transaction_Type", v17); ("Device_Type", v18); ("Location", v19);
       ("Merchant_Category", v20); ("Card_Type", v21);
       ("Authentication_Method", v22)] in
  features !! "Transaction_Amount" = Some v1
  /\ features !! "Account_Balance" = Some v2
  /\ features !! "IP_Address_Flag" = Some v3
  /\ features !! "Previous_Fraudulent_Activity" = Some v4
  /\ features !! "Daily_Transaction_Count" = Some v5
  /\ features !! "Avg_Transaction_Amount_7d" = Some v6
  /\ features !! "Failed_Transaction_Count_7d" = Some v7
  /\ features !! "Card_Age" = Some v8
  /\ features !! "Transaction_Distance" = Some v9
  /\ features !! "Is_Weekend" = Some v10
  /\ features !! "hour_of_day" = Some v11
  /\ features !! "day_of_week" = Some v12
  /\ features !! "is_unusual_hour" = Some v13
  /\ features !! "amount_deviation_ratio" = Some v14
  /\ features !! "is_new_device" = Some v15
  /\ features !! "is_high_value" = Some v16
  /\ features !! "Transaction_Type" = Some v17
  /\ features !! "Device_Type" = Some v18
  /\ features !! "Location" = Some v19
  /\ features !! "Merchant_Category" = Some v20
  /\ features !! "Card_Type" = Some v21
  /\ features !! "Authentication_Method" = Some v22.
Proof. vm_compute. repeat split. Qed.

(** Feature preparation with the encoders loaded: it returns, every one of
    the 22 columns of the model is present, and a column holds a number
    unless it is a categorical one without an encoder. *)
Lemma prepare_features_run (w : World) (tx : TransactionData) (s : State)
    (encoders : gmap string Encoder) :
  ENCODERS s = Some encoders ->
  exists features,
    FraudModel.prepare_features w tx s = (inr features, s)
    /\ Forall (fun c => is_Some (features !! c)) Demo.feature_columns
    /\ Forall (fun c =>
                 (In c FraudModel.categorical_features ->
                  is_Some (encoders !! c)) ->
                 exists q, features !! c = Some (FNum q))
         Demo.feature_columns.
Proof.
  intros He. unfold FraudModel.prepare_features, Utils.get_user_baseline.
  step. rewrite get_user_profile_run. step. rewrite He. cbv zeta.
  match goal with
  | |- context [list_to_map
                  [(_, ?v1); (_, ?v2); (_, ?v3); (_, ?v4); (_, ?v5);
                   (_, ?v6); (_, ?v7); (_, ?v8); (_, ?v9); (_, ?v10);
                   (_, ?v11); (_, ?v12); (_, ?v13); (_, ?v14); (_, ?v15);
                   (_, ?v16); (_, ?v17); (_, ?v18); (_, ?v19); (_, ?v20);
                   (_, ?v21); (_, ?v22)]] =>
      pose proof (feature_dict_lookup v1 v2 v3 v4 v5 v6 v7 v8 v9 v10 v11
                    v12 v13 v14 v15 v16 v17 v18 v19 v20 v21 v22) as Hbase
  end.
  cbv zeta in Hbase.
  set (base := list_to_map _) in *.
  destruct Hbase as (H1 & H2 & H3 & H4 & H5 & H6 & H7 & H8 & H9 & H10 & H11
                     & H12 & H13 & H14 & H15 & H16 & H17 & H18 & H19 & H20
                     & H21 & H22).
  exists (fold_left (FraudModel.encode_column encoders)
            FraudModel.categorical_features base).
  split; [reflexivity|]. split.
  - unfold Demo.feature_columns.
    repeat (apply Forall_cons; split;
            [apply encode_columns_present; eexists; eassumption|]).
    apply Forall_nil_2.
  - unfold Demo.feature_columns.
    repeat (apply Forall_cons; split;
            [intros Hcat;
             first [ apply encode_columns_number; eexists; eassumption
                   | apply encode_columns_encoded;
                     [simpl; tauto
                     |apply Hcat; simpl; tauto
                     |eexists; eassumption] ]|]).
    apply Forall_nil_2.
Qed.

(** What a successful [load_fraud_model] leaves in the globals. *)
Lemma load_fraud_model_run (files : FraudModelStartup.Artifacts)
    (s0 s : State) :
  FraudModelStartup.load_fraud_model files s0 = (inr tt, s) ->
  exists model encoders,
    FraudModelStartup.model_pkl files = inr model
    /\ FraudModelStartup.encoders_pkl files = inr encoders
    /\ MODEL s = Some model
    /\ ENCODERS s = Some encoders
    /\ FEATURE_COLUMNS s = Some Demo.feature_columns
    /\ MOCK_USER_PROFILES s = MOCK_USER_PROFILES s0
    /\ MOCK_FRAUD_CASES s = MOCK_FRAUD_CASES s0
    /\ started s = started s0.
Proof.
  unfold FraudModelStartup.load_fraud_model. step.
  destruct (FraudModelStartup.model_pkl files) as [e|model]; [discriminate|].
  destruct (FraudModelStartup.encoders_pkl files) as [e|encoders];
    [discriminate|].
  simpl. intros H. injection H as <-. exists model, encoders.
  repeat split.
Qed.

(** X9.  After a successful [load_fraud_model] the classifier is consulted
    on every transaction with a complete row: feature preparation returns,
    each of the 22 columns that the load installed is found (no [KeyError]),
    and the probability returned is the answer of the loaded classifier on
    that row, the fallback 0.5 being left to the case in which the
    classifier itself raises.  When the loaded encoders cover the six
    categorical columns, every entry of the row is a number. *)
Theorem prediction_after_startup (files : FraudModelStartup.Artifacts)
    (s0 s : State) (w : World) (tx : TransactionData) :
  FraudModelStartup.load_fraud_model files s0 = (inr tt, s) ->
  exists model encoders columns features row,
    FraudModelStartup.model_pkl files = inr model
    /\ FraudModelStartup.encoders_pkl files = inr encoders
    /\ FEATURE_COLUMNS s = Some columns
    /\ FraudModel.prepare_features w tx s = (inr features, s)
    /\ FraudModel.select_columns features columns = inr row
    /\ length row = 22%nat
    /\ ((forall c, In c FraudModel.categorical_features ->
                   is_Some (encoders !! c)) ->
        forallb FraudModelStartup.is_number row = true)
    /\ FraudModel.predict_fraud_probability w tx s
       = (inr match predict_proba model row with
              | inr p => p
              | inl _ => (1 # 2)%Q
              end, s).
Proof.
  intros Hload.
  destruct (load_fraud_model_run files s0 s Hload)
    as (model & encoders & Hm & He & HM & HE & HF & _).
  destruct (prepare_features_run w tx s encoders HE)
    as (features & Hprep & Hpresent & Hnum).
  destruct (select_columns_present features Demo.feature_columns Hpresent)
    as (row & Hrow & Hvalues).
  exists model, encoders, Demo.feature_columns, features, row.
  repeat (split; [assumption|]).
  split; [apply Forall2_length in Hvalues; now rewrite <- Hvalues|].
  split.
  - intros Hcover.
    apply (selected_numbers features Demo.feature_columns); [|assumption].
    eapply Forall_impl; [exact Hnum|]. simpl. intros c Hc. apply Hc.
    intros Hin. now apply Hcover.
  - unfold FraudModel.predict_fraud_probability. step. rewrite HM, Hprep.
    step. rewrite HF, Hrow.
    destruct (predict_proba model row); reflexivity.
Qed.

Lemma prediction_after_startup_witness :
  exists s,
    FraudModelStartup.load_fraud_model
      {| FraudModelStartup.model_pkl :=
           inr (Demo.constant_classifier (3 # 10));
         FraudModelStartup.encoders_pkl := inr ∅ |}
      (Demo.state_with None None)
    = (inr tt, s)
    /\ FraudModel.predict_fraud_probability
         (Demo.world_at 12 Demo.mock_detection)
         (Demo.transaction 200 (Some "Desktop")) s
       = (inr (3 # 10)%Q, s).
Proof.
  eexists. split; [reflexivity|].
  destruct (prediction_after_startup
              {| FraudModelStartup.model_pkl :=
                   inr (Demo.constant_classifier (3 # 10));
                 FraudModelStartup.encoders_pkl := inr ∅ |}
              (Demo.state_with None None) _
              (Demo.world_at 12 Demo.mock_detection)
              (Demo.transaction 200 (Some "Desktop")) eq_refl)
    as (model & encoders & columns & features & row & Hm & _ & _ & _ & _ & _
        & _ & Hp).
  injection Hm as <-. exact Hp.
Defined.

(** X10.  A load that fails half-way leaves the globals half-set.  When the
    model file cannot be read nothing is assigned.  When the model file is
    read and the encoders file is not, the exception is raised with [MODEL]
    already assigned; from such a state with no encoders the classifier
    adapter no longer reports that the model is not loaded, but answers the
    fallback 0.5 for every transaction. *)
Theorem partial_load_falls_back (files : FraudModelStartup.Artifacts)
    (s0 : State) (e : Py.Exn) :
  FraudModelStartup.encoders_pkl files = inl e ->
  ENCODERS s0 = None ->
  (forall e0, FraudModelStartup.model_pkl files = inl e0 ->
              FraudModelStartup.load_fraud_model files s0 = (inl e0, s0))
  /\ (forall model,
        FraudModelStartup.model_pkl files = inr model ->
        exists s,
          FraudModelStartup.load_fraud_model files s0 = (inl e, s)
          /\ MODEL s = Some model
          /\ ENCODERS s = None
          /\ forall w tx,
               FraudModel.predict_fraud_probability w tx s
               = (inr (1 # 2)%Q, s)).
Proof.
  intros He Hnone. split.
  - intros e0 Hm. unfold FraudModelStartup.load_fraud_model. step.
    now rewrite Hm.
  - intros model Hm. unfold FraudModelStartup.load_fraud_model. step.
    rewrite Hm, He. simpl. eexists. split; [reflexivity|].
    split; [reflexivity|]. split; [assumption|].
    intros w tx.
    unfold FraudModel.predict_fraud_probability, FraudModel.prepare_features,
      Utils.get_user_baseline.
    step. cbn [MODEL]. step. rewrite get_user_profile_run. step.
    cbn [ENCODERS]. rewrite Hnone. reflexivity.
Qed.

Lemma partial_load_falls_back_witness :
  exists s,
    FraudModelStartup.load_fraud_model
      {| FraudModelStartup.model_pkl :=
           inr (Demo.constant_classifier (9 # 10));
         FraudModelStartup.encoders_pkl :=
           inl (Py.ServiceError "No such file or directory") |}
      (Demo.state_with None None)
    = (inl (Py.ServiceError "No such file or directory"), s)
    /\ FraudModel.predict_fraud_probability
         (Demo.world_at 12 Demo.mock_detection)
         (Demo.transaction 200 (Some "Desktop")) s
       = (inr (1 # 2)%Q, s).
Proof.
  destruct (partial_load_falls_back
              {| FraudModelStartup.model_pkl :=
                   inr (Demo.constant_classifier (9 # 10));
                 FraudModelStartup.encoders_pkl :=
                   inl (Py.ServiceError "No such file or directory") |}
              (Demo.state_with None None)
              (Py.ServiceError "No such file or directory")
              eq_refl eq_refl) as (_ & Hpartial).
  destruct (Hpartial (Demo.constant_classifier (9 # 10)) eq_refl)
    as (s & Hload & _ & _ & Hp).
  exists s. split; [exact Hload|]. apply Hp.
Defined.

(* ===================================================================== *)
(** ** The evidence package *)
(* ===================================================================== *)

(** A filter with a stronger test keeps fewer entries. *)
Lemma filter_length_implies {A} (f g : A -> bool) (l : list A) :
  (forall x, f x = true -> g x = true) ->
  (length (List.filter f l) <= length (List.filter g l))%nat.
Proof.
  intros Himp. induction l as [|x l IH]; [reflexivity|].
  simpl. destruct (f x) eqn:Hf.
  - rewrite (Himp x Hf). simpl. lia.
  - destruct (g x); simpl; lia.
Qed.

(** [xs[-5:]] is the end of [xs], of length [min(5, len(xs))]. *)
Lemma last5_suffix {A} (xs : list A) :
  exists older,
    xs = older ++ EvidenceCollectorAgent.last5 xs
    /\ length (EvidenceCollectorAgent.last5 xs) = Nat.min 5 (length xs).
Proof.
  unfold EvidenceCollectorAgent.last5.
  exists (firstn (length xs - 5) xs). split.
  - symmetry. apply firstn_skipn.
  - rewrite length_skipn. lia.
Qed.

(** X11.  The evidence package of every run.  The history count is the
    length of the history, and the 24-hour count lies between 0 and it,
    counting no entry without a timestamp.  The timeline ends with the
    current transaction and before it holds the last entries of the
    history, in their order and at most five of them, so it never has more
    than six events. *)
Theorem evidence_timeline_shape (w : World) (tx : TransactionData)
    (s s' : State) (e : Evidence) :
  EvidenceCollectorAgent.collect_evidence w tx s = (inr e, s') ->
  let history := transaction_history w (user_id tx) 90 in
  transaction_history_count e = Z.of_nat (length history)
  /\ 0 <= recent_24h_count e <= transaction_history_count e
  /\ recent_24h_count e
     <= Z.of_nat
          (length
             (List.filter (fun t => Validation.present (h_timestamp t))
                history))
  /\ exists older latest past current,
       history = older ++ latest
       /\ length latest = Nat.min 5 (length history)
       /\ timeline e = past ++ [current]
       /\ List.map ev_time past = List.map h_timestamp latest
       /\ List.map ev_amount past
          = List.map (fun t => default 0%Q (h_transaction_amount t)) latest
       /\ Forall (fun ev => ev_current ev = false) past
       /\ ev_current current = true
       /\ ev_amount current = default 0%Q (transaction_amount tx)
       /\ (length (timeline e) <= 6)%nat.
Proof.
  unfold EvidenceCollectorAgent.collect_evidence. step.
  rewrite get_user_profile_run. step.
  intros H. injection H as <- _. cbv zeta.
  cbn [transaction_history_count recent_24h_count timeline].
  unfold Services.get_user_transaction_history.
  set (history := transaction_history w (user_id tx) 90).
  split; [reflexivity|]. split; [|split].
  - pose proof (filter_length_le
                  (fun t => EvidenceCollectorAgent.is_within_24h w
                              (h_timestamp t)) history). lia.
  - apply inj_le. apply filter_length_implies.
    intros t. unfold EvidenceCollectorAgent.is_within_24h.
    destruct (h_timestamp t); [reflexivity|discriminate].
  - destruct (last5_suffix history) as (older & Hsplit & Hlen).
    eexists older, (EvidenceCollectorAgent.last5 history), _, _.
    split; [exact Hsplit|]. split; [exact Hlen|].
    split; [reflexivity|].
    split; [now rewrite map_map|]. split; [now rewrite map_map|].
    split; [apply Forall_map, Forall_forall; reflexivity|].
    split; [reflexivity|]. split; [reflexivity|].
    rewrite length_app, length_map, Hlen. cbn [length]. lia.
Qed.

Lemma evidence_timeline_shape_witness :
  exists e s',
    EvidenceCollectorAgent.collect_evidence
      (Demo.world_at 12 Demo.mock_detection)
      (Demo.transaction 200 (Some "Desktop")) (Demo.loaded (1 # 10))
    = (inr e, s')
    /\ transaction_history_count e = 2
    /\ (length (timeline e) <= 6)%nat.
Proof.
  destruct (collect_evidence_state (Demo.world_at 12 Demo.mock_detection)
              (Demo.transaction 200 (Some "Desktop")) (Demo.loaded (1 # 10)))
    as (e & He).
  destruct (evidence_timeline_shape _ _ _ _ _ He)
    as (Hcount & _ & _ & older & latest & past & current & _ & _ & _ & _ & _
        & _ & _ & _ & Hlen).
  exists e, (started_with EvidenceCollector (Demo.loaded (1 # 10))).
  split; [exact He|]. split; [exact Hcount|exact Hlen].
Defined.

(* ===================================================================== *)
(** ** The two endpoints of [backend/app/main.py] *)
(* ===================================================================== *)

Lemma later_globals_refl (s : State) : later_globals s s.
Proof. repeat split. exists []. now rewrite app_nil_r. Qed.

Lemma later_globals_trans (s1 s2 s3 : State) :
  later_globals s1 s2 -> later_globals s2 s3 -> later_globals s1 s3.
Proof.
  intros (A1 & A2 & A3 & A4 & m1 & A5) (B1 & B2 & B3 & B4 & m2 & B5).
  unfold later_globals. rewrite B1, B2, B3, B4, B5, A5.
  repeat (split; [assumption|]). exists (m1 ++ m2). now rewrite app_assoc.
Qed.

Lemma later_globals_started (a : Agent) (s : State) :
  later_globals s (started_with a s).
Proof. repeat split. now exists [a]. Qed.

Lemma later_globals_fraud_case (fc : FraudCase) (s : State) :
  later_globals s (Services.with_fraud_case fc s).
Proof. repeat split. exists []. simpl. now rewrite app_nil_r. Qed.

(** Agents 3 to 5 keep the model globals and only add to the log. *)
Lemma synthesize_later (w : World) (tx : TransactionData) (m : MonitorResult)
    (d : option DeepfakeResult) (s s' : State) (r : OrchestratorResult) :
  Orchestrator.synthesize w tx m d s = (inr r, s') -> later_globals s s'.
Proof.
  intros Hrun.
  destruct (synthesize_inv w tx m d s s' r Hrun)
    as (e & ra & ra' & status & score & _ & _ & Hesc & _).
  eapply later_globals_trans; [apply (later_globals_started EvidenceCollector)|].
  eapply later_globals_trans; [apply (later_globals_started RiskAssessor)|].
  destruct (escalation_step_cases _ _ _ _ _ _ _ Hesc)
    as [(z & _ & _ & _ & ->) | (z & fc & _ & _ & _ & ->)].
  - apply later_globals_refl.
  - eapply later_globals_trans;
      [apply (later_globals_started EscalationHandler)|].
    apply later_globals_fraud_case.
Qed.

(** Once the model is loaded the orchestrator returns a result with a
    status among the three and a score of at most 100 that agree; the model
    stays loaded, and with a photo and a non-empty code the Deepfake
    Detector has run. *)
Lemma orchestrate_answer (w : World) (tx : TransactionData)
    (photo : option PhotoData) (code : option string) (s : State)
    (model : Classifier) :
  MODEL s = Some model ->
  exists r s' status score,
    Orchestrator.orchestrate_transaction w tx photo code s = (inr r, s')
    /\ result_status r = VStr status
    /\ result_risk_score r = VInt score
    /\ In status ["APPROVED"; "REVIEW"; "BLOCKED"]
    /\ (status = "BLOCKED" <-> 85 <= score)
    /\ (status = "REVIEW" <-> 50 <= score < 85)
    /\ (status = "APPROVED" <-> score < 50)
    /\ score <= 100
    /\ later_globals s s'
    /\ (forall ph c, photo = Some ph -> code = Some c ->
                     Py.truthy_str c = true ->
                     In DeepfakeDetector (started s')).
Proof.
  intros Hmodel.
  destruct (analyze_transaction_run w tx s model Hmodel)
    as (m & p & Hm & _).
  assert (Hsyn : forall d s0,
             exists r s' status score,
               Orchestrator.synthesize w tx m d s0 = (inr r, s')
               /\ result_status r = VStr status
               /\ result_risk_score r = VInt score
               /\ In status ["APPROVED"; "REVIEW"; "BLOCKED"]
               /\ (status = "BLOCKED" <-> 85 <= score)
               /\ (status = "REVIEW" <-> 50 <= score < 85)
               /\ (status = "APPROVED" <-> score < 50)
               /\ score <= 100
               /\ later_globals s0 s').
  { intros d s0.
    destruct (synthesize_run w tx m d s0) as (e & ra & ra' & s' & Hrun & _).
    eexists _, s', _, _. split; [exact Hrun|].
    split; [reflexivity|]. split; [reflexivity|].
    set (c := RiskAssessorAgent.composite_risk_score _ _).
    destruct (determine_status_bands c) as (H1 & H2 & H3 & H4).
    repeat (split; [assumption|]).
    split; [subst c; rewrite composite_risk_score_min; lia|].
    eapply synthesize_later, Hrun. }
  assert (Hplain :
            Orchestrator.orchestrate_transaction w tx photo code s
            = Orchestrator.synthesize w tx m None
                (started_with TransactionMonitor s) ->
            (forall ph c, photo = Some ph -> code = Some c ->
                          Py.truthy_str c = true -> False) ->
            exists r s' status score,
              Orchestrator.orchestrate_transaction w tx photo code s
              = (inr r, s')
              /\ result_status r = VStr status
              /\ result_risk_score r = VInt score
              /\ In status ["APPROVED"; "REVIEW"; "BLOCKED"]
              /\ (status = "BLOCKED" <-> 85 <= score)
              /\ (status = "REVIEW" <-> 50 <= score < 85)
              /\ (status = "APPROVED" <-> score < 50)
              /\ score <= 100
              /\ later_globals s s'
              /\ (forall ph c, photo = Some ph -> code = Some c ->
                               Py.truthy_str c = true ->
                               In DeepfakeDetector (started s'))).
  { intros -> Hno.
    destruct (Hsyn None (started_with TransactionMonitor s))
      as (r & s' & status & score & Hrun & H1 & H2 & H3 & H4 & H5 & H6 & H7
          & Hlater).
    exists r, s', status, score. repeat (split; [assumption|]). split.
    - eapply later_globals_trans;
        [apply (later_globals_started TransactionMonitor)|exact Hlater].
    - intros ph c Hp Hc Ht. destruct (Hno ph c Hp Hc Ht). }
  destruct (orchestrate_cases w tx photo code s _ m Hm)
    as [(Hnone & Heq) | (ph & c & d & -> & -> & Htruthy & Hd & Hcase)].
  - apply Hplain; [exact Heq|].
    intros ph c -> -> Ht.
    destruct Hnone as [H|[H|(c' & H & Hf)]]; try discriminate.
    injection H as <-. congruence.
  - destruct Hcase as [(Hfail & ->) | (Hpass & ->)].
    + eexists _, _, "BLOCKED", 100. split; [reflexivity|].
      split; [reflexivity|]. split; [reflexivity|].
      split; [simpl; auto|].
      split; [split; intros; [lia|reflexivity]|].
      split; [split; intros; [discriminate|lia]|].
      split; [split; intros; [discriminate|lia]|].
      split; [lia|]. split.
      * eapply later_globals_trans;
          [apply (later_globals_started TransactionMonitor)|].
        apply later_globals_started.
      * intros _ _ _ _ _. simpl. apply in_or_app. right. simpl. auto.
    + destruct (Hsyn (Some d)
                  (started_with DeepfakeDetector
                     (started_with TransactionMonitor s)))
        as (r & s' & status & score & Hrun & H1 & H2 & H3 & H4 & H5 & H6 & H7
            & Hlater).
      exists r, s', status, score. repeat (split; [assumption|]). split.
      * eapply later_globals_trans;
          [apply (later_globals_started TransactionMonitor)|].
        eapply later_globals_trans;
          [apply (later_globals_started DeepfakeDetector)|exact Hlater].
      * intros _ _ _ _ _.
        destruct Hlater as (_ & _ & _ & _ & more & ->).
        apply in_or_app. left. simpl. apply in_or_app. right. simpl. auto.
Qed.

(** [str(n)] is never the empty string. *)
Lemma str_of_int_truthy (n : Z) : Py.truthy_str (Py.str_of_int n) = true.
Proof.
  unfold Py.str_of_int, NilZero.string_of_int.
  destruct (Z.to_int n) as [d|d]; [|reflexivity].
  destruct d; reflexivity.
Qed.

(** Validation of the [dict] of a request: the required fields are there,
    so the answer depends on the amount and on the user identifier. *)
Lemma validate_request (r : Api.TransactionRequest) (tid : string) :
  Validation.validate_transaction_data (Api.dict_of r tid)
  = if Qle_bool (Api.req_transaction_amount r) 0
    then (false, Some "Invalid transaction amount")
    else if Py.gt (Api.req_transaction_amount r) 1000000
    then (false, Some "Transaction amount exceeds maximum limit")
    else if (String.length (Api.req_user_id r) =? 0)%nat
    then (false, Some "Invalid user_id")
    else (true, None).
Proof. reflexivity. Qed.

Lemma valid_request_iff (r : Api.TransactionRequest) (tid : string) :
  Validation.validate_transaction_data (Api.dict_of r tid) = (true, None)
  <-> (0 < Api.req_transaction_amount r)%Q
      /\ (Api.req_transaction_amount r <= 1000000)%Q
      /\ Api.req_user_id r <> "".
Proof.
  rewrite validate_request.
  destruct (Qle_bool (Api.req_transaction_amount r) 0) eqn:E1.
  - apply Qle_bool_iff in E1. split; [discriminate|].
    intros (H & _). exfalso. revert H. apply Qle_not_lt, E1.
  - assert (H1 : (0 < Api.req_transaction_amount r)%Q).
    { apply Qnot_le_lt. intros H. apply Qle_bool_iff in H. congruence. }
    destruct (Py.gt (Api.req_transaction_amount r) 1000000) eqn:E2.
    + apply py_gt_true in E2. split; [discriminate|].
      intros (_ & H & _). exfalso. revert E2. apply Qle_not_lt, H.
    + assert (H2 : (Api.req_transaction_amount r <= 1000000)%Q).
      { apply Qnot_lt_le. intros H. apply py_gt_true in H. congruence. }
      destruct (Api.req_user_id r) as [|a u]; simpl.
      * split; [discriminate|]. intros (_ & _ & H). now destruct H.
      * split; [|reflexivity]. intros _. split; [assumption|]. split; [assumption|discriminate].
Qed.

Lemma invalid_request_message (r : Api.TransactionRequest) (tid : string) :
  Validation.validate_transaction_data (Api.dict_of r tid) <> (true, None) ->
  exists message,
    Validation.validate_transaction_data (Api.dict_of r tid)
    = (false, Some message)
    /\ In message
         ["Invalid transaction amount";
          "Transaction amount exceeds maximum limit"; "Invalid user_id"].
Proof.
  rewrite validate_request.
  destruct (Qle_bool _ _); [simpl; eauto|].
  destruct (Py.gt _ _); [simpl; eauto 6|].
  destruct (_ =? _)%nat; [simpl; eauto 6|]. now intros [].
Qed.

(** A handler step of the pipeline never answers with the status 400 of
    its own. *)
Lemma internal_error_500 (e : Py.Exn) :
  Api.status_code (Api.internal_error e) = 500.
Proof. reflexivity. Qed.

(** X12.  [submit_transaction] answers 400 exactly for the requests that fail
    validation: an amount that is not positive, an amount above 1,000,000,
    or an empty user identifier.  Such a request is turned down with one of
    the three messages of the validation before anything else happens: the
    stores and the log of agents are left as they were. *)
Theorem invalid_submission_rejected (sv : Api.Server)
    (r : Api.TransactionRequest) (ss : Api.ServerState) :
  ((exists h ss',
      Api.submit_transaction sv r ss = (inl h, ss')
      /\ Api.status_code h = 400)
   <-> (Api.req_transaction_amount r <= 0)%Q
       \/ (1000000 < Api.req_transaction_amount r)%Q
       \/ Api.req_user_id r = "")
  /\ ((Api.req_transaction_amount r <= 0)%Q
      \/ (1000000 < Api.req_transaction_amount r)%Q
      \/ Api.req_user_id r = "" ->
      exists message,
        Api.submit_transaction sv r ss
        = (inl {| Api.status_code := 400; Api.detail := Some message |}, ss)
        /\ In message
             ["Invalid transaction amount";
              "Transaction amount exceeds maximum limit";
              "Invalid user_id"]).
Proof.
  set (invalid := (Api.req_transaction_amount r <= 0)%Q
                  \/ (1000000 < Api.req_transaction_amount r)%Q
                  \/ Api.req_user_id r = "").
  set (tid := "TXN_" +:+ Py.str_of_int (Api.randint_10000_99999 sv)).
  assert (Hinv : invalid
                 <-> Validation.validate_transaction_data (Api.dict_of r tid)
                     <> (true, None)).
  { rewrite valid_request_iff. subst invalid. split.
    - intros [H|[H|H]] (H1 & H2 & H3); [| |congruence].
      + revert H1. apply Qle_not_lt, H.
      + revert H. apply Qle_not_lt, H2.
    - intros Hnot.
      destruct (Qlt_le_dec 0 (Api.req_transaction_amount r)) as [H1|H1];
        [|auto].
      destruct (Qlt_le_dec 1000000 (Api.req_transaction_amount r))
        as [H2|H2]; [auto|].
      destruct (string_dec (Api.req_user_id r) "") as [H3|H3]; [auto|].
      destruct Hnot. auto. }
  assert (Hreject :
            invalid ->
            exists message,
              Api.submit_transaction sv r ss
              = (inl {| Api.status_code := 400;
                        Api.detail := Some message |}, ss)
              /\ In message
                   ["Invalid transaction amount";
                    "Transaction amount exceeds maximum limit";
                    "Invalid user_id"]).
  { intros H. apply Hinv in H.
    destruct (invalid_request_message r tid H) as (message & Hv & Hin).
    exists message. split; [|exact Hin].
    unfold Api.submit_transaction. fold tid. rewrite Hv. reflexivity. }
  split; [|exact Hreject]. split.
  - intros (h & ss' & Hrun & Hcode). apply Hinv. intros Hvalid.
    revert Hrun. unfold Api.submit_transaction. fold tid. rewrite Hvalid.
    cbn [negb]. unfold Api.pipeline.
    destruct (FraudModel.predict_fraud_probability _ _ _) as [[e|p] g].
    { intros H. injection H as <- _. discriminate. }
    destruct (Utils.calculate_suspicious_flag _ _ _ _)
      as [[e|[suspicious reasons]] g'].
    { intros H. injection H as <- _. discriminate. }
    destruct suspicious.
    { discriminate. }
    destruct (Orchestrator.orchestrate_transaction _ _ _ _ _)
      as [[e|result] g''].
    { intros H. injection H as <- _. discriminate. }
    unfold lift. cbn [Api.globals Api.with_globals].
    destruct (Api.final_response tid result) as [e|response].
    { intros H. injection H as <- _. discriminate. }
    discriminate.
  - intros H. destruct (Hreject H) as (message & Hrun & _).
    eexists _, _. split; [exact Hrun|reflexivity].
Qed.

(** A valid submission reaches the pre-screening. *)
Lemma submit_valid (sv : Api.Server) (r : Api.TransactionRequest)
    (ss : Api.ServerState) :
  (0 < Api.req_transaction_amount r)%Q ->
  (Api.req_transaction_amount r <= 1000000)%Q ->
  Api.req_user_id r <> "" ->
  Validation.validate_transaction_data
    (Api.dict_of r ("TXN_" +:+ Py.str_of_int (Api.randint_10000_99999 sv)))
  = (true, None).
Proof. intros H1 H2 H3. apply valid_request_iff. auto. Qed.

(** X13.  Before the model is loaded every valid submission is answered with
    the status 500, the detail naming the [RuntimeError] of the classifier
    adapter; nothing is stored and no agent starts. *)
Theorem submission_without_model (sv : Api.Server)
    (r : Api.TransactionRequest) (ss : Api.ServerState) :
  MODEL (Api.globals ss) = None ->
  (0 < Api.req_transaction_amount r)%Q ->
  (Api.req_transaction_amount r <= 1000000)%Q ->
  Api.req_user_id r <> "" ->
  Api.submit_transaction sv r ss
  = (inl {| Api.status_code := 500;
            Api.detail :=
              Some ("Internal server error: "
                      +:+ "Model not loaded. Call load_fraud_model() first.")
         |}, ss).
Proof.
  intros Hmodel H1 H2 H3. unfold Api.submit_transaction.
  rewrite (submit_valid sv r ss H1 H2 H3). cbn [negb].
  unfold Api.pipeline at 1, FraudModel.predict_fraud_probability. step.
  rewrite Hmodel. destruct ss. reflexivity.
Qed.

Lemma submission_without_model_witness :
  Api.submit_transaction
    {| Api.world := Demo.world_at 12 Demo.mock_detection;
       Api.randint_10000_99999 := 12345;
       Api.randint_100000_999999 := 482913 |}
    {| Api.req_user_id := "U1001";
       Api.req_transaction_amount := 200;
       Api.req_transaction_type := "Online";
       Api.req_merchant_category := "Retail";
       Api.req_card_type := "Credit";
       Api.req_device_type := "Desktop";
       Api.req_location := "Unknown";
       Api.req_authentication_method := "Password" |}
    {| Api.globals := Demo.state_with None None;
       Api.MOCK_TRANSACTIONS := ∅ |}
  = (inl {| Api.status_code := 500;
            Api.detail :=
              Some ("Internal server error: "
                      +:+ "Model not loaded. Call load_fraud_model() first.")
         |},
     {| Api.globals := Demo.state_with None None;
        Api.MOCK_TRANSACTIONS := ∅ |}).
Proof.
  apply submission_without_model; [reflexivity|reflexivity|discriminate|].
  discriminate.
Defined.

(** The answer built from a result of the orchestrator whose status is a
    string and whose score is an integer. *)
Lemma final_response_run (tid : string) (result : OrchestratorResult)
    (status : string) (score : Z) :
  result_status result = VStr status ->
  result_risk_score result = VInt score ->
  Api.final_response tid result
  = inr {| Api.resp_status := status;
           Api.resp_transaction_id := tid;
           Api.resp_risk_score := Some score;
           Api.resp_verification_code := None;
           Api.resp_reasons := None;
           Api.resp_result := Some result |}.
Proof. intros Hs Hr. unfold Api.final_response. now rewrite Hs, Hr. Qed.

(** The suspicion gate returns and leaves the globals as they were. *)
Lemma gate_returns (w : World) (tx : TransactionData) (p : Q) (s : State) :
  exists flag reasons,
    Utils.calculate_suspicious_flag w tx p s = (inr (flag, reasons), s)
    /\ (flag = true <-> reasons <> []).
Proof.
  unfold Utils.calculate_suspicious_flag, Utils.get_user_baseline. step.
  rewrite get_user_profile_run. step.
  eexists _, _. split; [reflexivity|]. cbv zeta.
  match goal with
  | |- (0 <? Z.of_nat (length ?l)) = true <-> _ => destruct l
  end; simpl; split; intros; try discriminate; try reflexivity; congruence.
Qed.

(** X14.  Once the model is loaded, a valid submission is always answered,
    in one of two ways decided by the suspicion gate on the probability of
    the classifier adapter.  When the gate flags it, the answer is
    VERIFICATION_REQUIRED with a verification code and the non-empty list of
    reasons; the transaction is stored as PENDING under its identifier with
    that code, and no agent has run.  Otherwise the orchestrator runs
    without photo, the answer carries its status (APPROVED, REVIEW or
    BLOCKED) and its score of at most 100, and nothing is stored as
    pending. *)
Theorem submission_outcomes (sv : Api.Server) (r : Api.TransactionRequest)
    (ss : Api.ServerState) (model : Classifier) :
  MODEL (Api.globals ss) = Some model ->
  (0 < Api.req_transaction_amount r)%Q ->
  (Api.req_transaction_amount r <= 1000000)%Q ->
  Api.req_user_id r <> "" ->
  let tid := "TXN_" +:+ Py.str_of_int (Api.randint_10000_99999 sv) in
  let tx := Api.dict_of r tid in
  exists p flag reasons response ss',
    FraudModel.predict_fraud_probability (Api.world sv) tx (Api.globals ss)
    = (inr p, Api.globals ss)
    /\ Utils.calculate_suspicious_flag (Api.world sv) tx p (Api.globals ss)
       = (inr (flag, reasons), Api.globals ss)
    /\ Api.submit_transaction sv r ss = (inr response, ss')
    /\ Api.resp_transaction_id response = tid
    /\ (flag = true ->
        Api.resp_status response = "VERIFICATION_REQUIRED"
        /\ Api.resp_verification_code response
           = Some (Py.str_of_int (Api.randint_100000_999999 sv))
        /\ Api.resp_reasons response = Some reasons
        /\ reasons <> []
        /\ Api.resp_risk_score response = None
        /\ Api.globals ss' = Api.globals ss
        /\ Api.MOCK_TRANSACTIONS ss'
           = <[tid := {| Api.pending_data := tx;
                         Api.pending_status := "PENDING";
                         Api.pending_verification_code :=
                           Py.str_of_int (Api.randint_100000_999999 sv);
                         Api.pending_flag_reasons := reasons;
                         Api.pending_created_at :=
                           now_isoformat (Api.world sv) |}]>
               (Api.MOCK_TRANSACTIONS ss))
    /\ (flag = false ->
        In (Api.resp_status response) ["APPROVED"; "REVIEW"; "BLOCKED"]
        /\ (exists score,
              Api.resp_risk_score response = Some score /\ score <= 100)
        /\ Api.resp_verification_code response = None
        /\ Api.MOCK_TRANSACTIONS ss' = Api.MOCK_TRANSACTIONS ss
        /\ exists result,
             Api.resp_result response = Some result
             /\ Orchestrator.orchestrate_transaction (Api.world sv) tx None
                  None (Api.globals ss)
                = (inr result, Api.globals ss')).
Proof.
  intros Hmodel H1 H2 H3 tid tx.
  destruct (predict_returns (Api.world sv) tx (Api.globals ss) model Hmodel)
    as (p & Hp).
  destruct (gate_returns (Api.world sv) tx p (Api.globals ss))
    as (flag & reasons & Hgate & Hflag).
  exists p, flag, reasons.
  unfold Api.submit_transaction. cbv zeta.
  rewrite (submit_valid sv r ss H1 H2 H3). fold tid. fold tx. cbn [negb].
  unfold Api.pipeline at 1. rewrite Hp.
  unfold Api.pipeline at 1. cbn [Api.globals Api.with_globals].
  rewrite Hgate. destruct flag.
  - unfold Api.save_pending_transaction. eexists _, _.
    split; [reflexivity|]. split; [reflexivity|]. split; [reflexivity|].
    split; [reflexivity|]. split; [|discriminate].
    intros _. split; [reflexivity|]. split; [reflexivity|].
    split; [reflexivity|]. split; [now apply Hflag|].
    split; [reflexivity|]. split; reflexivity.
  - destruct (orchestrate_answer (Api.world sv) tx None None (Api.globals ss)
                model Hmodel)
      as (result & s' & status & score & Hrun & Hst & Hsc & Hin & _ & _ & _
          & Hle & _).
    unfold Api.pipeline at 1. cbn [Api.globals Api.with_globals].
    rewrite Hrun. unfold Api.pipeline, lift.
    cbn [Api.globals Api.with_globals].
    rewrite (final_response_run tid result status score Hst Hsc).
    eexists _, _. split; [reflexivity|]. split; [reflexivity|].
    split; [reflexivity|]. split; [reflexivity|]. split; [discriminate|].
    intros _. split; [exact Hin|]. split; [eauto|].
    split; [reflexivity|]. split; [reflexivity|]. eauto.
Qed.

Lemma submission_outcomes_witness :
  exists response ss',
    Api.submit_transaction
      {| Api.world := Demo.world_at 12 Demo.mock_detection;
         Api.randint_10000_99999 := 12345;
         Api.randint_100000_999999 := 482913 |}
      {| Api.req_user_id := "U1001";
         Api.req_transaction_amount := 9000;
         Api.req_transaction_type := "Online";
         Api.req_merchant_category := "Retail";
         Api.req_card_type := "Credit";
         Api.req_device_type := "Desktop";
         Api.req_location := "Unknown";
         Api.req_authentication_method := "Password" |}
      {| Api.globals := Demo.loaded (1 # 10);
         Api.MOCK_TRANSACTIONS := ∅ |}
    = (inr response, ss')
    /\ Api.resp_transaction_id response = "TXN_12345"
    /\ Api.resp_status response = "VERIFICATION_REQUIRED"
    /\ Api.resp_verification_code response = Some "482913"
    /\ Api.resp_reasons response = Some ["high_value_deviation"].
Proof.
  destruct (submission_outcomes
              {| Api.world := Demo.world_at 12 Demo.mock_detection;
                 Api.randint_10000_99999 := 12345;
                 Api.randint_100000_999999 := 482913 |}
              {| Api.req_user_id := "U1001";
                 Api.req_transaction_amount := 9000;
                 Api.req_transaction_type := "Online";
                 Api.req_merchant_category := "Retail";
                 Api.req_card_type := "Credit";
                 Api.req_device_type := "Desktop";
                 Api.req_location := "Unknown";
                 Api.req_authentication_method := "Password" |}
              {| Api.globals := Demo.loaded (1 # 10);
                 Api.MOCK_TRANSACTIONS := ∅ |}
              (Demo.constant_classifier (1 # 10)) eq_refl)
    as (p & flag & reasons & response & ss' & Hp & Hgate & Hrun & Htid & Hyes
        & _); [reflexivity|discriminate|discriminate|].
  assert (Ep : p = (1 # 10)%Q).
  { vm_compute in Hp. now injection Hp as <-. }
  subst p.
  assert (Eg : flag = true /\ reasons = ["high_value_deviation"]).
  { vm_compute in Hgate. injection Hgate as <- <-. split; reflexivity. }
  destruct Eg as [-> ->].
  destruct (Hyes eq_refl) as (Hst & Hcode & Hreasons & _).
  exists response, ss'. split; [exact Hrun|]. split; [exact Htid|].
  split; [exact Hst|]. split; [exact Hcode|exact Hreasons].
Defined.

(** An answer built by [final_response] carries the identifier it was given
    and no verification code. *)
Lemma final_response_inv (tid : string) (result : OrchestratorResult)
    (response : Api.TransactionResponse) :
  Api.final_response tid result = inr response ->
  Api.resp_transaction_id response = tid
  /\ Api.resp_verification_code response = None
  /\ Api.resp_result response = Some result.
Proof.
  unfold Api.final_response.
  destruct (result_status result); try discriminate.
  destruct (result_risk_score result); try discriminate;
    intros H; injection H as <-; repeat split.
Qed.

(** Without a model the orchestrator raises. *)
Lemma orchestrate_model_needed (w : World) (tx : TransactionData)
    (photo : option PhotoData) (code : option string) (s s' : State)
    (r : OrchestratorResult) :
  Orchestrator.orchestrate_transaction w tx photo code s = (inr r, s') ->
  exists model, MODEL s = Some model.
Proof.
  destruct (MODEL s) as [model|] eqn:Hmodel; [eauto|].
  unfold Orchestrator.orchestrate_transaction,
    TransactionMonitorAgent.analyze_transaction,
    FraudModel.predict_fraud_probability.
  step. cbn [MODEL started_with]. rewrite Hmodel. discriminate.
Qed.

(** The way [verify_biometric] goes on a pending transaction whose code
    matches, with the model loaded: the orchestrator runs with the photo
    and the code, and its result is the answer. *)
Lemma verify_accepts (sv : Api.Server) (tid code : string)
    (photo : Api.UploadFile) (ss : Api.ServerState)
    (pending : Api.PendingTransaction) (model : Classifier) :
  Api.MOCK_TRANSACTIONS ss !! tid = Some pending ->
  Api.pending_verification_code pending = code ->
  MODEL (Api.globals ss) = Some model ->
  exists result response ss',
    Api.verify_biometric sv tid code photo ss = (inr response, ss')
    /\ Orchestrator.orchestrate_transaction (Api.world sv)
         (Api.pending_data pending)
         (Some {| s3_path :=
                    Api.save_uploaded_photo tid (Api.upload_content photo)
                      (Api.upload_filename photo);
                  filename := Api.upload_filename photo |})
         (Some code) (Api.globals ss)
       = (inr result, Api.globals ss')
    /\ Api.MOCK_TRANSACTIONS ss' = Api.MOCK_TRANSACTIONS ss
    /\ MODEL (Api.globals ss') = Some model
    /\ Api.resp_transaction_id response = tid
    /\ Api.resp_result response = Some result
    /\ In (Api.resp_status response) ["APPROVED"; "REVIEW"; "BLOCKED"]
    /\ (exists score,
          Api.resp_risk_score response = Some score /\ score <= 100)
    /\ (Py.truthy_str code = true ->
        In DeepfakeDetector (started (Api.globals ss'))).
Proof.
  intros Hpending Hcode Hmodel.
  destruct (orchestrate_answer (Api.world sv) (Api.pending_data pending)
              (Some {| s3_path :=
                         Api.save_uploaded_photo tid
                           (Api.upload_content photo)
                           (Api.upload_filename photo);
                       filename := Api.upload_filename photo |})
              (Some code) (Api.globals ss) model Hmodel)
    as (result & s' & status & score & Hrun & Hst & Hsc & Hin & _ & _ & _
        & Hle & Hlater & Hdetector).
  unfold Api.verify_biometric, Api.get_pending_transaction.
  rewrite Hpending, Hcode, String.eqb_refl. cbn [negb].
  unfold Api.pipeline at 1. rewrite Hrun.
  unfold Api.pipeline, lift. cbn [Api.globals Api.with_globals].
  rewrite (final_response_run tid result status score Hst Hsc).
  eexists result, _, _. split; [reflexivity|].
  cbn [Api.globals Api.MOCK_TRANSACTIONS Api.resp_transaction_id
       Api.resp_result Api.resp_status Api.resp_risk_score].
  split; [reflexivity|]. split; [reflexivity|].
  split; [destruct Hlater as (HM & _); simpl; rewrite HM; exact Hmodel|].
  split; [reflexivity|]. split; [reflexivity|]. split; [exact Hin|].
  split; [eauto|]. intros Ht. eapply Hdetector; eauto.
Qed.

(** X15.  Submission and verification fit together.  A submission that is
    answered with a verification code is the one answered
    VERIFICATION_REQUIRED, and a later [verify_biometric] with the
    identifier and the code of that answer is accepted for every photo: it
    runs the orchestrator, Deepfake Detector included, on the transaction
    that was submitted, and answers with the orchestrator's status. *)
Theorem verification_follows_submission (sv : Api.Server)
    (r : Api.TransactionRequest) (ss ss1 : Api.ServerState)
    (response : Api.TransactionResponse) (code : string) :
  Api.submit_transaction sv r ss = (inr response, ss1) ->
  Api.resp_verification_code response = Some code ->
  Api.resp_status response = "VERIFICATION_REQUIRED"
  /\ forall (sv2 : Api.Server) (photo : Api.UploadFile),
       exists result response2 ss2,
         Api.verify_biometric sv2 (Api.resp_transaction_id response) code
           photo ss1
         = (inr response2, ss2)
         /\ Orchestrator.orchestrate_transaction (Api.world sv2)
              (Api.dict_of r (Api.resp_transaction_id response))
              (Some {| s3_path :=
                         Api.save_uploaded_photo
                           (Api.resp_transaction_id response)
                           (Api.upload_content photo)
                           (Api.upload_filename photo);
                       filename := Api.upload_filename photo |})
              (Some code) (Api.globals ss1)
            = (inr result, Api.globals ss2)
         /\ Api.resp_result response2 = Some result
         /\ Api.resp_transaction_id response2
            = Api.resp_transaction_id response
         /\ In (Api.resp_status response2) ["APPROVED"; "REVIEW"; "BLOCKED"]
         /\ In DeepfakeDetector (started (Api.globals ss2)).
Proof.
  unfold Api.submit_transaction. cbv zeta.
  set (tid := "TXN_" +:+ Py.str_of_int (Api.randint_10000_99999 sv)).
  set (tx := Api.dict_of r tid).
  destruct (Validation.validate_transaction_data tx) as [[|] message];
    [|discriminate].
  cbn [negb]. unfold Api.pipeline at 1.
  pose proof (predict_fraud_probability_state (Api.world sv) tx
                (Api.globals ss)) as Hstate.
  destruct (MODEL (Api.globals ss)) as [model|] eqn:Hmodel.
  2:{ unfold FraudModel.predict_fraud_probability. step. rewrite Hmodel.
      discriminate. }
  destruct (FraudModel.predict_fraud_probability (Api.world sv) tx
              (Api.globals ss)) as [[e|p] g]; [discriminate|].
  simpl in Hstate. subst g.
  unfold Api.pipeline at 1. cbn [Api.globals Api.with_globals].
  destruct (gate_returns (Api.world sv) tx p (Api.globals ss))
    as (flag & reasons & Hgate & _).
  rewrite Hgate. destruct flag.
  - unfold Api.save_pending_transaction.
    cbn [Api.globals Api.with_globals Api.MOCK_TRANSACTIONS].
    intros H. injection H as <- <-.
    cbn [Api.resp_verification_code Api.resp_status Api.resp_transaction_id].
    intros Hcode. injection Hcode as <-. split; [reflexivity|].
    intros sv2 photo.
    set (pending := Api.Build_PendingTransaction tx _ _ _ _).
    set (s1 := Api.Build_ServerState _ _).
    destruct (verify_accepts sv2 tid
                (Py.str_of_int (Api.randint_100000_999999 sv)) photo s1
                pending model)
      as (result & response2 & ss2 & Hrun & Horch & _ & _ & Htid & Hres & Hin
          & _ & Hdetector).
    { apply lookup_insert_eq. }
    { reflexivity. }
    { exact Hmodel. }
    exists result, response2, ss2. split; [exact Hrun|].
    split; [exact Horch|]. split; [exact Hres|]. split; [exact Htid|].
    split; [exact Hin|]. apply Hdetector, str_of_int_truthy.
  - unfold Api.pipeline at 1. cbn [Api.globals Api.with_globals].
    destruct (Orchestrator.orchestrate_transaction _ _ _ _ _)
      as [[e|result] g]; [discriminate|].
    unfold Api.pipeline, lift. cbn [Api.globals Api.with_globals].
    destruct (Api.final_response tid result) as [e|response0] eqn:Hfinal;
      [discriminate|].
    intros H. injection H as <- <-.
    destruct (final_response_inv tid result response0 Hfinal)
      as (_ & Hnone & _).
    rewrite Hnone. discriminate.
Qed.

Lemma verification_follows_submission_witness :
  exists response ss1 response2 ss2,
    Api.submit_transaction
      {| Api.world := Demo.world_at 12 Demo.mock_detection;
         Api.randint_10000_99999 := 12345;
         Api.randint_100000_999999 := 482913 |}
      {| Api.req_user_id := "U1001";
         Api.req_transaction_amount := 9000;
         Api.req_transaction_type := "Online";
         Api.req_merchant_category := "Retail";
         Api.req_card_type := "Credit";
         Api.req_device_type := "Desktop";
         Api.req_location := "Unknown";
         Api.req_authentication_method := "Password" |}
      {| Api.globals := Demo.loaded (1 # 10);
         Api.MOCK_TRANSACTIONS := ∅ |}
    = (inr response, ss1)
    /\ Api.resp_status response = "VERIFICATION_REQUIRED"
    /\ Api.verify_biometric
         {| Api.world := Demo.world_at 13 Demo.mock_detection;
            Api.randint_10000_99999 := 54321;
            Api.randint_100000_999999 := 111111 |}
         "TXN_12345" "482913"
         {| Api.upload_filename := "selfie.jpg";
            Api.upload_content := "JFIF" |}
         ss1
       = (inr response2, ss2)
    /\ In DeepfakeDetector (started (Api.globals ss2)).
Proof.
  assert (Hrun : exists response ss1,
             Api.submit_transaction
               {| Api.world := Demo.world_at 12 Demo.mock_detection;
                  Api.randint_10000_99999 := 12345;
                  Api.randint_100000_999999 := 482913 |}
               {| Api.req_user_id := "U1001";
                  Api.req_transaction_amount := 9000;
                  Api.req_transaction_type := "Online";
                  Api.req_merchant_category := "Retail";
                  Api.req_card_type := "Credit";
                  Api.req_device_type := "Desktop";
                  Api.req_location := "Unknown";
                  Api.req_authentication_method := "Password" |}
               {| Api.globals := Demo.loaded (1 # 10);
                  Api.MOCK_TRANSACTIONS := ∅ |}
             = (inr response, ss1)
             /\ Api.resp_verification_code response = Some "482913"
             /\ Api.resp_transaction_id response = "TXN_12345")
    by (vm_compute; eexists _, _; split; [reflexivity|split; reflexivity]).
  destruct Hrun as (response & ss1 & Hrun & Hcode & Htid).
  destruct (verification_follows_submission _ _ _ _ _ _ Hrun Hcode)
    as (Hstatus & Hverify).
  destruct (Hverify
              {| Api.world := Demo.world_at 13 Demo.mock_detection;
                 Api.randint_10000_99999 := 54321;
                 Api.randint_100000_999999 := 111111 |}
              {| Api.upload_filename := "selfie.jpg";
                 Api.upload_content := "JFIF" |})
    as (result & response2 & ss2 & Hrun2 & _ & _ & _ & _ & Hdetector).
  rewrite Htid in Hrun2.
  exists response, ss1, response2, ss2. auto.
Defined.

(** X16.  The two refusals of [verify_biometric].  It answers 404 exactly
    when no pending transaction is stored under the identifier, and 400
    exactly when one is stored with a different code.  Either refusal
    leaves the stores and the log of agents as they were: the orchestrator
    is not run. *)
Theorem verification_refusals (sv : Api.Server) (tid code : string)
    (photo : Api.UploadFile) (ss : Api.ServerState) :
  ((exists h ss',
      Api.verify_biometric sv tid code photo ss = (inl h, ss')
      /\ Api.status_code h = 404)
   <-> Api.MOCK_TRANSACTIONS ss !! tid = None)
  /\ ((exists h ss',
         Api.verify_biometric sv tid code photo ss = (inl h, ss')
         /\ Api.status_code h = 400)
      <-> exists pending,
            Api.MOCK_TRANSACTIONS ss !! tid = Some pending
            /\ Api.pending_verification_code pending <> code)
  /\ (forall h ss',
        Api.verify_biometric sv tid code photo ss = (inl h, ss') ->
        Api.status_code h = 404 \/ Api.status_code h = 400 ->
        ss' = ss
        /\ (Api.status_code h = 404 ->
            Api.detail h
            = Some ("Transaction " +:+ tid
                      +:+ " not found or already processed"))
        /\ (Api.status_code h = 400 ->
            Api.detail h = Some "Invalid verification code")).
Proof.
  assert (Hrun : forall pending,
             Api.MOCK_TRANSACTIONS ss !! tid = Some pending ->
             Api.pending_verification_code pending = code ->
             forall h ss',
               Api.verify_biometric sv tid code photo ss = (inl h, ss') ->
               Api.status_code h = 500).
  { intros pending Hp Hc h ss'.
    unfold Api.verify_biometric, Api.get_pending_transaction.
    rewrite Hp, Hc, String.eqb_refl. cbn [negb]. unfold Api.pipeline at 1.
    destruct (Orchestrator.orchestrate_transaction _ _ _ _ _)
      as [[e|result] g].
    { intros H. now injection H as <- _. }
    unfold Api.pipeline, lift. cbn [Api.globals Api.with_globals].
    destruct (Api.final_response tid result) as [e|response].
    { intros H. now injection H as <- _. }
    discriminate. }
  destruct (Api.MOCK_TRANSACTIONS ss !! tid) as [pending|] eqn:Hp.
  - destruct (String.eqb (Api.pending_verification_code pending) code)
      eqn:Hc.
    + apply String.eqb_eq in Hc. specialize (Hrun pending eq_refl Hc).
      split; [|split].
      * split; [|discriminate]. intros (h & ss' & H & H404).
        rewrite (Hrun h ss' H) in H404. discriminate.
      * split.
        -- intros (h & ss' & H & H400).
           rewrite (Hrun h ss' H) in H400. discriminate.
        -- intros (pending' & H & Hne). injection H as <-. congruence.
      * intros h ss' H [Hs|Hs]; rewrite (Hrun h ss' H) in Hs; discriminate.
    + assert (Hrefused :
                Api.verify_biometric sv tid code photo ss
                = (inl {| Api.status_code := 400;
                          Api.detail := Some "Invalid verification code" |},
                   ss)).
      { unfold Api.verify_biometric, Api.get_pending_transaction.
        now rewrite Hp, Hc. }
      apply String.eqb_neq in Hc. rewrite Hrefused. split; [|split].
      * split; [|discriminate]. intros (h & ss' & H & H404).
        injection H as <- _. discriminate.
      * split; [eauto|]. intros _. eexists _, _. split; reflexivity.
      * intros h ss' H _. injection H as <- <-.
        split; [reflexivity|]. split; [discriminate|reflexivity].
  - assert (Hrefused :
              Api.verify_biometric sv tid code photo ss
              = (inl {| Api.status_code := 404;
                        Api.detail :=
                          Some ("Transaction " +:+ tid
                                  +:+ " not found or already processed") |},
                 ss)).
    { unfold Api.verify_biometric, Api.get_pending_transaction.
      now rewrite Hp. }
    rewrite Hrefused. split; [|split].
    + split; [reflexivity|]. intros _. eexists _, _. split; reflexivity.
    + split.
      * intros (h & ss' & H & H400). injection H as <- _. discriminate.
      * intros (pending & H & _). discriminate.
    + intros h ss' H _. injection H as <- <-.
      split; [reflexivity|]. split; [reflexivity|discriminate].
Qed.

(** X17.  [verify_biometric] never removes or marks the pending transaction
    that it has processed.  After a verification that was answered, the
    store of pending transactions is what it was, so the same identifier
    and code are accepted again, with any photo, and the orchestrator runs
    once more. *)
Theorem verification_can_be_repeated (sv : Api.Server) (tid code : string)
    (photo : Api.UploadFile) (ss ss' : Api.ServerState)
    (response : Api.TransactionResponse) :
  Api.verify_biometric sv tid code photo ss = (inr response, ss') ->
  Api.MOCK_TRANSACTIONS ss' = Api.MOCK_TRANSACTIONS ss
  /\ forall (sv2 : Api.Server) (photo2 : Api.UploadFile),
       exists response2 ss2,
         Api.verify_biometric sv2 tid code photo2 ss' = (inr response2, ss2)
         /\ Api.MOCK_TRANSACTIONS ss2 = Api.MOCK_TRANSACTIONS ss.
Proof.
  intros Hrun.
  assert (Hpending : exists pending,
             Api.MOCK_TRANSACTIONS ss !! tid = Some pending
             /\ Api.pending_verification_code pending = code
             /\ exists result g,
                  Orchestrator.orchestrate_transaction (Api.world sv)
                    (Api.pending_data pending)
                    (Some {| s3_path :=
                               Api.save_uploaded_photo tid
                                 (Api.upload_content photo)
                                 (Api.upload_filename photo);
                             filename := Api.upload_filename photo |})
                    (Some code) (Api.globals ss)
                  = (inr result, g)).
  { revert Hrun. unfold Api.verify_biometric, Api.get_pending_transaction.
    destruct (Api.MOCK_TRANSACTIONS ss !! tid) as [pending|];
      [|discriminate].
    destruct (String.eqb (Api.pending_verification_code pending) code)
      eqn:Hc; [|discriminate].
    apply String.eqb_eq in Hc. cbn [negb]. unfold Api.pipeline at 1.
    destruct (Orchestrator.orchestrate_transaction _ _ _ _ _)
      as [[e|result] g] eqn:Horch; [discriminate|].
    intros _. exists pending. eauto. }
  destruct Hpending as (pending & Hp & Hc & result & g & Horch).
  destruct (orchestrate_model_needed _ _ _ _ _ _ _ Horch)
    as (model & Hmodel).
  destruct (verify_accepts sv tid code photo ss pending model Hp Hc Hmodel)
    as (result1 & response1 & ss1 & Hrun1 & _ & Hstore & Hmodel1 & _).
  rewrite Hrun in Hrun1. injection Hrun1 as <- <-.
  split; [exact Hstore|]. intros sv2 photo2.
  destruct (verify_accepts sv2 tid code photo2 ss' pending model)
    as (result2 & response2 & ss2 & Hrun2 & _ & Hstore2 & _);
    [now rewrite Hstore|assumption..|].
  exists response2, ss2. split; [exact Hrun2|]. now rewrite Hstore2.
Qed.

Lemma verification_can_be_repeated_witness :
  exists response ss' response2 ss2,
    Api.verify_biometric
      {| Api.world := Demo.world_at 13 Demo.mock_detection;
         Api.randint_10000_99999 := 54321;
         Api.randint_100000_999999 := 111111 |}
      "TXN_12345" "482913"
      {| Api.upload_filename := "selfie.jpg"; Api.upload_content := "JFIF" |}
      {| Api.globals := Demo.loaded (1 # 10);
         Api.MOCK_TRANSACTIONS :=
           {["TXN_12345" :=
               {| Api.pending_data :=
                    Demo.transaction 9000 (Some "Desktop");
                  Api.pending_status := "PENDING";
                  Api.pending_verification_code := "482913";
                  Api.pending_flag_reasons := ["high_value_deviation"];
                  Api.pending_created_at := "2023-11-14T12:00:00" |}]} |}
    = (inr response, ss')
    /\ Api.verify_biometric
         {| Api.world := Demo.world_at 14 Demo.deepfake_detection;
            Api.randint_10000_99999 := 54321;
            Api.randint_100000_999999 := 111111 |}
         "TXN_12345" "482913"
         {| Api.upload_filename := "other.jpg"; Api.upload_content := "" |}
         ss'
       = (inr response2, ss2).
Proof.
  assert (Hrun : exists response ss',
             Api.verify_biometric
               {| Api.world := Demo.world_at 13 Demo.mock_detection;
                  Api.randint_10000_99999 := 54321;
                  Api.randint_100000_999999 := 111111 |}
               "TXN_12345" "482913"
               {| Api.upload_filename := "selfie.jpg";
                  Api.upload_content := "JFIF" |}
               {| Api.globals := Demo.loaded (1 # 10);
                  Api.MOCK_TRANSACTIONS :=
                    {["TXN_12345" :=
                        {| Api.pending_data :=
                             Demo.transaction 9000 (Some "Desktop");
                           Api.pending_status := "PENDING";
                           Api.pending_verification_code := "482913";
                           Api.pending_flag_reasons :=
                             ["high_value_deviation"];
                           Api.pending_created_at :=
                             "2023-11-14T12:00:00" |}]} |}
             = (inr response, ss'))
    by (vm_compute; eexists _, _; reflexivity).
  destruct Hrun as (response & ss' & Hrun).
  destruct (verification_can_be_repeated _ _ _ _ _ _ _ Hrun)
    as (_ & Hagain).
  destruct (Hagain
              {| Api.world := Demo.world_at 14 Demo.deepfake_detection;
                 Api.randint_10000_99999 := 54321;
                 Api.randint_100000_999999 := 111111 |}
              {| Api.upload_filename := "other.jpg";
                 Api.upload_content := "" |})
    as (response2 & ss2 & Hrun2 & _).
  exists response, ss', response2, ss2. auto.
Defined.

(* ===================================================================== *)
(** ** The structured verification analysis *)
(* ===================================================================== *)

(** X18.  In every analysis that [parse_deepfake_result] returns, the
    authenticity flag and the list of risk factors agree on the identity
    checks: the result is authentic exactly when the service reported
    VERIFIED and none of the factors face mismatch, potential deepfake and
    failed liveness is listed.  The factors on the picture (low quality,
    eyes not visible, sunglasses) do not bear on the flag.  There are never
    more than six factors, and an empty list means that the three identity
    checks passed. *)
Theorem authenticity_agrees_with_risk_factors
    (r : DeepfakeTools.ApiResponse) :
  (DeepfakeTools.is_authentic (DeepfakeTools.parse_deepfake_result r) = true
   <-> DeepfakeTools.out_verification_result
         (DeepfakeTools.parse_deepfake_result r) = "VERIFIED"
       /\ forallb (fun f => negb (RiskFactors.identity_check f))
            (DeepfakeTools.risk_factors (DeepfakeTools.parse_deepfake_result r))
          = true)
  /\ (length
        (DeepfakeTools.risk_factors (DeepfakeTools.parse_deepfake_result r))
      <= 6)%nat
  /\ (DeepfakeTools.risk_factors (DeepfakeTools.parse_deepfake_result r) = []
      -> DeepfakeTools.face_matched (DeepfakeTools.parse_deepfake_result r)
         = true
         /\ DeepfakeTools.detection_is_real
              (DeepfakeTools.parse_deepfake_result r) = true
         /\ DeepfakeTools.liveness_is_live
              (DeepfakeTools.parse_deepfake_result r) = true).
Proof.
  unfold DeepfakeTools.parse_deepfake_result. cbv zeta.
  cbn [DeepfakeTools.is_authentic DeepfakeTools.out_verification_result
       DeepfakeTools.risk_factors DeepfakeTools.face_matched
       DeepfakeTools.detection_is_real DeepfakeTools.liveness_is_live].
  generalize (default "UNKNOWN" (DeepfakeTools.verification_result r)).
  generalize (default false
                (DeepfakeTools.fc_match
                   (default DeepfakeTools.no_face
                      (DeepfakeTools.face_comparison r)))).
  generalize (default 0%Q
                (DeepfakeTools.fc_similarity
                   (default DeepfakeTools.no_face
                      (DeepfakeTools.face_comparison r)))).
  generalize (default DeepfakeTools.no_quality
                (DeepfakeTools.quality_check r)).
  generalize (default DeepfakeTools.no_liveness
                (DeepfakeTools.liveness_check r)).
  intros liveness quality similarity matched result.
  generalize (default false (DeepfakeTools.qc_is_real quality)).
  generalize (Py.lt (default 100%Q (DeepfakeTools.qc_quality_score quality))
                70).
  generalize (default false (DeepfakeTools.lc_is_live liveness)).
  generalize (default DeepfakeTools.no_checks
                (DeepfakeTools.lc_checks liveness)).
  intros checks live low real.
  generalize (default false (DeepfakeTools.eyes_open checks)).
  intros eyes.
  destruct (String.eqb_spec result "VERIFIED") as [Hv|Hv];
    destruct (DeepfakeTools.no_sunglasses checks) as [[|]|];
    destruct matched, real, live, low, eyes; cbn;
    intuition (try congruence; try lia).
Qed.

(** Rounding to the nearest integer stays between integer bounds. *)
Lemma round_half_even_between (x : Q) (a b : Z) :
  (inject_Z a <= x)%Q -> (x <= inject_Z b)%Q ->
  a <= Py.round_half_even x <= b.
Proof.
  intros Ha Hb.
  pose proof (Qfloor_le x) as Hlo.
  pose proof (Qlt_floor x) as Hhi.
  rewrite inject_Z_plus in Hhi. change (inject_Z 1) with 1%Q in Hhi.
  assert (Hfa : a <= Qfloor x).
  { rewrite <- (Qfloor_Z a). now apply Qfloor_resp_le. }
  assert (Hfb : Qfloor x <= b).
  { rewrite <- (Qfloor_Z b). now apply Qfloor_resp_le. }
  assert (Hup : ~ (x - inject_Z (Qfloor x) < 1 # 2)%Q -> Qfloor x + 1 <= b).
  { intros Hr. apply Qnot_lt_le in Hr.
    destruct (Z.eq_dec (Qfloor x) b) as [E|E]; [|lia].
    exfalso. rewrite E in Hr. lra. }
  unfold Py.round_half_even.
  destruct (Py.lt (x - inject_Z (Qfloor x)) (1 # 2)) eqn:E1; [lia|].
  assert (H1 : ~ (x - inject_Z (Qfloor x) < 1 # 2)%Q)
    by (intros H; apply py_lt_true in H; congruence).
  specialize (Hup H1).
  destruct (Py.lt (1 # 2) (x - inject_Z (Qfloor x))); [lia|].
  destruct (Z.even (Qfloor x)); lia.
Qed.

(** X19.  When the three confidences reported by the verification service
    are percentages, so is the overall confidence of the analysis: the mean
    of three values between 0 and 100, rounded to two decimals, lies between
    0 and 100.  A confidence that is absent counts as 0. *)
Theorem overall_confidence_is_percentage (r : DeepfakeTools.ApiResponse) :
  (0 <= VerifierRules.face_confidence r <= 100)%Q ->
  (0 <= VerifierRules.quality_confidence r <= 100)%Q ->
  (0 <= VerifierRules.liveness_confidence r <= 100)%Q ->
  (0 <= DeepfakeTools.overall_confidence
          (DeepfakeTools.parse_deepfake_result r) <= 100)%Q.
Proof.
  intros H1 H2 H3. rewrite overall_confidence_value.
  unfold Py.round2.
  destruct (round_half_even_between
              (VerifierRules.mean_confidence r * 100) 0 10000) as [Hlo Hhi].
  - unfold VerifierRules.mean_confidence. change (inject_Z 0) with 0%Q.
    unfold Qdiv. change (/ 3)%Q with (1 # 3)%Q. lra.
  - unfold VerifierRules.mean_confidence. change (inject_Z 10000) with 10000%Q.
    unfold Qdiv. change (/ 3)%Q with (1 # 3)%Q. lra.
  - rewrite Zle_Qle in Hlo, Hhi.
    change (inject_Z 0) with 0%Q in Hlo.
    change (inject_Z 10000) with 10000%Q in Hhi.
    unfold Qdiv. change (/ 100)%Q with (1 # 100)%Q. lra.
Qed.

Lemma overall_confidence_is_percentage_witness :
  (0 <= DeepfakeTools.overall_confidence
          (DeepfakeTools.parse_deepfake_result
             (Demo.verified_response 100 100 99)) <= 100)%Q.
Proof.
  apply (overall_confidence_is_percentage (Demo.verified_response 100 100 99));
    split; discriminate.
Defined.

(* ===================================================================== *)
(** ** The Nova-based synthesizer: metadata and pass-through *)
(* ===================================================================== *)

(** X20.  Every call of the Nova-based [assess_risk] returns an assessment
    that names the agent and carries the current time, whatever the
    collaborators do and whatever keys the answer of the service holds.
    When the answer parses to a JSON object (and the biometric result is
    absent or an object), all its other keys are handed on as they are: the
    verdict is not checked against the three verdicts of the prompt and may
    be missing.  When the answer parses to JSON that is not an object, the
    result is the error assessment: REVIEW with confidence 0. *)
Theorem nova_assessment_metadata (c : NovaRiskAssessor.Collaborators)
    (tx fr er dr : Json) :
  exists a,
    NovaRiskAssessor.assess_risk c tx fr er dr = inr a
    /\ a !! "agent" = Some (JStr "risk_assessor")
    /\ a !! "timestamp" = Some (JStr (NovaRiskAssessor.isoformat_now c))
    /\ (forall prompt response answer,
          NovaRiskAssessor.build_risk_assessment_prompt c tx fr er dr
          = inr prompt ->
          NovaRiskAssessor.call_nova c prompt 1500 (3 # 10)%Q
          = inr response ->
          NovaRiskAssessor.json_loads c response = inr answer ->
          match answer with
          | JObj fields =>
              (dr = JNull \/ exists o, dr = JObj o) ->
              is_Some (a !! "agents_analyzed")
              /\ forall k, k <> "agent" -> k <> "timestamp" ->
                           k <> "agents_analyzed" ->
                           a !! k = fields !! k
          | _ =>
              a !! "final_verdict" = Some (JStr "REVIEW")
              /\ a !! "confidence_score" = Some (JNum 0)
              /\ is_Some (a !! "error")
          end).
Proof.
  unfold NovaRiskAssessor.assess_risk, NovaRiskAssessor.assess_risk_body.
  destruct (NovaRiskAssessor.build_risk_assessment_prompt c tx fr er dr)
    as [e|prompt].
  { eexists. split; [reflexivity|]. split; [reflexivity|].
    split; [reflexivity|]. discriminate. }
  destruct (NovaRiskAssessor.call_nova c prompt 1500 (3 # 10)%Q)
    as [e|response] eqn:Hcall.
  { eexists. split; [reflexivity|]. split; [reflexivity|].
    split; [reflexivity|]. intros p r0 a0 Hp H. injection Hp as <-.
    rewrite Hcall in H. discriminate. }
  assert (Herr : forall e,
             NovaRiskAssessor.error_assessment c e !! "agent"
             = Some (JStr "risk_assessor")
             /\ NovaRiskAssessor.error_assessment c e !! "timestamp"
                = Some (JStr (NovaRiskAssessor.isoformat_now c))
             /\ NovaRiskAssessor.error_assessment c e !! "final_verdict"
                = Some (JStr "REVIEW")
             /\ NovaRiskAssessor.error_assessment c e !! "confidence_score"
                = Some (JNum 0)
             /\ is_Some (NovaRiskAssessor.error_assessment c e !! "error")).
  { intros e. repeat split. eexists. reflexivity. }
  assert (Hobj : forall fields,
             exists a,
               match
                 match NovaRiskAssessor.biometric_verified dr with
                 | inl e => inl e
                 | inr verified =>
                     inr (<["agents_analyzed" :=
                             JObj (list_to_map
                                     [("fraud_detection", JBool true);
                                      ("evidence_collection", JBool true);
                                      ("biometric_verification",
                                         JBool verified)])]>
                            (<["timestamp" :=
                                JStr (NovaRiskAssessor.isoformat_now c)]>
                               (<["agent" := JStr "risk_assessor"]> fields)))
                 end
               with
               | inr assessment => inr assessment
               | inl e => inr (NovaRiskAssessor.error_assessment c e)
               end = inr (B := gmap string Json) (A := Py.Exn) a
               /\ a !! "agent" = Some (JStr "risk_assessor")
               /\ a !! "timestamp"
                  = Some (JStr (NovaRiskAssessor.isoformat_now c))
               /\ ((dr = JNull \/ exists o, dr = JObj o) ->
                   is_Some (a !! "agents_analyzed")
                   /\ forall k, k <> "agent" -> k <> "timestamp" ->
                                k <> "agents_analyzed" ->
                                a !! k = fields !! k)).
  { intros fields.
    destruct (NovaRiskAssessor.biometric_verified dr) as [e|verified] eqn:Hb.
    - destruct (Herr e) as (H1 & H2 & _).
      eexists. split; [reflexivity|]. split; [exact H1|].
      split; [exact H2|]. intros [->|[o ->]]; discriminate.
    - eexists. split; [reflexivity|].
      split; [now rewrite lookup_insert_ne, lookup_insert_ne,
                lookup_insert_eq by done|].
      split; [now rewrite lookup_insert_ne, lookup_insert_eq by done|].
      intros _. split; [rewrite lookup_insert_eq; eauto|].
      intros k K1 K2 K3. now rewrite !lookup_insert_ne by done. }
  destruct (NovaRiskAssessor.json_loads c response) as [e|answer] eqn:Hloads.
  - destruct e;
      try (eexists; split; [reflexivity|]; split; [reflexivity|];
           split; [reflexivity|]; intros p r0 a0 Hp Hr H;
           injection Hp as <-; rewrite Hcall in Hr; injection Hr as <-;
           rewrite Hloads in H; discriminate).
    destruct (Hobj (NovaRiskAssessor.parse_fallback response))
      as (a & Ha & H1 & H2 & _).
    exists a. split; [exact Ha|]. split; [exact H1|]. split; [exact H2|].
    intros p r0 a0 Hp Hr H. injection Hp as <-. rewrite Hcall in Hr.
    injection Hr as <-. rewrite Hloads in H. discriminate.
  - destruct answer as [|b|q|t|items|fields];
      try (eexists; split; [reflexivity|]; split; [reflexivity|];
           split; [reflexivity|];
           intros p r0 a0 Hp Hr H; injection Hp as <-;
           rewrite Hcall in Hr; injection Hr as <-;
           rewrite Hloads in H; injection H as <-;
           repeat split; eexists; reflexivity).
    destruct (Hobj fields) as (a & Ha & H1 & H2 & H3).
    exists a. split; [exact Ha|]. split; [exact H1|]. split; [exact H2|].
    intros p r0 a0 Hp Hr H. injection Hp as <-. rewrite Hcall in Hr.
    injection Hr as <-. rewrite Hloads in H. injection H as <-. exact H3.
Qed.

(* ===================================================================== *)
(** ** The Nova-based transaction monitor *)
(* ===================================================================== *)

(** X21.  The Nova-based [analyze_transaction].  Its final score is the
    fraud score of the classifier whatever the service answers: the answer
    decides the verdict only.  The verdict is REVIEW when the answer is not
    JSON (the answer is then kept as the reasoning) and when it is an
    object without a verdict; a verdict that is present is taken as it is.
    Unlike the risk synthesizer, the monitor has no fallback for failures:
    an exception of the classifier adapter or of the Nova client leaves
    [analyze_transaction] as it was raised. *)
Theorem nova_monitor_verdict (c : NovaTransactionMonitor.Collaborators)
    (tx : gmap string Json) :
  (forall e, NovaTransactionMonitor.predict_fraud c tx = inl e ->
             NovaTransactionMonitor.analyze_transaction c tx = inl e)
  /\ (forall ml,
        NovaTransactionMonitor.predict_fraud c tx = inr ml ->
        (forall e,
           NovaTransactionMonitor.call_nova c
             (NovaTransactionMonitor.build_fraud_analysis_prompt c tx ml)
             800 (3 # 10)%Q = inl e ->
           NovaTransactionMonitor.analyze_transaction c tx = inl e)
        /\ (forall response,
              NovaTransactionMonitor.call_nova c
                (NovaTransactionMonitor.build_fraud_analysis_prompt c tx ml)
                800 (3 # 10)%Q = inr response ->
              (NovaTransactionMonitor.json_loads c response
               = inl Py.JSONDecodeError ->
               exists a,
                 NovaTransactionMonitor.analyze_transaction c tx = inr a
                 /\ NovaTransactionMonitor.final_verdict a = JStr "REVIEW"
                 /\ NovaTransactionMonitor.nova_analysis a
                    = JObj (NovaTransactionMonitor.parse_fallback response)
                 /\ NovaTransactionMonitor.parse_fallback response
                      !! "reasoning" = Some (JStr response))
              /\ (forall fields,
                    NovaTransactionMonitor.json_loads c response
                    = inr (JObj fields) ->
                    exists a,
                      NovaTransactionMonitor.analyze_transaction c tx = inr a
                      /\ NovaTransactionMonitor.final_verdict a
                         = default (JStr "REVIEW") (fields !! "verdict")))
        /\ (forall a,
              NovaTransactionMonitor.analyze_transaction c tx = inr a ->
              NovaTransactionMonitor.final_score a
              = NovaTransactionMonitor.ml_fraud_score ml
              /\ NovaTransactionMonitor.ml_prediction a = ml
              /\ NovaTransactionMonitor.out_transaction_id a
                 = tx !! "transaction_id")).
Proof.
  unfold NovaTransactionMonitor.analyze_transaction. split.
  - intros e ->. reflexivity.
  - intros ml ->. cbv zeta. split; [|split].
    + intros e ->. reflexivity.
    + intros response ->. split.
      * intros ->. eexists. split; [reflexivity|]. repeat split.
      * intros fields ->. eexists. split; reflexivity.
    + destruct (NovaTransactionMonitor.call_nova c _ 800 (3 # 10)%Q)
        as [e|response]; [discriminate|].
      destruct (NovaTransactionMonitor.json_loads c response) as [e|answer].
      * destruct e; try discriminate.
        intros a H. injection H as <-. repeat split.
      * destruct answer; try discriminate.
        intros a H. injection H as <-. repeat split.
Qed.

(* ===================================================================== *)
(** ** Recommendation of the monitor and final status *)
(* ===================================================================== *)

(** The recommendation of the Transaction Monitor follows its score. *)
Lemma monitor_recommendation (w : World) (tx : TransactionData)
    (s s1 : State) (m : MonitorResult) :
  TransactionMonitorAgent.analyze_transaction w tx s = (inr m, s1) ->
  recommendation m
  = if 85 <=? risk_score m then "BLOCK"
    else if 60 <=? risk_score m then "REVIEW"
    else "APPROVE".
Proof.
  unfold TransactionMonitorAgent.analyze_transaction. step.
  destruct (FraudModel.predict_fraud_probability w tx _) as [[e|p] s2];
    [discriminate|].
  intros H. injection H as <- _. reflexivity.
Qed.

(** The adjustments never lower the score. *)
Lemma composite_at_least_base (base : Z) (d : option DeepfakeResult)
    (patterns : list string) :
  Z.min base 100
  <= RiskAssessorAgent.composite_risk_score base
       (RiskAssessorAgent.risk_adjustments d patterns).
Proof.
  rewrite composite_risk_score_min, risk_adjustments_total.
  pose proof (chained_total_bounds d patterns). lia.
Qed.

(** X22.  The final decision is never more lenient than the recommendation
    of the Transaction Monitor.  In every run of the orchestrator the final
    score is at least the monitor's score (capped at 100), because every
    adjustment is an addition; so a recommendation BLOCK always ends in the
    status BLOCKED, and a recommendation REVIEW never ends in APPROVED. *)
Theorem decision_not_more_lenient (w : World) (tx : TransactionData)
    (photo : option PhotoData) (code : option string) (s s' : State)
    (r : OrchestratorResult) :
  Orchestrator.orchestrate_transaction w tx photo code s = (inr r, s') ->
  exists m score,
    TransactionMonitorAgent.analyze_transaction w tx s
    = (inr m, started_with TransactionMonitor s)
    /\ result_risk_score r = VInt score
    /\ Z.min (risk_score m) 100 <= score
    /\ (recommendation m = "BLOCK" -> result_status r = VStr "BLOCKED")
    /\ (recommendation m = "REVIEW" ->
        result_status r = VStr "REVIEW"
        \/ result_status r = VStr "BLOCKED").
Proof.
  intros Hrun.
  destruct (orchestrate_monitor_returned w tx photo code s s' r Hrun)
    as (m & Hm).
  pose proof (monitor_recommendation w tx s _ m Hm) as Hrec.
  assert (Hsyn : forall d s0,
             Orchestrator.synthesize w tx m d s0 = (inr r, s') ->
             exists score,
               result_risk_score r = VInt score
               /\ Z.min (risk_score m) 100 <= score
               /\ (recommendation m = "BLOCK" ->
                   result_status r = VStr "BLOCKED")
               /\ (recommendation m = "REVIEW" ->
                   result_status r = VStr "REVIEW"
                   \/ result_status r = VStr "BLOCKED")).
  { intros d s0 Hsyn.
    destruct (synthesize_run w tx m d s0) as (e & ra & ra' & s2 & Hs & _).
    rewrite Hs in Hsyn. injection Hsyn as <- _.
    cbn [result_risk_score result_status].
    set (c := RiskAssessorAgent.composite_risk_score _ _).
    pose proof (composite_at_least_base (risk_score m) d
                  (default [] (detected_patterns e))) as Hc.
    fold c in Hc.
    destruct (determine_status_bands c) as (_ & Hb & Hr & _).
    exists c. split; [reflexivity|]. split; [exact Hc|].
    rewrite Hrec.
    destruct (85 <=? risk_score m) eqn:E1;
      [apply Z.leb_le in E1 | apply Z.leb_gt in E1].
    - split; [|discriminate]. intros _. f_equal. apply Hb. lia.
    - destruct (60 <=? risk_score m) eqn:E2;
        [apply Z.leb_le in E2 | apply Z.leb_gt in E2];
        (split; [discriminate|]); [|discriminate].
      intros _. destruct (Z.lt_ge_cases c 85).
      + left. f_equal. apply Hr. lia.
      + right. f_equal. apply Hb. lia. }
  exists m.
  destruct (orchestrate_cases w tx photo code s _ m Hm)
    as [(_ & Heq) | (ph & c & d & _ & _ & _ & _ & Hcase)].
  - rewrite Heq in Hrun. destruct (Hsyn _ _ Hrun) as (score & H).
    exists score. split; [exact Hm|exact H].
  - destruct Hcase as [(_ & Heq) | (_ & Heq)]; rewrite Heq in Hrun.
    + injection Hrun as <- _. exists 100. split; [exact Hm|].
      split; [reflexivity|]. split; [lia|]. simpl. auto.
    + destruct (Hsyn _ _ Hrun) as (score & H).
      exists score. split; [exact Hm|exact H].
Qed.

Lemma decision_not_more_lenient_witness :
  exists r s',
    Orchestrator.orchestrate_transaction
      (Demo.world_at 12 Demo.mock_detection)
      (Demo.transaction 200 (Some "Desktop")) None None
      (Demo.loaded (9 # 10))
    = (inr r, s')
    /\ result_status r = VStr "BLOCKED".
Proof.
  assert (Hrun : exists r s' m,
             Orchestrator.orchestrate_transaction
               (Demo.world_at 12 Demo.mock_detection)
               (Demo.transaction 200 (Some "Desktop")) None None
               (Demo.loaded (9 # 10))
             = (inr r, s')
             /\ TransactionMonitorAgent.analyze_transaction
                  (Demo.world_at 12 Demo.mock_detection)
                  (Demo.transaction 200 (Some "Desktop"))
                  (Demo.loaded (9 # 10))
                = (inr m, started_with TransactionMonitor
                            (Demo.loaded (9 # 10)))
             /\ recommendation m = "BLOCK")
    by (vm_compute; eexists _, _, _; split; [reflexivity|];
        split; reflexivity).
  destruct Hrun as (r & s' & m & Hrun & Hm & Hrec).
  destruct (decision_not_more_lenient _ _ _ _ _ _ _ Hrun)
    as (m' & score & Hm' & _ & _ & Hblock & _).
  rewrite Hm in Hm'. injection Hm' as <-.
  exists r, s'. split; [exact Hrun|]. apply Hblock, Hrec.
Defined.

(* ===================================================================== *)
(** ** The suspicion gate and the evidence patterns *)
(* ===================================================================== *)

(** X23.  The first rule of the suspicion gate and the amount pattern of the
    Evidence Collector read the same profile with different defaults for a
    missing average (1000 at the gate, 0 at the collector).  So for a
    transaction that the gate flagged with high_value_deviation, the
    collector reports the amount anomaly, and the risk assessor adds its 15
    points, exactly when the profile holds a positive average; this is the
    case for every user without a stored profile. *)
Theorem gate_deviation_and_amount_pattern (w w' : World)
    (tx : TransactionData) (p : Q) (s s1 s2 s3 : State) (flag : bool)
    (reasons : list string) (e : Evidence) :
  Utils.calculate_suspicious_flag w tx p s = (inr (flag, reasons), s1) ->
  In "high_value_deviation" reasons ->
  EvidenceCollectorAgent.collect_evidence w' tx s2 = (inr e, s3) ->
  MOCK_USER_PROFILES s2 = MOCK_USER_PROFILES s ->
  (AdjustmentTable.amount_anomaly (default [] (detected_patterns e)) = true
   <-> exists average,
         avg_transaction_amount
           (Services.lookup_profile (MOCK_USER_PROFILES s) (user_id tx))
         = Some average
         /\ (0 < average)%Q)
  /\ (forall d,
        AdjustmentTable.amount_anomaly (default [] (detected_patterns e))
        = true ->
        In ("Amount anomaly", 15)
          (RiskAssessorAgent.risk_adjustments d
             (default [] (detected_patterns e))))
  /\ ((forall uid, user_id tx = Some uid ->
                   MOCK_USER_PROFILES s !! uid = None) ->
      AdjustmentTable.amount_anomaly (default [] (detected_patterns e))
      = true).
Proof.
  intros Hgate Hin Hcollect Hsame.
  rewrite gate_run in Hgate. cbv zeta in Hgate.
  injection Hgate as _ <- _.
  apply picks_In in Hin.
  destruct Hin as [(_ & Hrule)|[(H & _)|[(H & _)|[(H & _)|(H & _)]]]];
    try discriminate.
  unfold GateRules.test_high_value_deviation, GateRules.inputs_of in Hrule.
  cbn [GateRules.amount GateRules.baseline_average] in Hrule.
  apply andb_true_iff in Hrule. destruct Hrule as (Hfive & _).
  apply py_gt_true in Hfive.
  destruct (collected_patterns w' tx s2 s3 e Hcollect) as (Hamount & _).
  cbv zeta in Hamount. rewrite Hsame in Hamount.
  set (profile := Services.lookup_profile (MOCK_USER_PROFILES s) (user_id tx))
    in *.
  assert (Hiff : AdjustmentTable.amount_anomaly
                   (default [] (detected_patterns e)) = true
                 <-> exists average,
                       avg_transaction_amount profile = Some average
                       /\ (0 < average)%Q).
  { rewrite Hamount. destruct (avg_transaction_amount profile) as [a|].
    - simpl in *. split.
      + intros (Hpos & _). eauto.
      + intros (a' & Ha & Hpos). injection Ha as <-. auto.
    - simpl. split.
      + intros (Hpos & _). now apply Qlt_irrefl in Hpos.
      + intros (a' & Ha & _). discriminate. }
  split; [exact Hiff|]. split.
  - intros d Hyes. unfold RiskAssessorAgent.risk_adjustments. cbv zeta.
    unfold AdjustmentTable.amount_anomaly in Hyes. rewrite Hyes.
    destruct (Py.any_contains "High velocity" _),
      (Py.any_contains "New device" _);
      repeat (apply in_or_app; first [right; simpl; tauto | left]).
  - intros Hunknown. apply Hiff. exists 1000%Q. split; [|reflexivity].
    subst profile. unfold Services.lookup_profile.
    destruct (user_id tx) as [uid|]; [|reflexivity].
    now rewrite (Hunknown uid eq_refl).
Qed.

Lemma gate_deviation_and_amount_pattern_witness :
  exists e s3,
    EvidenceCollectorAgent.collect_evidence
      (Demo.world_at 13 Demo.mock_detection)
      (Demo.transaction 9000 (Some "Desktop")) (Demo.loaded (1 # 10))
    = (inr e, s3)
    /\ AdjustmentTable.amount_anomaly (default [] (detected_patterns e))
       = true.
Proof.
  destruct (collect_evidence_state (Demo.world_at 13 Demo.mock_detection)
              (Demo.transaction 9000 (Some "Desktop")) (Demo.loaded (1 # 10)))
    as (e & He).
  destruct (gate_deviation_and_amount_pattern
              (Demo.world_at 12 Demo.mock_detection)
              (Demo.world_at 13 Demo.mock_detection)
              (Demo.transaction 9000 (Some "Desktop")) (1 # 10)
              (Demo.loaded (1 # 10)) (Demo.loaded (1 # 10))
              (Demo.loaded (1 # 10))
              (started_with EvidenceCollector (Demo.loaded (1 # 10)))
              true ["high_value_deviation"] e)
    as (_ & _ & Hunknown);
    [reflexivity|simpl; auto|exact He|reflexivity|].
  exists e, (started_with EvidenceCollector (Demo.loaded (1 # 10))).
  split; [exact He|]. apply Hunknown. intros uid _. reflexivity.
Defined.

(* ===================================================================== *)
(** ** The Nova-based verifier and orchestrator *)
(* ===================================================================== *)

(** X24.  The Nova-based [analyze_deepfake_verification].  Without a user
    identifier or a photo path it raises the [ValueError] of its check,
    whatever the collaborators would answer.  When it returns, the summary
    and the detailed checks are those of [parse_deepfake_result] on the
    answer of the verification service, and the final verdict is the one of
    the Nova answer alone: REVIEW when the answer is not JSON or has no
    verdict, and otherwise the verdict of the answer as it is, also when the
    biometric checks say that the photo is not authentic. *)
Theorem nova_verifier_verdict (c : NovaDeepfakeDetector.Collaborators)
    (tx : gmap string Json) :
  (NovaRiskAssessor.truthy (NovaDeepfakeDetector.get tx "user_id") = false
   \/ NovaRiskAssessor.truthy (NovaDeepfakeDetector.get tx "photo_s3_path")
      = false ->
   NovaDeepfakeDetector.analyze_deepfake_verification c tx
   = inl (Py.ValueError "Missing required fields: user_id and photo_s3_path"))
  /\ (forall a,
        NovaDeepfakeDetector.analyze_deepfake_verification c tx = inr a ->
        exists api response,
          NovaDeepfakeDetector.call_deepfake_api c
            (NovaDeepfakeDetector.get tx "user_id")
            (NovaDeepfakeDetector.get tx "photo_s3_path")
            (default (JNum 80) (tx !! "similarity_threshold"))
          = inr api
          /\ NovaDeepfakeDetector.call_nova c
               (NovaDeepfakeDetector.build_deepfake_analysis_prompt c tx
                  (DeepfakeTools.parse_deepfake_result api))
               800 (2 # 10)%Q
             = inr response
          /\ NovaDeepfakeDetector.detailed_checks a
             = DeepfakeTools.parse_deepfake_result api
          /\ NovaDeepfakeDetector.summary_is_authentic a
             = DeepfakeTools.is_authentic
                 (DeepfakeTools.parse_deepfake_result api)
          /\ NovaDeepfakeDetector.summary_overall_confidence a
             = DeepfakeTools.overall_confidence
                 (DeepfakeTools.parse_deepfake_result api)
          /\ (NovaDeepfakeDetector.json_loads c response
              = inl Py.JSONDecodeError ->
              NovaDeepfakeDetector.final_verdict a = "REVIEW")
          /\ (forall fields,
                NovaDeepfakeDetector.json_loads c response
                = inr (JObj fields) ->
                (fields !! "verdict" = None ->
                 NovaDeepfakeDetector.final_verdict a = "REVIEW")
                /\ (forall verdict,
                      fields !! "verdict" = Some (JStr verdict) ->
                      NovaDeepfakeDetector.final_verdict a = verdict))).
Proof.
  unfold NovaDeepfakeDetector.analyze_deepfake_verification. cbv zeta. split.
  - intros [-> | ->]; [reflexivity|]. now rewrite orb_true_r.
  - intros a.
    destruct (negb _ || negb _); [discriminate|].
    destruct (NovaDeepfakeDetector.call_deepfake_api c _ _ _) as [e|api];
      [discriminate|].
    destruct (NovaDeepfakeDetector.call_nova c _ 800 (2 # 10)%Q)
      as [e|response] eqn:Hnova; [discriminate|].
    intros H. exists api, response. split; [reflexivity|].
    split; [exact Hnova|].
    destruct (NovaDeepfakeDetector.json_loads c response) as [e|answer].
    + destruct e; try discriminate. injection H as <-.
      do 3 (split; [reflexivity|]). split; [reflexivity|].
      intros fields H. discriminate.
    + destruct answer as [| | | | |fields]; try discriminate.
      injection H as <-.
      do 3 (split; [reflexivity|]). split; [discriminate|].
      intros fields' H. injection H as <-. split.
      * intros Hv. cbn. now rewrite Hv.
      * intros verdict Hv. cbn. now rewrite Hv.
Qed.

(** The risk assessor of the orchestrator always answers. *)
Lemma nova_assessment_returns (a : NovaOrchestrator.Agents)
    (tx fr er dr : Json) :
  exists assessment,
    NovaRiskAssessor.assess_risk (NovaOrchestrator.risk_assessor a) tx fr er dr
    = inr assessment
    /\ ((forall prompt,
           exists e,
             NovaRiskAssessor.call_nova (NovaOrchestrator.risk_assessor a)
               prompt 1500 (3 # 10)%Q = inl e) ->
        assessment !! "final_verdict" = Some (JStr "REVIEW")
        /\ assessment !! "confidence_score" = Some (JNum 0)).
Proof.
  unfold NovaRiskAssessor.assess_risk, NovaRiskAssessor.assess_risk_body.
  destruct (NovaRiskAssessor.build_risk_assessment_prompt _ tx fr er dr)
    as [e|prompt].
  { eexists. split; [reflexivity|]. intros _. split; reflexivity. }
  destruct (NovaRiskAssessor.call_nova _ prompt 1500 (3 # 10)%Q)
    as [e|response] eqn:Hcall.
  { eexists. split; [reflexivity|]. intros _. split; reflexivity. }
  match goal with
  | |- exists x, match ?body with inl _ => _ | inr _ => _ end = _ /\ _ =>
      destruct body as [e|assessment]
  end.
  - eexists. split; [reflexivity|]. intros _. split; reflexivity.
  - exists assessment. split; [reflexivity|]. intros Hdown.
    destruct (Hdown prompt) as (e & He). congruence.
Qed.

(** X25.  The Nova-based orchestrator degrades instead of failing.  When the
    amount of the transaction is a number (or absent) and the evidence
    names its patterns in a list (or not at all), it returns a result
    whatever the three agents and the Nova client do.  An agent that raised
    is recorded as an error entry: a failed transaction monitor leaves the
    ML fraud score of the summary at 0, a failed evidence collector the
    number of patterns at 0, and a skipped biometric verification the photo
    as not verified.  A biometric verification that raised leaves the photo
    as not verified when the exception has a message; with an empty message
    the error entry is not recognised and the photo counts as verified.
    When the Nova client fails on every prompt, the final verdict is REVIEW
    with confidence 0. *)
Theorem nova_orchestration_degrades (a : NovaOrchestrator.Agents)
    (tx : gmap string Json) (photo : option string) :
  ((tx !! "transaction_amount" = None
    \/ exists amount, tx !! "transaction_amount" = Some (JNum amount)) ->
   ((exists e, NovaOrchestrator.collect_evidence a tx = inl e)
    \/ exists evidence,
         NovaOrchestrator.collect_evidence a tx = inr evidence
         /\ (evidence !! "detected_patterns" = None
             \/ exists patterns,
                  evidence !! "detected_patterns" = Some (JArr patterns))) ->
   exists r, NovaOrchestrator.orchestrate_fraud_detection a tx photo = inr r)
  /\ (forall r,
        NovaOrchestrator.orchestrate_fraud_detection a tx photo = inr r ->
        (forall e,
           NovaOrchestrator.analyze_fraud a tx = inl e ->
           NovaOrchestrator.agent_1_fraud_detection r
           = NovaOrchestrator.agent_error e "transaction_monitor"
           /\ NovaOrchestrator.ml_fraud_score (NovaOrchestrator.summary r)
              = JNum 0)
        /\ (forall e,
              NovaOrchestrator.collect_evidence a tx = inl e ->
              NovaOrchestrator.agent_2_evidence_collection r
              = NovaOrchestrator.agent_error e "evidence_collector"
              /\ NovaOrchestrator.suspicious_patterns
                   (NovaOrchestrator.summary r) = 0)
        /\ (photo = None \/ photo = Some "" ->
            NovaOrchestrator.agent_3_biometric_verification r = None
            /\ NovaOrchestrator.photo_verified (NovaOrchestrator.summary r)
               = false)
        /\ (forall path e,
              photo = Some path -> path <> "" ->
              NovaOrchestrator.analyze_deepfake_verification a
                (<["photo_s3_path" := JStr path]> tx) = inl e ->
              NovaOrchestrator.agent_3_biometric_verification r
              = Some (NovaOrchestrator.agent_error e "deepfake_detector")
              /\ NovaOrchestrator.photo_verified (NovaOrchestrator.summary r)
                 = negb (Py.truthy_str (Py.str_of_exn e)))
        /\ ((forall prompt,
               exists e,
                 NovaRiskAssessor.call_nova (NovaOrchestrator.risk_assessor a)
                   prompt 1500 (3 # 10)%Q = inl e) ->
            NovaOrchestrator.summary_final_verdict
              (NovaOrchestrator.summary r) = JStr "REVIEW"
            /\ NovaOrchestrator.summary_confidence
                 (NovaOrchestrator.summary r) = JNum 0)).
Proof.
  unfold NovaOrchestrator.orchestrate_fraud_detection. cbv zeta. split.
  - intros Hamount Hevidence.
    assert (Hformat :
              NovaOrchestrator.format_amount
                (default (JNum 0) (tx !! "transaction_amount")) = inr tt).
    { destruct Hamount as [-> | (amount & ->)]; reflexivity. }
    rewrite Hformat.
    destruct (nova_assessment_returns a (JObj tx)
                (JObj (NovaOrchestrator.run_transaction_monitor a tx))
                (JObj (NovaOrchestrator.run_evidence_collector a tx))
                (NovaOrchestrator.json_of
                   (NovaOrchestrator.run_deepfake_detector a tx photo)))
      as (assessment & -> & _).
    assert (Hlen : exists n,
               NovaOrchestrator.len
                 (default (JArr [])
                    (NovaOrchestrator.run_evidence_collector a tx
                       !! "detected_patterns")) = inr n).
    { unfold NovaOrchestrator.run_evidence_collector.
      destruct Hevidence as [(e & ->) | (evidence & -> & Hpatterns)].
      - eexists. reflexivity.
      - destruct Hpatterns as [-> | (patterns & ->)]; eexists; reflexivity. }
    destruct Hlen as (n & ->). eauto.
  - intros r.
    destruct (NovaOrchestrator.format_amount _); [discriminate|].
    destruct (nova_assessment_returns a (JObj tx)
                (JObj (NovaOrchestrator.run_transaction_monitor a tx))
                (JObj (NovaOrchestrator.run_evidence_collector a tx))
                (NovaOrchestrator.json_of
                   (NovaOrchestrator.run_deepfake_detector a tx photo)))
      as (assessment & -> & Hdown).
    destruct (NovaOrchestrator.len _) as [e|n] eqn:Hlen; [discriminate|].
    intros H. injection H as <-.
    cbn [NovaOrchestrator.agent_1_fraud_detection
         NovaOrchestrator.agent_2_evidence_collection
         NovaOrchestrator.agent_3_biometric_verification
         NovaOrchestrator.summary NovaOrchestrator.ml_fraud_score
         NovaOrchestrator.suspicious_patterns NovaOrchestrator.photo_verified
         NovaOrchestrator.summary_final_verdict
         NovaOrchestrator.summary_confidence].
    split; [|split; [|split; [|split]]].
    + intros e He. unfold NovaOrchestrator.run_transaction_monitor.
      rewrite He. split; reflexivity.
    + intros e He. revert Hlen.
      unfold NovaOrchestrator.run_evidence_collector. rewrite He.
      intros Hlen. split; [reflexivity|].
      change (inr (B := Z) (A := Py.Exn) 0 = inr n) in Hlen.
      now injection Hlen as <-.
    + intros [-> | ->]; split; reflexivity.
    + intros path e -> Hpath He.
      unfold NovaOrchestrator.run_deepfake_detector.
      destruct path as [|ch rest]; [done|]. cbn [Py.truthy_str].
      rewrite He. split; reflexivity.
    + intros Hnova. destruct (Hdown Hnova) as (Hv & Hc).
      unfold NovaDeepfakeDetector.get. rewrite Hv, Hc. split; reflexivity.
Qed.

(* ===================================================================== *)
(** ** The classifier adapter of [backend/tools/ml_tools.py] *)
(* ===================================================================== *)

(** The body of the encoding [try], with its [except]: always a number. *)
Lemma encode_step_value (encoders : MlTools.LabelEncoders) (col : string)
    (v : FeatureVal) :
  exists q,
    match MlTools.encoded encoders col v with
    | inr value => value
    | inl _ => FNum 0
    end = FNum q.
Proof.
  unfold MlTools.encoded, MlTools.encode_with.
  destruct encoders as [d|encoder].
  - destruct (d !! col) as [encoder|]; [|eauto].
    destruct v as [q|t]; [eauto|].
    destruct (Py.mem t (classes_ encoder)); [|eauto].
    destruct (transform encoder t); eauto.
  - destruct v as [q|t]; [eauto|].
    destruct (Py.mem t (classes_ encoder)); [|eauto].
    destruct (transform encoder t); eauto.
Qed.

(** The frame that [prepare_features] builds before encoding, whatever
    values the feature dictionary holds: the 22 columns of the model in
    their order, none of them defaulted. *)
Lemma ordered_frame
    (v1 v2 v3 v4 v5 v6 v7 v8 v9 v10 v11 v12 v13 v14 v15 v16 v17 v18 v19 v20
       v21 v22 : FeatureVal) :
  List.map
    (fun col =>
       (col,
        default (FNum 0)
          ((list_to_map
              [("Transaction_Amount", v1); ("Transaction_Type", v2);
               ("Device_Type", v3); ("Location", v4);
               ("Merchant_Category", v5); ("Card_Type", v6);
               ("Authentication_Method", v7); ("Account_Balance", v8);
               ("Previous_Fraudulent_Activity", v9);
               ("Daily_Transaction_Count", v10);
               ("Avg_Transaction_Amount_7d", v11);
               ("Failed_Transaction_Count_7d", v12); ("Card_Age", v13);
               ("IP_Address_Flag", v14); ("Transaction_Distance", v15);
               ("is_new_device", v16); ("amount_deviation_ratio", v17);
               ("is_high_value", v18); ("hour_of_day", v19);
               ("day_of_week", v20); ("Is_Weekend", v21);
               ("is_unusual_hour", v22)] : gmap string FeatureVal)
             !! col)))
    FeatureEngineering.FEATURE_COLUMNS
  = [("Transaction_Amount", v1); ("Transaction_Type", v2);
     ("Account_Balance", v8); ("Device_Type", v3); ("Location", v4);
     ("Merchant_Category", v5); ("IP_Address_Flag", v14);
     ("Previous_Fraudulent_Activity", v9); ("Daily_Transaction_Count", v10);
     ("Avg_Transaction_Amount_7d", v11);
     ("Failed_Transaction_Count_7d", v12); ("Card_Type", v6);
     ("Card_Age", v13); ("Transaction_Distance", v15);
     ("Authentication_Method", v7); ("Is_Weekend", v21);
     ("hour_of_day", v19); ("day_of_week", v20); ("is_unusual_hour", v22);
     ("amount_deviation_ratio", v17); ("is_high_value", v18);
     ("is_new_device", v16)].
Proof. vm_compute. reflexivity. Qed.

(** The encoding loop on that frame replaces the six categorical values
    and nothing else. *)
Lemma encoded_frame (f : string -> FeatureVal -> FeatureVal)
    (v1 v2 v3 v4 v5 v6 v7 v8 v9 v10 v11 v12 v13 v14 v15 v16 v17 v18 v19 v20
       v21 v22 : FeatureVal) :
  fold_left
    (fun df col =>
       match MlTools.column df col with
       | Some original_value => MlTools.set_column df col (f col original_value)
       | None => df
       end)
    FeatureEngineering.CATEGORICAL_COLUMNS
    [("Transaction_Amount", v1); ("Transaction_Type", v2);
     ("Account_Balance", v8); ("Device_Type", v3); ("Location", v4);
     ("Merchant_Category", v5); ("IP_Address_Flag", v14);
     ("Previous_Fraudulent_Activity", v9); ("Daily_Transaction_Count", v10);
     ("Avg_Transaction_Amount_7d", v11);
     ("Failed_Transaction_Count_7d", v12); ("Card_Type", v6);
     ("Card_Age", v13); ("Transaction_Distance", v15);
     ("Authentication_Method", v7); ("Is_Weekend", v21);
     ("hour_of_day", v19); ("day_of_week", v20); ("is_unusual_hour", v22);
     ("amount_deviation_ratio", v17); ("is_high_value", v18);
     ("is_new_device", v16)]
  = [("Transaction_Amount", v1);
     ("Transaction_Type", f "Transaction_Type" v2);
     ("Account_Balance", v8); ("Device_Type", f "Device_Type" v3);
     ("Location", f "Location" v4);
     ("Merchant_Category", f "Merchant_Category" v5);
     ("IP_Address_Flag", v14);
     ("Previous_Fraudulent_Activity", v9); ("Daily_Transaction_Count", v10);
     ("Avg_Transaction_Amount_7d", v11);
     ("Failed_Transaction_Count_7d", v12); ("Card_Type", f "Card_Type" v6);
     ("Card_Age", v13); ("Transaction_Distance", v15);
     ("Authentication_Method", f "Authentication_Method" v7);
     ("Is_Weekend", v21);
     ("hour_of_day", v19); ("day_of_week", v20); ("is_unusual_hour", v22);
     ("amount_deviation_ratio", v17); ("is_high_value", v18);
     ("is_new_device", v16)].
Proof. reflexivity. Qed.

(** A loop depends on its body only through what the body computes. *)
Lemma fold_left_same {A B} (f g : A -> B -> A) (l : list B) (a : A) :
  (forall x y, f x y = g x y) -> fold_left f l a = fold_left g l a.
Proof.
  intros Hfg. revert a. induction l as [|y l IH]; intros a; [reflexivity|].
  simpl. now rewrite Hfg, IH.
Qed.

(** One iteration of the encoding loop, with the value it assigns. *)
Lemma encode_step_assigns (encoders : MlTools.LabelEncoders)
    (df : MlTools.DataFrame) (col : string) :
  MlTools.encode_step encoders df col
  = match MlTools.column df col with
    | Some original_value =>
        MlTools.set_column df col
          match MlTools.encoded encoders col original_value with
          | inr value => value
          | inl _ => FNum 0
          end
    | None => df
    end.
Proof.
  unfold MlTools.encode_step. destruct (MlTools.column df col); [|reflexivity].
  destruct (MlTools.encoded encoders col f); reflexivity.
Qed.

(** The frame that [prepare_features] returns. *)
Lemma prepare_features_frame (c : MlTools.Collaborators)
    (tx : FeatureEngineering.LambdaInput) (encoders : MlTools.LabelEncoders) :
  MlTools.get_label_encoder c = inr encoders ->
  exists df,
    MlTools.prepare_features c tx = inr df
    /\ List.map fst df = FeatureEngineering.FEATURE_COLUMNS
    /\ forallb FraudModelStartup.is_number (List.map snd df) = true
    /\ MlTools.column df "is_unusual_hour"
       = Some (FNum (inject_Z
                       (FeatureEngineering.is_unusual_hour
                          (FeatureEngineering.generate_time_features
                             (MlTools.clock c)
                             (FeatureEngineering.in_timestamp tx)))))
    /\ MlTools.column df "hour_of_day"
       = Some (FNum (inject_Z
                       (FeatureEngineering.hour_of_day
                          (FeatureEngineering.generate_time_features
                             (MlTools.clock c)
                             (FeatureEngineering.in_timestamp tx)))))
    /\ MlTools.column df "is_high_value"
       = Some (FNum (if Py.gt
                          (default 0%Q
                             (FeatureEngineering.in_transaction_amount tx))
                          1000
                     then 1 else 0))
    /\ MlTools.column df "amount_deviation_ratio"
       = Some (FNum (PyFloat.div (MlTools.floats c)
                       (Qabs (PyFloat.sub (MlTools.floats c)
                                (default 0%Q
                                   (FeatureEngineering.in_transaction_amount
                                      tx))
                                200))
                       200)).
Proof.
  intros He. unfold MlTools.prepare_features. rewrite He.
  unfold FeatureEngineering.generate_all_features. cbv zeta.
  rewrite ordered_frame.
  rewrite (fold_left_same _ _ _ _ (encode_step_assigns encoders)).
  rewrite (encoded_frame
             (fun col v => match MlTools.encoded encoders col v with
                           | inr value => value
                           | inl _ => FNum 0
                           end)).
  eexists. split; [reflexivity|]. split; [reflexivity|]. split.
  - cbn [List.map snd forallb FraudModelStartup.is_number andb].
    repeat match goal with
           | |- context [match MlTools.encoded encoders ?col ?v with
                         | inr value => value
                         | inl _ => FNum 0
                         end] =>
               let q := fresh "q" in
               let Hq := fresh "Hq" in
               destruct (encode_step_value encoders col v) as [q Hq];
               rewrite Hq
           end.
    reflexivity.
  - repeat split.
Qed.

(** [int(x)] of a value between 0 and 100. *)
Lemma int_between (x : Q) :
  (0 <= x <= 100)%Q -> 0 <= Py.int x <= 100.
Proof.
  intros [Hlo Hhi]. destruct x as [n d].
  unfold Qle in Hlo, Hhi. simpl in Hlo, Hhi.
  unfold Py.int. simpl.
  rewrite Z.quot_div_nonneg by lia.
  split.
  - apply Z.div_pos; lia.
  - apply Z.div_le_upper_bound; lia.
Qed.

(** The integer read from a numeric column of the frame. *)
Lemma int_column_number (df : MlTools.DataFrame) (col : string) (q : Q) :
  MlTools.column df col = Some (FNum q) ->
  MlTools.int_column df col = inr (Py.int q).
Proof. intros H. unfold MlTools.int_column. now rewrite H. Qed.

(** X26.  The classifier adapter of the Nova-based monitor.  With the model
    loaded, [predict_fraud] hands the classifier a row of the 22 model
    columns in their order whose entries are all numbers, for every
    transaction and whatever the label encoders are: an unknown category,
    a column without encoder and an encoder that raises all give 0.  The
    fraud score is the integer part of the floating-point product of the
    fraud probability by 100, whatever that product is (it need not be the
    exact percentage): a value between 0 and 100 when the product lies
    between 0 and 100.  The risk level follows the score (LOW below 30,
    MEDIUM below 70, HIGH from 70).  There is no fallback probability: when
    the encoders cannot be loaded or the classifier raises, [predict_fraud]
    raises the same exception. *)
Theorem nova_prediction (c : MlTools.Collaborators)
    (tx : FeatureEngineering.LambdaInput) (model : MlTools.PairClassifier) :
  MlTools.get_xgboost_model c = inr model ->
  (forall e, MlTools.get_label_encoder c = inl e ->
             MlTools.predict_fraud c tx = inl e)
  /\ (forall encoders,
        MlTools.get_label_encoder c = inr encoders ->
        exists df,
          MlTools.prepare_features c tx = inr df
          /\ List.map fst df = FeatureEngineering.FEATURE_COLUMNS
          /\ forallb FraudModelStartup.is_number (List.map snd df) = true
          /\ (forall e,
                MlTools.predict_proba_pair model (List.map snd df) = inl e ->
                MlTools.predict_fraud c tx = inl e)
          /\ (forall p0 p1,
                MlTools.predict_proba_pair model (List.map snd df)
                = inr (p0, p1) ->
                exists ml,
                  MlTools.predict_fraud c tx = inr ml
                  /\ NovaTransactionMonitor.ml_fraud_score ml
                     = Py.int (PyFloat.mul (MlTools.floats c) p1 100)
                  /\ ((0 <= PyFloat.mul (MlTools.floats c) p1 100 <= 100)%Q ->
                      0 <= NovaTransactionMonitor.ml_fraud_score ml <= 100)
                  /\ (NovaTransactionMonitor.ml_risk_level ml = "LOW"
                      <-> NovaTransactionMonitor.ml_fraud_score ml < 30)
                  /\ (NovaTransactionMonitor.ml_risk_level ml = "MEDIUM"
                      <-> 30 <= NovaTransactionMonitor.ml_fraud_score ml < 70)
                  /\ (NovaTransactionMonitor.ml_risk_level ml = "HIGH"
                      <-> 70 <= NovaTransactionMonitor.ml_fraud_score ml))).
Proof.
  intros Hmodel. split.
  - intros e He. unfold MlTools.predict_fraud, MlTools.prepare_features.
    now rewrite Hmodel, He.
  - intros encoders He.
    destruct (prepare_features_frame c tx encoders He)
      as (df & Hdf & Hcols & Hnum & Hunusual & Hhour & Hhigh & _).
    exists df. split; [exact Hdf|]. split; [exact Hcols|].
    split; [exact Hnum|]. unfold MlTools.predict_fraud.
    rewrite Hmodel, Hdf. split.
    + intros e ->. reflexivity.
    + intros p0 p1 ->.
      rewrite (int_column_number df _ _ Hunusual),
        (int_column_number df _ _ Hhour), (int_column_number df _ _ Hhigh).
      eexists. split; [reflexivity|].
      cbn [NovaTransactionMonitor.ml_fraud_score
           NovaTransactionMonitor.ml_risk_level].
      split; [reflexivity|]. split; [apply int_between|].
      set (score := Py.int (PyFloat.mul (MlTools.floats c) p1 100)).
      destruct (score <? 30) eqn:E1;
        [apply Z.ltb_lt in E1 | apply Z.ltb_ge in E1].
      * repeat split; intros; try lia; try discriminate.
      * destruct (score <? 70) eqn:E2;
          [apply Z.ltb_lt in E2 | apply Z.ltb_ge in E2];
          repeat split; intros; try lia; try discriminate.
Qed.

Lemma nova_prediction_witness :
  exists ml,
    MlTools.predict_fraud
      {| MlTools.clock :=
           {| FeatureEngineering.datetime_now :=
                {| FeatureEngineering.dt_hour := 23;
                   FeatureEngineering.dt_weekday := 1 |};
              FeatureEngineering.datetime_fromisoformat := fun _ => None |};
         MlTools.get_xgboost_model :=
           inr {| MlTools.predict_proba_pair :=
                    fun _ => inr ((1 # 4)%Q, (3 # 4)%Q) |};
         MlTools.get_label_encoder := inr (MlTools.EncoderDict ∅);
         MlTools.floats := PyFloat.exact |}
      {| FeatureEngineering.in_timestamp := FeatureEngineering.NoTimestamp;
         FeatureEngineering.in_transaction_amount := Some 2500%Q;
         FeatureEngineering.in_transaction_type := Some "ATM Withdrawal";
         FeatureEngineering.in_device_type := Some "Mobile";
         FeatureEngineering.in_location := Some "Tokyo";
         FeatureEngineering.in_merchant_category := Some "Electronics";
         FeatureEngineering.in_card_type := Some "Visa";
         FeatureEngineering.in_authentication_method := Some "Password" |}
    = inr ml
    /\ NovaTransactionMonitor.ml_fraud_score ml = 75
    /\ NovaTransactionMonitor.ml_risk_level ml = "HIGH".
Proof.
  destruct (nova_prediction
              {| MlTools.clock :=
                   {| FeatureEngineering.datetime_now :=
                        {| FeatureEngineering.dt_hour := 23;
                           FeatureEngineering.dt_weekday := 1 |};
                      FeatureEngineering.datetime_fromisoformat :=
                        fun _ => None |};
                 MlTools.get_xgboost_model :=
                   inr {| MlTools.predict_proba_pair :=
                            fun _ => inr ((1 # 4)%Q, (3 # 4)%Q) |};
                 MlTools.get_label_encoder := inr (MlTools.EncoderDict ∅);
                 MlTools.floats := PyFloat.exact |}
              {| FeatureEngineering.in_timestamp :=
                   FeatureEngineering.NoTimestamp;
                 FeatureEngineering.in_transaction_amount := Some 2500%Q;
                 FeatureEngineering.in_transaction_type :=
                   Some "ATM Withdrawal";
                 FeatureEngineering.in_device_type := Some "Mobile";
                 FeatureEngineering.in_location := Some "Tokyo";
                 FeatureEngineering.in_merchant_category :=
                   Some "Electronics";
                 FeatureEngineering.in_card_type := Some "Visa";
                 FeatureEngineering.in_authentication_method :=
                   Some "Password" |}
              _ eq_refl) as (_ & Hloaded).
  destruct (Hloaded (MlTools.EncoderDict ∅) eq_refl)
    as (df & _ & _ & _ & _ & Hanswer).
  destruct (Hanswer (1 # 4)%Q (3 # 4)%Q eq_refl)
    as (ml & Hrun & Hscore & _ & _ & _ & Hhigh).
  exists ml. split; [exact Hrun|].
  assert (E : NovaTransactionMonitor.ml_fraud_score ml = 75)
    by (rewrite Hscore; reflexivity).
  split; [exact E|]. apply Hhigh. rewrite E. lia.
Defined.

(* ===================================================================== *)
(** ** Serializable results *)
(* ===================================================================== *)

(** Induction on values, with the hypothesis for every element of a list,
    of a tuple and of a dictionary. *)
Lemma Value_nested_ind (P : Serializable.Value -> Prop) :
  P Serializable.PNone ->
  (forall b, P (Serializable.PBool b)) ->
  (forall n, P (Serializable.PInt n)) ->
  (forall x, P (Serializable.PFloat x)) ->
  (forall s, P (Serializable.PStr s)) ->
  (forall x, P (Serializable.NpFloat x)) ->
  (forall n, P (Serializable.NpInt n)) ->
  (forall r, P (Serializable.NpOther r)) ->
  (forall items, Forall P items -> P (Serializable.PList items)) ->
  (forall items, Forall P items -> P (Serializable.PTuple items)) ->
  (forall items, Forall (fun kv => P (snd kv)) items ->
                 P (Serializable.PDict items)) ->
  forall v, P v.
Proof.
  intros H1 H2 H3 H4 H5 H6 H7 H8 Hlist Htuple Hdict.
  fix IH 1. intros [ | b | n | x | s | x | n | r | items | items | items].
  - exact H1.
  - apply H2.
  - apply H3.
  - apply H4.
  - apply H5.
  - apply H6.
  - apply H7.
  - apply H8.
  - apply Hlist. induction items as [|v items IHitems]; constructor.
    + apply IH.
    + exact IHitems.
  - apply Htuple. induction items as [|v items IHitems]; constructor.
    + apply IH.
    + exact IHitems.
  - apply Hdict. induction items as [|[k v] items IHitems]; constructor.
    + apply IH.
    + exact IHitems.
Qed.

(** X27.  [convert_to_serializable] of the Nova-based service.  It changes
    nothing in a value that holds no NumPy number of the four kinds it
    looks for, and converting twice is converting once.  In a value without
    tuples, at any depth of lists and dictionaries, no such number is left
    after the conversion; a tuple, however, is returned as it is, with the
    NumPy numbers that it holds. *)
Theorem conversion_removes_numpy_numbers (v : Serializable.Value) :
  Serializable.convert_to_serializable
    (Serializable.convert_to_serializable v)
  = Serializable.convert_to_serializable v
  /\ (Serializable.plain v = true ->
      Serializable.convert_to_serializable v = v)
  /\ (Serializable.tuple_free v = true ->
      Serializable.plain (Serializable.convert_to_serializable v) = true)
  /\ (forall items,
        v = Serializable.PTuple items ->
        Serializable.convert_to_serializable v = v).
Proof.
  induction v as [ | b | n | x | s | x | n | r | items IH | items IH
                 | items IH] using Value_nested_ind;
    try (repeat split; try reflexivity; try discriminate; fail).
  - (* list *)
    assert (H : List.map Serializable.convert_to_serializable
                  (List.map Serializable.convert_to_serializable items)
                = List.map Serializable.convert_to_serializable items
                /\ (forallb Serializable.plain items = true ->
                    List.map Serializable.convert_to_serializable items
                    = items)
                /\ (forallb Serializable.tuple_free items = true ->
                    forallb Serializable.plain
                      (List.map Serializable.convert_to_serializable items)
                    = true)).
    { induction IH as [|v items (Hv1 & Hv2 & Hv3 & _) _ (I1 & I2 & I3)];
        [repeat split|].
      simpl. split; [now rewrite Hv1, I1|].
      split; intros H; apply andb_true_iff in H; destruct H as (Ha & Hb).
      - now rewrite (Hv2 Ha), (I2 Hb).
      - now rewrite (Hv3 Ha), (I3 Hb). }
    destruct H as (H1 & H2 & H3).
    cbn [Serializable.convert_to_serializable Serializable.plain
         Serializable.tuple_free].
    split; [now rewrite H1|]. split; [intros H; now rewrite (H2 H)|].
    split; [exact H3|]. discriminate.
  - (* dictionary *)
    set (f := fun kv : string * Serializable.Value =>
                let (k, v) := kv in
                (k, Serializable.convert_to_serializable v)).
    assert (H : List.map f (List.map f items) = List.map f items
                /\ (forallb (fun kv : string * Serializable.Value =>
                               let (_, v) := kv in Serializable.plain v)
                      items = true ->
                    List.map f items = items)
                /\ (forallb (fun kv : string * Serializable.Value =>
                               let (_, v) := kv in Serializable.tuple_free v)
                      items = true ->
                    forallb (fun kv : string * Serializable.Value =>
                               let (_, v) := kv in Serializable.plain v)
                      (List.map f items) = true)).
    { induction IH as [|[k v] items (Hv1 & Hv2 & Hv3 & _) _ (I1 & I2 & I3)];
        [repeat split|].
      simpl in *. split; [now rewrite Hv1, I1|].
      split; intros H; apply andb_true_iff in H; destruct H as (Ha & Hb).
      - now rewrite (Hv2 Ha), (I2 Hb).
      - now rewrite (Hv3 Ha), (I3 Hb). }
    destruct H as (H1 & H2 & H3).
    cbn [Serializable.convert_to_serializable Serializable.plain
         Serializable.tuple_free]. fold f.
    split; [now rewrite H1|]. split; [intros H; now rewrite (H2 H)|].
    split; [exact H3|]. discriminate.
Qed.
